(** * NAA.K.T. material generator: taxonomy store, keyword matcher,
      name composer, material provisioner, window and logger

    A shallow embedding of [NAAKTGenerator.pushbutton/script.py] and of
    the logger it uses, [OpenAEC.extension/lib/bm_logger.py].

    Modelling conventions.
    - A Python string is a [string]: the text of the runtime's string as
      a sequence of 8-bit characters. In the store and its window
      [str.lower] and [str.strip] are the runtime's own, the two methods
      of a [Runtime]; in the matcher, the composer and the colours
      [Str.lower] and [Str.strip] act on the ASCII range.
    - A Python [dict] is an association list with unique keys, in the
      order of insertion; assigning to an existing key keeps its position.
      The order in which a dict is iterated is the runtime's: where the
      program iterates a dict without sorting it, as [json.dumps] does,
      the order is the [dict_order] of the [Runtime].
    - Code that raises, or that mutates [self], the data files, the log or
      the host document runs in the monad [Py]: a state transformer that
      either returns a value or raises an exception.
    - A data file is modelled by the document [json.loads] would return for
      its text; [json.dumps] followed by [json.loads] is the identity on the
      documents the program writes. The byte-order mark that [load_data]
      strips belongs to the text and is not modelled, and writing a file
      always succeeds.
    - The host application (document, transaction, elements) is modelled by
      a state together with an oracle that says which host call raises.
    - A combo box of the window is its list of items and its selected
      index; a handler bound to a change of selection runs when the index
      changes. What a dialog gives back is an argument of the handler.
    - The file system the logger sees is a table of directories, each with
      its files in the order of the listing, a clock, and the answers of
      the operating system: whether a parent exists and which calls
      succeed. A modification time is an integer. The configured paths are
      parameters, their values depending on the environment. *)

From Stdlib Require Import ZArith Lia Ascii.
From Stdlib Require String.
From stdpp Require Import base list strings sorting.

Local Open Scope Z_scope.
Local Open Scope nat_scope.

(** ** Python strings *)

Module Str.

Definition code (c : ascii) : N := Ascii.N_of_ascii c.

(** [c.lower()] on one character: [A]..[Z] are shifted, the rest is kept. *)
Definition lower_char (c : ascii) : ascii :=
  if ((65 <=? code c) && (code c <=? 90))%N
  then Ascii.ascii_of_N (code c + 32) else c.

Fixpoint lower (s : string) : string :=
  match s with
  | EmptyString => EmptyString
  | String c s' => String (lower_char c) (lower s')
  end.

(** The characters [str.strip()] removes. *)
Definition is_whitespace (c : ascii) : bool :=
  (((9 <=? code c) && (code c <=? 13))
   || ((28 <=? code c) && (code c <=? 32)))%N.

Fixpoint lstrip (s : string) : string :=
  match s with
  | EmptyString => EmptyString
  | String c s' => if is_whitespace c then lstrip s' else s
  end.

Fixpoint rstrip (s : string) : string :=
  match s with
  | EmptyString => EmptyString
  | String c s' =>
      match rstrip s' with
      | EmptyString => if is_whitespace c then EmptyString
                       else String c EmptyString
      | r => String c r
      end
  end.

Definition strip (s : string) : string := rstrip (lstrip s).

(** [s.lstrip(ch)] for a one-character argument. *)
Fixpoint lstrip_char (ch : ascii) (s : string) : string :=
  match s with
  | EmptyString => EmptyString
  | String c s' => if Ascii.eqb c ch then lstrip_char ch s' else s
  end.

(** [s.replace(a, b)] for one-character [a] and [b]. *)
Fixpoint replace_char (a b : ascii) (s : string) : string :=
  match s with
  | EmptyString => EmptyString
  | String c s' =>
      String (if Ascii.eqb c a then b else c) (replace_char a b s')
  end.

Definition startswith (s k : string) : bool := String.prefix k s.

(** [k in s]: [k] occurs in [s] as a contiguous substring. *)
Fixpoint contains (k s : string) : bool :=
  String.prefix k s ||
  match s with
  | EmptyString => false
  | String _ s' => contains k s'
  end.

(** [s[i:j]] for [0 <= i <= j]. *)
Definition slice (i j : nat) (s : string) : string :=
  String.substring i (Nat.min j (String.length s) - i) s.

(** [sep.join(parts)] *)
Definition join (sep : string) (parts : list string) : string :=
  String.concat sep parts.

(** Truthiness of a string. *)
Definition nonempty (s : string) : bool :=
  match s with EmptyString => false | _ => true end.

End Str.

(** [sorted(l)] on a list of strings. *)
Definition sorted (l : list string) : list string := merge_sort String.le l.

(** ** Python dictionaries with string keys *)

Section Dict.
Context {V : Type}.

Definition dict := list (string * V).

Fixpoint dict_get (k : string) (d : dict) : option V :=
  match d with
  | [] => None
  | (k', v) :: d' => if String.eqb k' k then Some v else dict_get k d'
  end.

(** [k in d] *)
Definition dict_has (k : string) (d : dict) : bool :=
  match dict_get k d with Some _ => true | None => false end.

(** [d[k] = v] *)
Fixpoint dict_set (k : string) (v : V) (d : dict) : dict :=
  match d with
  | [] => [(k, v)]
  | (k', v') :: d' =>
      if String.eqb k' k then (k, v) :: d' else (k', v') :: dict_set k v d'
  end.

(** [d.keys()] *)
Definition dict_keys (d : dict) : list string := map fst d.

(** [d.get(k, default)] *)
Definition dict_get_default (k : string) (default : V) (d : dict) : V :=
  match dict_get k d with Some v => v | None => default end.

(** The keys of a dictionary are pairwise distinct. *)
Definition dict_wf (d : dict) : Prop := NoDup (dict_keys d).

End Dict.
Arguments dict : clear implicits.

(** [x in l] for a list of strings. *)
Definition list_has (x : string) (l : list string) : bool :=
  existsb (String.eqb x) l.

(** ** Effects: state and exceptions *)

Inductive exn : Type :=
| ValueError (msg : string)
| AttributeError (msg : string)
| KeyError (key : string)
| HostException (msg : string).

(** [str(e)] *)
Definition exn_str (e : exn) : string :=
  match e with
  | ValueError msg | AttributeError msg | KeyError msg
  | HostException msg => msg
  end.

Inductive outcome (A : Type) : Type :=
| Return (a : A)
| Raise (e : exn).
Arguments Return {A} a.
Arguments Raise {A} e.

Definition Py (S A : Type) : Type := S -> outcome A * S.

Definition ret {S A} (a : A) : Py S A := fun s => (Return a, s).

Definition bind {S A B} (m : Py S A) (k : A -> Py S B) : Py S B :=
  fun s =>
    match m s with
    | (Return a, s') => k a s'
    | (Raise e, s') => (Raise e, s')
    end.

Definition raise {S A} (e : exn) : Py S A := fun s => (Raise e, s).

(** [try: body  except Exception as e: handler(e)] *)
Definition try_except {S A} (body : Py S A) (handler : exn -> Py S A)
  : Py S A :=
  fun s =>
    match body s with
    | (Return a, s') => (Return a, s')
    | (Raise e, s') => handler e s'
    end.

Definition gets {S A} (f : S -> A) : Py S A := fun s => (Return (f s), s).
Definition modify {S} (f : S -> S) : Py S unit := fun s => (Return tt, f s).

Notation "'let*' x ':=' m 'in' k" := (bind m (fun x => k))
  (at level 10, x name, m at level 100, k at level 200, only parsing).
Notation "m '>>' k" := (bind m (fun _ => k))
  (at level 100, k at level 200, right associativity, only parsing).

(** [d[k]], raising [KeyError] for a missing key. *)
Definition dict_item {S V} (k : string) (d : dict V) : Py S V :=
  match dict_get k d with
  | Some v => ret v
  | None => raise (KeyError k)
  end.

(** Log records of the logging collaborator. *)
Inductive level : Type := DEBUG | INFO | WARNING | ERROR.
Definition LogRecord : Type := level * string.

(** ** Static keyword table *)

Definition MATERIAAL_KEYWORDS : dict (list string) :=
  [ ("beton", ["beton"; "concrete"; "cementgebonden"]);
    ("hout", ["hout"; "wood"; "timber"; "eiken"; "grenen"; "multiplex";
              "mdf"; "osb"]);
    ("isolatie", ["isolatie"; "insulation"; "eps"; "xps"; "pir"; "pur";
                  "minerale wol"; "glaswol"; "rotswol"]);
    ("metaal", ["metaal"; "metal"; "staal"; "steel"; "aluminium"; "alu";
                "zink"; "koper"]);
    ("steen", ["steen"; "stone"; "baksteen"; "brick"; "kalkzandsteen";
               "natuursteen"]);
    ("gips", ["gips"; "gypsum"; "gyproc"; "fermacell"]);
    ("glas", ["glas"; "glass"; "beglazing"]);
    ("folie", ["folie"; "dampremmend"; "dampopen"; "membraan"; "barrier"]);
    ("lucht", ["lucht"; "air"; "spouw"; "cavity"]);
    ("kunststof", ["kunststof"; "plastic"; "pvc"; "pe"; "hdpe"; "ldpe"]);
    ("bitumen", ["bitumen"; "dakbedekking"; "roofing"]);
    ("verf", ["verf"; "paint"; "coating"; "latex"]);
    ("tegels", ["tegel"; "tile"; "keramisch"; "ceramic"]);
    ("mortel", ["mortel"; "mortar"; "voeg"; "specie"]) ].

(** ** The runtime *)

(** What the store and its window take from the runtime they run on:
    [str.lower] and [str.strip] on its strings, and the order in which a
    dict is iterated that was filled with the given keys, one after the
    other. The empty string is lowered and stripped to itself, and every
    key of a dict is iterated once. *)
Class Runtime : Type := {
  str_lower : string -> string;
  str_strip : string -> string;
  dict_order : list string -> list string;
  str_lower_empty : str_lower EmptyString = EmptyString;
  str_strip_empty : str_strip EmptyString = EmptyString;
  dict_order_Permutation : forall keys, dict_order keys ≡ₚ keys
}.

(** A runtime that lowers and strips in the ASCII range and iterates a
    dict in the order of insertion. The examples run on it. *)
#[global] Instance Runtime_ascii : Runtime :=
  {| str_lower := Str.lower; str_strip := Str.strip;
     dict_order := fun keys => keys;
     str_lower_empty := eq_refl; str_strip_empty := eq_refl;
     dict_order_Permutation := fun keys => Permutation_refl keys |}.

(** The items of a dict in the order of its iteration. *)
Definition dict_items {rt : Runtime} {V} (d : dict V) : dict V :=
  omap (fun k => pair k <$> dict_get k d) (dict_order (dict_keys d)).

(** ** Data management: class [NAAKTData] *)

Module Taxonomy.

(** What [json.loads] makes of a data file. The data field of an object,
    when present, has the type the program writes there. *)
Inductive json_file (A : Type) : Type :=
| Malformed                  (* [json.loads] raises *)
| NotAnObject                (* a JSON value without [.get] *)
| Object (beschrijving : option string) (payload : option A).
Arguments Malformed {A}.
Arguments NotAnObject {A}.
Arguments Object {A} beschrijving payload.

(** The three data files; [None] is a file that does not exist. *)
Record Disk : Type := {
  NAMEN_FILE : option (json_file (list string));
  KENMERKEN_FILE : option (json_file (dict (list string)));
  TOEPASSINGEN_FILE : option (json_file (dict (list string)))
}.

Record NAAKTData : Type := {
  namen : list string;
  kenmerken_per_naam : dict (list string);
  toepassingen_per_naam : dict (list string)
}.

Record World : Type := {
  self : NAAKTData;
  disk : Disk;
  log : list LogRecord
}.

Definition set_namen (v : list string) : Py World unit :=
  modify (fun w =>
    {| self := {| namen := v;
                  kenmerken_per_naam := kenmerken_per_naam (self w);
                  toepassingen_per_naam := toepassingen_per_naam (self w) |};
       disk := disk w; log := log w |}).

Definition set_kenmerken (v : dict (list string)) : Py World unit :=
  modify (fun w =>
    {| self := {| namen := namen (self w);
                  kenmerken_per_naam := v;
                  toepassingen_per_naam := toepassingen_per_naam (self w) |};
       disk := disk w; log := log w |}).

Definition set_toepassingen (v : dict (list string)) : Py World unit :=
  modify (fun w =>
    {| self := {| namen := namen (self w);
                  kenmerken_per_naam := kenmerken_per_naam (self w);
                  toepassingen_per_naam := v |};
       disk := disk w; log := log w |}).

Definition log_error (msg : string) : Py World unit :=
  modify (fun w =>
    {| self := self w; disk := disk w; log := log w ++ [(ERROR, msg)] |}).

(** [data = json.loads(content); data.get(key, default)] *)
Definition loads_get {A} (f : json_file A) (default : A) : Py World A :=
  match f with
  | Malformed => raise (ValueError "No JSON object could be decoded")
  | NotAnObject => raise (AttributeError "object has no attribute 'get'")
  | Object _ payload =>
      ret (match payload with Some v => v | None => default end)
  end.

Definition load_data : Py World unit :=
  try_except
    (let* d := gets disk in
     (match NAMEN_FILE d with
      | Some f => let* v := loads_get f [] in set_namen v
      | None => ret tt
      end) >>
     (match KENMERKEN_FILE d with
      | Some f => let* v := loads_get f [] in set_kenmerken v
      | None => ret tt
      end) >>
     (match TOEPASSINGEN_FILE d with
      | Some f => let* v := loads_get f [] in set_toepassingen v
      | None => ret tt
      end))
    (fun e => log_error ("Fout bij laden data: " +:+ exn_str e)).

(** [NAAKTData.__init__] *)
Definition init : Py World unit :=
  modify (fun w =>
    {| self := {| namen := []; kenmerken_per_naam := [];
                  toepassingen_per_naam := [] |};
       disk := disk w; log := log w |}) >>
  load_data.

(** [_write_json], one per data file. [json.dumps] writes the items of a
    dict in the order of its iteration. *)
Definition write_namen (data : json_file (list string)) : Py World unit :=
  modify (fun w =>
    {| self := self w;
       disk := {| NAMEN_FILE := Some data;
                  KENMERKEN_FILE := KENMERKEN_FILE (disk w);
                  TOEPASSINGEN_FILE := TOEPASSINGEN_FILE (disk w) |};
       log := log w |}).

Definition write_kenmerken (data : json_file (dict (list string)))
  : Py World unit :=
  modify (fun w =>
    {| self := self w;
       disk := {| NAMEN_FILE := NAMEN_FILE (disk w);
                  KENMERKEN_FILE := Some data;
                  TOEPASSINGEN_FILE := TOEPASSINGEN_FILE (disk w) |};
       log := log w |}).

Definition write_toepassingen (data : json_file (dict (list string)))
  : Py World unit :=
  modify (fun w =>
    {| self := self w;
       disk := {| NAMEN_FILE := NAMEN_FILE (disk w);
                  KENMERKEN_FILE := KENMERKEN_FILE (disk w);
                  TOEPASSINGEN_FILE := Some data |};
       log := log w |}).

Definition save_namen : Py World unit :=
  let* s := gets self in
  write_namen (Object (Some "Geldige NAA.K.T. NAMEN")
                      (Some (sorted (namen s)))).

(** [{naam: sorted(d[naam]) for naam in keys}], added to [acc]. *)
Fixpoint sorted_comprehension (d : dict (list string)) (keys : list string)
    (acc : dict (list string)) : Py World (dict (list string)) :=
  match keys with
  | [] => ret acc
  | naam :: keys' =>
      let* v := dict_item naam d in
      sorted_comprehension d keys' (dict_set naam (sorted v) acc)
  end.

Definition save_kenmerken {rt : Runtime} : Py World unit :=
  let* s := gets self in
  let* sorted_kenmerken :=
    sorted_comprehension (kenmerken_per_naam s)
      (sorted (dict_keys (kenmerken_per_naam s))) [] in
  write_kenmerken (Object (Some "Geldige NAA.K.T. KENMERKEN per NAAM")
                          (Some (dict_items sorted_kenmerken))).

Definition save_toepassingen {rt : Runtime} : Py World unit :=
  let* s := gets self in
  let* sorted_toepassingen :=
    sorted_comprehension (toepassingen_per_naam s)
      (sorted (dict_keys (toepassingen_per_naam s))) [] in
  write_toepassingen
    (Object (Some "Geldige NAA.K.T. TOEPASSINGEN per NAAM")
            (Some (dict_items sorted_toepassingen))).

Definition add_naam {rt : Runtime} (naam : string) : Py World bool :=
  let naam := str_strip (str_lower naam) in
  let* s := gets self in
  if Str.nonempty naam && negb (list_has naam (namen s)) then
    set_namen (namen s ++ [naam]) >>
    set_kenmerken (dict_set naam ["generiek"; "ntb"]
                     (kenmerken_per_naam s)) >>
    set_toepassingen (dict_set naam ["generiek"; "ntb"]
                        (toepassingen_per_naam s)) >>
    save_namen >> save_kenmerken >> save_toepassingen >>
    ret true
  else ret false.

Definition add_kenmerk {rt : Runtime} (naam kenmerk : string)
  : Py World bool :=
  let kenmerk := str_strip (str_lower kenmerk) in
  let* s := gets self in
  if dict_has naam (kenmerken_per_naam s) && Str.nonempty kenmerk then
    let* l := dict_item naam (kenmerken_per_naam s) in
    if negb (list_has kenmerk l) then
      set_kenmerken (dict_set naam (l ++ [kenmerk])
                       (kenmerken_per_naam s)) >>
      save_kenmerken >>
      ret true
    else ret false
  else ret false.

Definition add_toepassing {rt : Runtime} (naam toepassing : string)
  : Py World bool :=
  let toepassing := str_strip (str_lower toepassing) in
  let* s := gets self in
  if dict_has naam (toepassingen_per_naam s) && Str.nonempty toepassing then
    let* l := dict_item naam (toepassingen_per_naam s) in
    if negb (list_has toepassing l) then
      set_toepassingen (dict_set naam (l ++ [toepassing])
                          (toepassingen_per_naam s)) >>
      save_toepassingen >>
      ret true
    else ret false
  else ret false.

Definition get_kenmerken (s : NAAKTData) (naam : string) : list string :=
  sorted (dict_get_default naam [] (kenmerken_per_naam s)).

Definition get_toepassingen (s : NAAKTData) (naam : string) : list string :=
  sorted (dict_get_default naam [] (toepassingen_per_naam s)).

End Taxonomy.

(** ** Helper functions: colours *)

(** Exceptions of pure code, run in any state. *)
Definition lift {S A} (o : outcome A) : Py S A := fun s => (o, s).

Definition hex_digit_value (c : ascii) : option N :=
  let n := Str.code c in
  if ((48 <=? n) && (n <=? 57))%N then Some (n - 48)%N
  else if ((65 <=? n) && (n <=? 70))%N then Some (n - 55)%N
  else if ((97 <=? n) && (n <=? 102))%N then Some (n - 87)%N
  else None.

(** The digits of [int(s, 16)], most significant first. *)
Fixpoint hex_digits_value (acc : N) (s : string) : option N :=
  match s with
  | EmptyString => Some acc
  | String c s' =>
      match hex_digit_value c with
      | Some d => hex_digits_value (16 * acc + d)%N s'
      | None => None
      end
  end.

Definition strip_0x (s : string) : string :=
  match s with
  | String "0" (String "x" s') | String "0" (String "X" s') => s'
  | _ => s
  end.

(** [int(s, 16)]: surrounding whitespace, an optional sign and an optional
    [0x] prefix are accepted; at least one digit is required. Digit
    grouping with underscores is not modelled. *)
Definition int16 (s : string) : outcome Z :=
  let t := Str.strip s in
  let '(negative, body) :=
    match t with
    | String "-" t' => (true, t')
    | String "+" t' => (false, t')
    | _ => (false, t)
    end in
  match strip_0x body with
  | EmptyString => Raise (ValueError "invalid literal for int() with base 16")
  | digits =>
      match hex_digits_value 0 digits with
      | Some n => Return (if negative then - Z.of_N n else Z.of_N n)%Z
      | None => Raise (ValueError "invalid literal for int() with base 16")
      end
  end.

(** The host's colour: three bytes. *)
Record Color : Type := { Red : N; Green : N; Blue : N }.

(** The constructor [Color(r, g, b)] of the host takes bytes. *)
Definition RevitColor (r g b : Z) : outcome Color :=
  if ((0 <=? r) && (r <=? 255) && (0 <=? g) && (g <=? 255)
      && (0 <=? b) && (b <=? 255))%Z
  then Return {| Red := Z.to_N r; Green := Z.to_N g; Blue := Z.to_N b |}
  else Raise (ValueError "value out of range for Byte").

Definition obind {A B} (o : outcome A) (k : A -> outcome B) : outcome B :=
  match o with
  | Return a => k a
  | Raise e => Raise e
  end.

Definition hex_to_revit_color (hex_color : string) : outcome Color :=
  let hex_color := Str.lstrip_char "#" hex_color in
  obind (int16 (Str.slice 0 2 hex_color)) (fun r =>
  obind (int16 (Str.slice 2 4 hex_color)) (fun g =>
  obind (int16 (Str.slice 4 6 hex_color)) (fun b =>
  RevitColor r g b))).

Definition upper_hex_digit (d : N) : ascii :=
  Ascii.ascii_of_N (if (d <? 10)%N then d + 48 else d + 55).

(** The hexadecimal digits of a positive number, most significant first;
    [fuel] bounds the number of digits. *)
Fixpoint upper_hex (fuel : nat) (n : N) (acc : string) : string :=
  match fuel with
  | O => acc
  | S fuel' =>
      let acc' := String (upper_hex_digit (n mod 16)) acc in
      if (n / 16 =? 0)%N then acc' else upper_hex fuel' (n / 16) acc'
  end.

(** ["{:02X}".format(n)] for a byte (or any natural number). *)
Definition format_02X (n : N) : string :=
  let s := upper_hex (S (N.to_nat (N.log2 n))) n EmptyString in
  if String.length s <? 2 then String "0" s else s.

Definition revit_color_to_hex (color : Color) : string :=
  "#" +:+ format_02X (Red color) +:+ format_02X (Green color)
      +:+ format_02X (Blue color).

(** ** The host document *)

Definition ElementId : Type := Z.
Definition InvalidElementId : ElementId := (-1)%Z.

Record Material : Type := {
  Id : ElementId;
  Name : string;
  AppearanceAssetId : ElementId;
  SurfaceForegroundPatternId : ElementId;
  SurfaceForegroundPatternColor : Color;
  SurfaceBackgroundPatternId : ElementId;
  SurfaceBackgroundPatternColor : Color;
  CutForegroundPatternId : ElementId;
  CutForegroundPatternColor : Color;
  CutBackgroundPatternId : ElementId;
  CutBackgroundPatternColor : Color
}.

(** ** Keyword matcher: [MateriaalHelper.find_closest_material] *)

(** The contribution of one keyword to the score of a material name. *)
Definition keyword_score (mat_name keyword : string) : nat :=
  if Str.contains keyword mat_name then
    if String.eqb mat_name keyword then 10
    else if Str.startswith mat_name keyword then 5
    else 2
  else 0.

(** The inner loop: [score] after all keywords. *)
Definition score_of (keywords : list string) (mat : Material) : nat :=
  let mat_name := Str.lower (Name mat) in
  fold_left (fun score keyword => score + keyword_score mat_name keyword)
            keywords 0.

(** [MATERIAAL_KEYWORDS.get(naakt_naam.lower(), [naakt_naam.lower()])] *)
Definition keywords_for (naakt_naam : string) : list string :=
  dict_get_default (Str.lower naakt_naam) [Str.lower naakt_naam]
                   MATERIAAL_KEYWORDS.

(** The outer loop: [(best_match, best_score)] after the materials seen. *)
Definition best_step (keywords : list string)
    (best : option Material * nat) (mat : Material)
  : option Material * nat :=
  let score := score_of keywords mat in
  if snd best <? score then (Some mat, score) else best.

Definition find_closest_material (materials : list Material)
    (naakt_naam : string) : option Material :=
  match materials with
  | [] => None
  | first :: _ =>
      let keywords := keywords_for naakt_naam in
      match fst (fold_left (best_step keywords) materials (None, 0)) with
      | Some best_match => Some best_match
      | None => Some first
      end
  end.

(** ** Name composer: the window's selection and preview *)

(** The part of the window the name composer and the provisioner read.  A
    combo box holds [Some item] when its [SelectedIndex] is not negative.
    All named controls are taken to be bound. *)
Record Window : Type := {
  cmb_naam : option string;
  cmb_kenmerk : option string;
  cmb_toepassing : option string;
  txt_eigen : string;
  txt_preview : string;
  cmb_surface_fg : option string;
  cmb_cut_fg : option string;
  patterns : dict ElementId;
  surface_fg_color : string;
  surface_bg_color : string;
  cut_fg_color : string;
  cut_bg_color : string
}.

Definition set_txt_preview (text : string) (w : Window) : Window :=
  {| cmb_naam := cmb_naam w; cmb_kenmerk := cmb_kenmerk w;
     cmb_toepassing := cmb_toepassing w; txt_eigen := txt_eigen w;
     txt_preview := text;
     cmb_surface_fg := cmb_surface_fg w; cmb_cut_fg := cmb_cut_fg w;
     patterns := patterns w;
     surface_fg_color := surface_fg_color w;
     surface_bg_color := surface_bg_color w;
     cut_fg_color := cut_fg_color w; cut_bg_color := cut_bg_color w |}.

(** [parts] as [_update_preview] collects it. *)
Definition preview_parts (w : Window) : list string :=
  let parts := [] in
  let parts := match cmb_naam w with
               | Some item => parts ++ [item] | None => parts end in
  let parts := match cmb_kenmerk w with
               | Some item => parts ++ [item] | None => parts end in
  let parts := match cmb_toepassing w with
               | Some item => parts ++ [item] | None => parts end in
  let eigen :=
    Str.replace_char " " "_" (Str.lower (Str.strip (txt_eigen w))) in
  if Str.nonempty eigen then parts ++ [eigen] else parts.

Definition _update_preview (w : Window) : Window :=
  let parts := preview_parts w in
  if 3 <=? length parts
  then set_txt_preview (Str.join "_" parts) w
  else set_txt_preview "(selecteer naam, kenmerk en toepassing)" w.

Definition _get_generated_name (w : Window) : option string :=
  let text := txt_preview w in
  if Str.nonempty text && negb (Str.startswith text "(")
  then Some text else None.

(** ** Material provisioner: the host document and its transaction *)

Module Host.

Record FillPattern : Type := { IsSolidFill : bool }.

(** A fill pattern element; [GetFillPattern] may raise or return null. *)
Record FillPatternElement : Type := {
  pattern_Id : ElementId;
  pattern_Name : string;
  GetFillPattern : outcome (option FillPattern)
}.

Record AppearanceAssetElement : Type := {
  asset_Id : ElementId;
  asset_Name : string
}.

Record Document : Type := {
  materials : list Material;
  assets : list AppearanceAssetElement;
  fill_patterns : list FillPatternElement
}.

(** The calls into the host that the provisioner makes. *)
Inductive HostCall : Type :=
| TransactionStart
| TransactionCommit
| MaterialDuplicate
| GetAppearanceAssetId
| GetElement
| AssetDuplicate
| SetAppearanceAssetId
| SetSurfaceForegroundPatternId
| SetSurfaceForegroundPatternColor
| SetSurfaceBackgroundPatternColor
| SetSurfaceBackgroundPatternId
| SetCutForegroundPatternId
| SetCutForegroundPatternColor
| SetCutBackgroundPatternColor
| SetCutBackgroundPatternId.

(** How the host answers a call: normally, with an exception, or (for a
    call that returns an element) with null. *)
Inductive Behaviour : Type :=
| Normal
| Throws (msg : string)
| Null.

Inductive TransactionStatus : Type :=
| NotStarted
| Started (snapshot : Document)
| Committed
| RolledBack.

Inductive MessageBoxResult : Type := Yes | No.

Record HostWorld : Type := {
  doc : Document;
  transaction : TransactionStatus;
  behaviour : HostCall -> Behaviour;
  answer : MessageBoxResult;
  host_log : list LogRecord;
  messages : list string
}.

Definition set_doc (d : Document) (h : HostWorld) : HostWorld :=
  {| doc := d; transaction := transaction h; behaviour := behaviour h;
     answer := answer h; host_log := host_log h; messages := messages h |}.

Definition set_transaction (t : TransactionStatus) (h : HostWorld) : HostWorld :=
  {| doc := doc h; transaction := t; behaviour := behaviour h;
     answer := answer h; host_log := host_log h; messages := messages h |}.

Definition add_log (r : LogRecord) (h : HostWorld) : HostWorld :=
  {| doc := doc h; transaction := transaction h; behaviour := behaviour h;
     answer := answer h; host_log := host_log h ++ [r]; messages := messages h |}.

Definition add_message (m : string) (h : HostWorld) : HostWorld :=
  {| doc := doc h; transaction := transaction h; behaviour := behaviour h;
     answer := answer h; host_log := host_log h; messages := messages h ++ [m] |}.

Definition log_info (msg : string) : Py HostWorld unit :=
  modify (add_log (INFO, msg)).
Definition log_warning (msg : string) : Py HostWorld unit :=
  modify (add_log (WARNING, msg)).
Definition log_error (msg : string) : Py HostWorld unit :=
  modify (add_log (ERROR, msg)).
Definition MessageBox_Show (msg : string) : Py HostWorld unit :=
  modify (add_message msg).

(** A host call raises when the host answers it with an exception. *)
Definition host_call (c : HostCall) : Py HostWorld Behaviour :=
  fun h =>
    match behaviour h c with
    | Throws msg => (Raise (HostException msg), h)
    | b => (Return b, h)
    end.

(** *** Transactions *)

Definition t_Start : Py HostWorld unit :=
  host_call TransactionStart >>
  modify (fun h => set_transaction (Started (doc h)) h).

Definition t_Commit : Py HostWorld unit :=
  host_call TransactionCommit >>
  modify (set_transaction Committed).

Definition t_RollBack : Py HostWorld unit :=
  modify (fun h =>
    match transaction h with
    | Started snapshot => set_transaction RolledBack (set_doc snapshot h)
    | _ => h
    end).

(** Leaving the [with] block disposes the transaction: one that was
    started and not ended is rolled back. *)
Definition t_Dispose (h : HostWorld) : HostWorld :=
  match transaction h with
  | Started snapshot => set_transaction RolledBack (set_doc snapshot h)
  | _ => h
  end.

(** [with Transaction(doc, name) as t: body] *)
Definition with_Transaction {A} (body : Py HostWorld A) : Py HostWorld A :=
  fun h =>
    let '(r, h') := body (set_transaction NotStarted h) in
    (r, t_Dispose h').

(** *** Elements *)

Definition max_id (ids : list ElementId) : ElementId :=
  fold_right Z.max 0%Z ids.

(** An element id not in use in the document. *)
Definition fresh_id (d : Document) : ElementId :=
  (1 + max_id (map Id (materials d) ++ map asset_Id (assets d)
               ++ map pattern_Id (fill_patterns d)))%Z.

Definition rename_material (m : Material) (id : ElementId) (n : string)
  : Material :=
  {| Id := id; Name := n;
     AppearanceAssetId := AppearanceAssetId m;
     SurfaceForegroundPatternId := SurfaceForegroundPatternId m;
     SurfaceForegroundPatternColor := SurfaceForegroundPatternColor m;
     SurfaceBackgroundPatternId := SurfaceBackgroundPatternId m;
     SurfaceBackgroundPatternColor := SurfaceBackgroundPatternColor m;
     CutForegroundPatternId := CutForegroundPatternId m;
     CutForegroundPatternColor := CutForegroundPatternColor m;
     CutBackgroundPatternId := CutBackgroundPatternId m;
     CutBackgroundPatternColor := CutBackgroundPatternColor m |}.

Definition find_material (id : ElementId) (d : Document) : option Material :=
  find (fun m => Z.eqb (Id m) id) (materials d).

(** Apply [f] to the material with the given id. *)
Definition update_material (id : ElementId) (f : Material -> Material)
    (d : Document) : Document :=
  {| materials :=
       map (fun m => if Z.eqb (Id m) id then f m else m) (materials d);
     assets := assets d;
     fill_patterns := fill_patterns d |}.

(** [material_exists]: an exact, case-sensitive comparison of names. *)
Definition material_exists (name : string) : Py HostWorld bool :=
  gets (fun h => existsb (fun mat => String.eqb (Name mat) name)
                         (materials (doc h))).

(** [source_material.Duplicate(new_name)]: the host refuses a name that
    is in use; the copy is added to the document. *)
Definition Material_Duplicate (source : Material) (new_name : string)
  : Py HostWorld (option ElementId) :=
  let* b := host_call MaterialDuplicate in
  let* d := gets doc in
  if existsb (fun mat => String.eqb (Name mat) new_name) (materials d)
  then raise (HostException "The given name is already in use.")
  else
    match b with
    | Null => ret None
    | _ =>
        let id := fresh_id d in
        modify (set_doc
          {| materials := materials d ++ [rename_material source id new_name];
             assets := assets d;
             fill_patterns := fill_patterns d |}) >>
        ret (Some id)
    end.

(** [appearance_asset.Duplicate(new_name)] *)
Definition Asset_Duplicate (asset : AppearanceAssetElement)
    (new_name : string) : Py HostWorld (option ElementId) :=
  let* b := host_call AssetDuplicate in
  let* d := gets doc in
  if existsb (fun a => String.eqb (asset_Name a) new_name) (assets d)
  then raise (HostException "The given name is already in use.")
  else
    match b with
    | Null => ret None
    | _ =>
        let id := fresh_id d in
        modify (set_doc
          {| materials := materials d;
             assets := assets d
                       ++ [{| asset_Id := id; asset_Name := new_name |}];
             fill_patterns := fill_patterns d |}) >>
        ret (Some id)
    end.

(** [doc.GetElement(id)] for an appearance asset. *)
Definition doc_GetElement (id : ElementId)
  : Py HostWorld (option AppearanceAssetElement) :=
  let* b := host_call GetElement in
  match b with
  | Null => ret None
  | _ => gets (fun h => find (fun a => Z.eqb (asset_Id a) id)
                             (assets (doc h)))
  end.

Definition get_AppearanceAssetId (id : ElementId) : Py HostWorld ElementId :=
  host_call GetAppearanceAssetId >>
  let* m := gets (fun h => find_material id (doc h)) in
  match m with
  | Some m => ret (AppearanceAssetId m)
  | None => raise (HostException "The referenced object is not valid.")
  end.

(** A property assignment on the material with the given id. *)
Definition set_property (c : HostCall) (id : ElementId)
    (f : Material -> Material) : Py HostWorld unit :=
  host_call c >>
  modify (fun h => set_doc (update_material id f (doc h)) h).

(** *** Property assignments on a material *)

Definition with_AppearanceAssetId (v : ElementId) (m : Material) : Material :=
  {| Id := Id m;
     Name := Name m;
     AppearanceAssetId := v;
     SurfaceForegroundPatternId := SurfaceForegroundPatternId m;
     SurfaceForegroundPatternColor := SurfaceForegroundPatternColor m;
     SurfaceBackgroundPatternId := SurfaceBackgroundPatternId m;
     SurfaceBackgroundPatternColor := SurfaceBackgroundPatternColor m;
     CutForegroundPatternId := CutForegroundPatternId m;
     CutForegroundPatternColor := CutForegroundPatternColor m;
     CutBackgroundPatternId := CutBackgroundPatternId m;
     CutBackgroundPatternColor := CutBackgroundPatternColor m |}.

Definition with_SurfaceForegroundPatternId (v : ElementId) (m : Material) : Material :=
  {| Id := Id m;
     Name := Name m;
     AppearanceAssetId := AppearanceAssetId m;
     SurfaceForegroundPatternId := v;
     SurfaceForegroundPatternColor := SurfaceForegroundPatternColor m;
     SurfaceBackgroundPatternId := SurfaceBackgroundPatternId m;
     SurfaceBackgroundPatternColor := SurfaceBackgroundPatternColor m;
     CutForegroundPatternId := CutForegroundPatternId m;
     CutForegroundPatternColor := CutForegroundPatternColor m;
     CutBackgroundPatternId := CutBackgroundPatternId m;
     CutBackgroundPatternColor := CutBackgroundPatternColor m |}.

Definition with_SurfaceForegroundPatternColor (v : Color) (m : Material) : Material :=
  {| Id := Id m;
     Name := Name m;
     AppearanceAssetId := AppearanceAssetId m;
     SurfaceForegroundPatternId := SurfaceForegroundPatternId m;
     SurfaceForegroundPatternColor := v;
     SurfaceBackgroundPatternId := SurfaceBackgroundPatternId m;
     SurfaceBackgroundPatternColor := SurfaceBackgroundPatternColor m;
     CutForegroundPatternId := CutForegroundPatternId m;
     CutForegroundPatternColor := CutForegroundPatternColor m;
     CutBackgroundPatternId := CutBackgroundPatternId m;
     CutBackgroundPatternColor := CutBackgroundPatternColor m |}.

Definition with_SurfaceBackgroundPatternId (v : ElementId) (m : Material) : Material :=
  {| Id := Id m;
     Name := Name m;
     AppearanceAssetId := AppearanceAssetId m;
     SurfaceForegroundPatternId := SurfaceForegroundPatternId m;
     SurfaceForegroundPatternColor := SurfaceForegroundPatternColor m;
     SurfaceBackgroundPatternId := v;
     SurfaceBackgroundPatternColor := SurfaceBackgroundPatternColor m;
     CutForegroundPatternId := CutForegroundPatternId m;
     CutForegroundPatternColor := CutForegroundPatternColor m;
     CutBackgroundPatternId := CutBackgroundPatternId m;
     CutBackgroundPatternColor := CutBackgroundPatternColor m |}.

Definition with_SurfaceBackgroundPatternColor (v : Color) (m : Material) : Material :=
  {| Id := Id m;
     Name := Name m;
     AppearanceAssetId := AppearanceAssetId m;
     SurfaceForegroundPatternId := SurfaceForegroundPatternId m;
     SurfaceForegroundPatternColor := SurfaceForegroundPatternColor m;
     SurfaceBackgroundPatternId := SurfaceBackgroundPatternId m;
     SurfaceBackgroundPatternColor := v;
     CutForegroundPatternId := CutForegroundPatternId m;
     CutForegroundPatternColor := CutForegroundPatternColor m;
     CutBackgroundPatternId := CutBackgroundPatternId m;
     CutBackgroundPatternColor := CutBackgroundPatternColor m |}.

Definition with_CutForegroundPatternId (v : ElementId) (m : Material) : Material :=
  {| Id := Id m;
     Name := Name m;
     AppearanceAssetId := AppearanceAssetId m;
     SurfaceForegroundPatternId := SurfaceForegroundPatternId m;
     SurfaceForegroundPatternColor := SurfaceForegroundPatternColor m;
     SurfaceBackgroundPatternId := SurfaceBackgroundPatternId m;
     SurfaceBackgroundPatternColor := SurfaceBackgroundPatternColor m;
     CutForegroundPatternId := v;
     CutForegroundPatternColor := CutForegroundPatternColor m;
     CutBackgroundPatternId := CutBackgroundPatternId m;
     CutBackgroundPatternColor := CutBackgroundPatternColor m |}.

Definition with_CutForegroundPatternColor (v : Color) (m : Material) : Material :=
  {| Id := Id m;
     Name := Name m;
     AppearanceAssetId := AppearanceAssetId m;
     SurfaceForegroundPatternId := SurfaceForegroundPatternId m;
     SurfaceForegroundPatternColor := SurfaceForegroundPatternColor m;
     SurfaceBackgroundPatternId := SurfaceBackgroundPatternId m;
     SurfaceBackgroundPatternColor := SurfaceBackgroundPatternColor m;
     CutForegroundPatternId := CutForegroundPatternId m;
     CutForegroundPatternColor := v;
     CutBackgroundPatternId := CutBackgroundPatternId m;
     CutBackgroundPatternColor := CutBackgroundPatternColor m |}.

Definition with_CutBackgroundPatternId (v : ElementId) (m : Material) : Material :=
  {| Id := Id m;
     Name := Name m;
     AppearanceAssetId := AppearanceAssetId m;
     SurfaceForegroundPatternId := SurfaceForegroundPatternId m;
     SurfaceForegroundPatternColor := SurfaceForegroundPatternColor m;
     SurfaceBackgroundPatternId := SurfaceBackgroundPatternId m;
     SurfaceBackgroundPatternColor := SurfaceBackgroundPatternColor m;
     CutForegroundPatternId := CutForegroundPatternId m;
     CutForegroundPatternColor := CutForegroundPatternColor m;
     CutBackgroundPatternId := v;
     CutBackgroundPatternColor := CutBackgroundPatternColor m |}.

Definition with_CutBackgroundPatternColor (v : Color) (m : Material) : Material :=
  {| Id := Id m;
     Name := Name m;
     AppearanceAssetId := AppearanceAssetId m;
     SurfaceForegroundPatternId := SurfaceForegroundPatternId m;
     SurfaceForegroundPatternColor := SurfaceForegroundPatternColor m;
     SurfaceBackgroundPatternId := SurfaceBackgroundPatternId m;
     SurfaceBackgroundPatternColor := SurfaceBackgroundPatternColor m;
     CutForegroundPatternId := CutForegroundPatternId m;
     CutForegroundPatternColor := CutForegroundPatternColor m;
     CutBackgroundPatternId := CutBackgroundPatternId m;
     CutBackgroundPatternColor := v |}.

(** *** [PatternHelper] *)

(** [get_all_patterns]: name to id, for the elements that have a fill
    pattern; an element whose [GetFillPattern] raises is skipped. *)
Definition get_all_patterns (d : Document) : dict ElementId :=
  fold_left
    (fun patterns pattern =>
       match GetFillPattern pattern with
       | Return (Some _) =>
           dict_set (pattern_Name pattern) (pattern_Id pattern) patterns
       | _ => patterns
       end)
    (fill_patterns d) [].

Fixpoint solid_pattern_scan (ps : list FillPatternElement) : ElementId :=
  match ps with
  | [] => InvalidElementId
  | pattern :: ps' =>
      match GetFillPattern pattern with
      | Return (Some fp) =>
          if IsSolidFill fp then pattern_Id pattern
          else solid_pattern_scan ps'
      | _ => solid_pattern_scan ps'
      end
  end.

Definition get_solid_pattern_id : Py HostWorld ElementId :=
  gets (fun h => solid_pattern_scan (fill_patterns (doc h))).

(** *** [MateriaalHelper.duplicate_material] *)

(** The block that duplicates the appearance asset of the new material;
    a failure of [Duplicate] on the asset is logged and tolerated. *)
Definition duplicate_appearance_asset (new_mat : ElementId)
    (new_name : string) : Py HostWorld unit :=
  let* appearance_asset_id := get_AppearanceAssetId new_mat in
  if negb (Z.eqb appearance_asset_id InvalidElementId) then
    let* appearance_asset := doc_GetElement appearance_asset_id in
    match appearance_asset with
    | Some appearance_asset =>
        try_except
          (let* new_asset := Asset_Duplicate appearance_asset new_name in
           match new_asset with
           | Some new_asset_id =>
               set_property SetAppearanceAssetId new_mat
                 (with_AppearanceAssetId new_asset_id)
           | None => ret tt
           end)
          (fun ex =>
             log_warning ("Asset duplicate failed: " +:+ exn_str ex))
    | None => ret tt
    end
  else ret tt.

(** The [try] block of [duplicate_material]. *)
Definition duplicate_material_body (source_material : Material)
    (new_name : string) : Py HostWorld (option ElementId) :=
  let* existing := gets (fun h => materials (doc h)) in
  if existsb (fun mat => String.eqb (Name mat) new_name) existing
  then ret None
  else
    let* new_mat := Material_Duplicate source_material new_name in
    match new_mat with
    | None => ret None
    | Some new_mat =>
        duplicate_appearance_asset new_mat new_name >>
        ret (Some new_mat)
    end.

Definition duplicate_material (source_material : option Material)
    (new_name : string) : Py HostWorld (option ElementId) :=
  match source_material with
  | None => ret None
  | Some source_material =>
      try_except
        (duplicate_material_body source_material new_name)
        (fun e =>
           log_error ("Duplicate error: " +:+ exn_str e) >> ret None)
  end.

(** *** [NAAKTGeneratorWindow._apply_patterns] *)

(** The [try] block of [_apply_patterns]. *)
Definition apply_patterns_body (w : Window) (material : ElementId)
  : Py HostWorld unit :=
  (match cmb_surface_fg w with
   | Some pattern_name =>
       match dict_get pattern_name (patterns w) with
       | Some pattern_id =>
           set_property SetSurfaceForegroundPatternId material
             (with_SurfaceForegroundPatternId pattern_id)
       | None => ret tt
       end
   | None => ret tt
   end) >>
  (let* c := lift (hex_to_revit_color (surface_fg_color w)) in
   set_property SetSurfaceForegroundPatternColor material
     (with_SurfaceForegroundPatternColor c)) >>
  (let* c := lift (hex_to_revit_color (surface_bg_color w)) in
   set_property SetSurfaceBackgroundPatternColor material
     (with_SurfaceBackgroundPatternColor c)) >>
  let* solid_id := get_solid_pattern_id in
  (if negb (Z.eqb solid_id InvalidElementId) then
     set_property SetSurfaceBackgroundPatternId material
       (with_SurfaceBackgroundPatternId solid_id)
   else ret tt) >>
  (match cmb_cut_fg w with
   | Some pattern_name =>
       match dict_get pattern_name (patterns w) with
       | Some pattern_id =>
           set_property SetCutForegroundPatternId material
             (with_CutForegroundPatternId pattern_id)
       | None => ret tt
       end
   | None => ret tt
   end) >>
  (let* c := lift (hex_to_revit_color (cut_fg_color w)) in
   set_property SetCutForegroundPatternColor material
     (with_CutForegroundPatternColor c)) >>
  (let* c := lift (hex_to_revit_color (cut_bg_color w)) in
   set_property SetCutBackgroundPatternColor material
     (with_CutBackgroundPatternColor c)) >>
  (if negb (Z.eqb solid_id InvalidElementId) then
     set_property SetCutBackgroundPatternId material
       (with_CutBackgroundPatternId solid_id)
   else ret tt) >>
  log_info "Patterns applied successfully".

Definition _apply_patterns (w : Window) (material : ElementId)
  : Py HostWorld unit :=
  try_except
    (apply_patterns_body w material)
    (fun e => log_warning ("Could not apply all patterns: " +:+ exn_str e)).

(** *** [NAAKTGeneratorWindow._on_create] *)

(** The body of the [with Transaction(...) as t:] block. *)
Definition create_body (w : Window) (source_mat : Material)
    (new_name : string) : Py HostWorld unit :=
  t_Start >>
  let* new_mat := duplicate_material (Some source_mat) new_name in
  match new_mat with
  | Some new_mat =>
      _apply_patterns w new_mat >>
      t_Commit >>
      MessageBox_Show ("Materiaal aangemaakt! Naam: " +:+ new_name
                       +:+ " Bron: " +:+ Name source_mat)
  | None =>
      t_RollBack >>
      MessageBox_Show "Kon materiaal niet aanmaken."
  end.

(** The last statement of [_on_create]: create the material. *)
Definition create_material (w : Window) (source_mat : Material)
    (new_name : string) : Py HostWorld unit :=
  try_except
    (with_Transaction (create_body w source_mat new_name))
    (fun e =>
       log_error ("Create material error: " +:+ exn_str e) >>
       MessageBox_Show ("Fout bij aanmaken materiaal: " +:+ exn_str e)).

(** [find_closest_material(naakt_naam)] on the document's materials;
    [naakt_naam] is [None] when no name is selected, and then
    [naakt_naam.lower()] raises unless the document has no material. *)
Definition find_source (naakt_naam : option string)
  : Py HostWorld (option Material) :=
  let* all := gets (fun h => materials (doc h)) in
  match naakt_naam with
  | Some naakt_naam => ret (find_closest_material all naakt_naam)
  | None =>
      match all with
      | [] => ret None
      | _ => raise (AttributeError
                      "'NoneType' object has no attribute 'lower'")
      end
  end.

Definition _on_create (w : Window) : Py HostWorld unit :=
  match _get_generated_name w with
  | None =>
      MessageBox_Show
        "Geen geldige materiaalnaam. Selecteer naam, kenmerk en toepassing."
  | Some new_name =>
      let* found := material_exists new_name in
      if found then
        MessageBox_Show
          ("Materiaal '" +:+ new_name +:+ "' bestaat al in het model.")
      else
        let* source_mat := find_source (cmb_naam w) in
        match source_mat with
        | None =>
            MessageBox_Show "Geen bronmateriaal gevonden in het model."
        | Some source_mat =>
            MessageBox_Show ("Materiaal '" +:+ new_name
                             +:+ "' aanmaken? Bron: '"
                             +:+ Name source_mat +:+ "'") >>
            let* result := gets answer in
            match result with
            | No => ret tt
            | Yes => create_material w source_mat new_name
            end
        end
  end.

End Host.

(** ** [PatternHelper.find_pattern_by_name] *)



(** ** The window: controls, colours and selections *)

Module Ui.

(** A combo box of the window. Clearing its items leaves it without a
    selection; [SelectedIndex] is negative then. *)
Record ComboBox : Type := {
  Items : list string;
  SelectedIndex : Z
}.

Definition SelectedItem (cmb : ComboBox) : option string :=
  if (SelectedIndex cmb <? 0)%Z then None
  else Items cmb !! Z.to_nat (SelectedIndex cmb).

(** [cmb.Items.Clear()] followed by [cmb.Items.Add] of each item. *)
Definition fill_items (items : list string) : ComboBox :=
  {| Items := items; SelectedIndex := (-1)%Z |}.

Definition select (i : nat) (cmb : ComboBox) : ComboBox :=
  {| Items := Items cmb; SelectedIndex := Z.of_nat i |}.

(** The index at which a loop with [break] stops: the first item that
    passes the test. *)
Fixpoint index_where {A} (test : A -> bool) (l : list A) : option nat :=
  match l with
  | [] => None
  | x :: l' => if test x then Some 0 else S <$> index_where test l'
  end.

(** The pattern combo boxes of [_setup_controls]: the sorted pattern
    names, with the first name that contains [solid] selected, and the
    first name when there is none. *)
Definition setup_pattern_combo (patterns : dict ElementId) : ComboBox :=
  let pattern_names := sorted (dict_keys patterns) in
  let cmb := fill_items pattern_names in
  let cmb :=
    match index_where (fun name => Str.contains "solid" (Str.lower name))
                      pattern_names with
    | Some i => select i cmb
    | None => cmb
    end in
  if (SelectedIndex cmb <? 0)%Z
     && match pattern_names with [] => false | _ => true end
  then select 0 cmb else cmb.

Definition set_pattern_selection (surface cut : option string) (w : Window)
  : Window :=
  {| cmb_naam := cmb_naam w; cmb_kenmerk := cmb_kenmerk w;
     cmb_toepassing := cmb_toepassing w; txt_eigen := txt_eigen w;
     txt_preview := txt_preview w;
     cmb_surface_fg := surface; cmb_cut_fg := cut;
     patterns := patterns w;
     surface_fg_color := surface_fg_color w;
     surface_bg_color := surface_bg_color w;
     cut_fg_color := cut_fg_color w; cut_bg_color := cut_bg_color w |}.

Definition _setup_controls (w : Window) : Window :=
  set_pattern_selection
    (SelectedItem (setup_pattern_combo (patterns w)))
    (SelectedItem (setup_pattern_combo (patterns w))) w.

(** The [for ... else] of [_on_naam_changed]: select [generiek] when it is
    an item, and otherwise the first item when there is one. *)
Definition select_generiek (cmb : ComboBox) : ComboBox :=
  match index_where (fun item => String.eqb item "generiek") (Items cmb) with
  | Some i => select i cmb
  | None => if 0 <? length (Items cmb) then select 0 cmb else cmb
  end.

Definition set_selection (naam kenmerk toepassing : option string)
    (w : Window) : Window :=
  {| cmb_naam := naam; cmb_kenmerk := kenmerk;
     cmb_toepassing := toepassing; txt_eigen := txt_eigen w;
     txt_preview := txt_preview w;
     cmb_surface_fg := cmb_surface_fg w; cmb_cut_fg := cmb_cut_fg w;
     patterns := patterns w;
     surface_fg_color := surface_fg_color w;
     surface_bg_color := surface_bg_color w;
     cut_fg_color := cut_fg_color w; cut_bg_color := cut_bg_color w |}.

(** [_on_naam_changed]: without a selected name nothing happens; otherwise
    both dependent combo boxes are filled from the store and the preview is
    updated. *)
Definition kenmerk_combo (data : Taxonomy.NAAKTData) (naam : string)
  : ComboBox :=
  select_generiek (fill_items (Taxonomy.get_kenmerken data naam)).

Definition toepassing_combo (data : Taxonomy.NAAKTData) (naam : string)
  : ComboBox :=
  select_generiek (fill_items (Taxonomy.get_toepassingen data naam)).

Definition _on_naam_changed (data : Taxonomy.NAAKTData) (w : Window)
  : Window :=
  match cmb_naam w with
  | None => w
  | Some naam =>
      _update_preview
        (set_selection (Some naam)
                       (SelectedItem (kenmerk_combo data naam))
                       (SelectedItem (toepassing_combo data naam)) w)
  end.



(** *** Colours *)

(** The four targets the colour buttons pass to [_pick_color]. *)
Inductive ColorTarget : Type := surface_fg | surface_bg | cut_fg | cut_bg.

(** [getattr(self, target + '_color', '#808080')] *)
Definition get_color (target : ColorTarget) (w : Window) : string :=
  match target with
  | surface_fg => surface_fg_color w
  | surface_bg => surface_bg_color w
  | cut_fg => cut_fg_color w
  | cut_bg => cut_bg_color w
  end.

(** [setattr(self, target + '_color', new_hex)] *)
Definition set_color (target : ColorTarget) (new_hex : string) (w : Window)
  : Window :=
  {| cmb_naam := cmb_naam w; cmb_kenmerk := cmb_kenmerk w;
     cmb_toepassing := cmb_toepassing w; txt_eigen := txt_eigen w;
     txt_preview := txt_preview w;
     cmb_surface_fg := cmb_surface_fg w; cmb_cut_fg := cmb_cut_fg w;
     patterns := patterns w;
     surface_fg_color :=
       match target with surface_fg => new_hex | _ => surface_fg_color w end;
     surface_bg_color :=
       match target with surface_bg => new_hex | _ => surface_bg_color w end;
     cut_fg_color :=
       match target with cut_fg => new_hex | _ => cut_fg_color w end;
     cut_bg_color :=
       match target with cut_bg => new_hex | _ => cut_bg_color w end |}.

(** What the colour handlers see and change: the window and the log. *)
Record Session : Type := {
  window : Window;
  ui_log : list LogRecord
}.

(** [Color.FromArgb(r, g, b)] of the drawing library and
    [WpfColor.FromRgb(r, g, b)]: each component is a byte. *)
Definition FromArgb (r g b : Z) : outcome Color :=
  if ((0 <=? r) && (r <=? 255) && (0 <=? g) && (g <=? 255)
      && (0 <=? b) && (b <=? 255))%Z
  then Return {| Red := Z.to_N r; Green := Z.to_N g; Blue := Z.to_N b |}
  else Raise (ValueError "value out of range for Byte").

Definition hex_to_wpf_color (hex_color : string) : outcome Color :=
  let hex_color := Str.lstrip_char "#" hex_color in
  obind (int16 (Str.slice 0 2 hex_color)) (fun r =>
  obind (int16 (Str.slice 2 4 hex_color)) (fun g =>
  obind (int16 (Str.slice 4 6 hex_color)) (fun b =>
  FromArgb r g b))).

(** [_update_color_ui]: the brush is made from the colour string and the
    three components are read once more for the text colour; the controls
    it paints are not part of the state. *)
Definition _update_color_ui (target : ColorTarget) (hex_color : string)
  : Py Session unit :=
  let* _ := lift (hex_to_wpf_color hex_color) in
  let hex_clean := Str.lstrip_char "#" hex_color in
  let* _ := lift (int16 (Str.slice 0 2 hex_clean)) in
  let* _ := lift (int16 (Str.slice 2 4 hex_clean)) in
  let* _ := lift (int16 (Str.slice 4 6 hex_clean)) in
  ret tt.

(** [_pick_color]; [dialog] is the colour the user confirms in the
    dialog, or [None] when the dialog is cancelled. *)
Definition _pick_color (target : ColorTarget) (dialog : option Color)
  : Py Session unit :=
  try_except
    (let* w := gets window in
     let current_hex := Str.lstrip_char "#" (get_color target w) in
     let* r := lift (int16 (Str.slice 0 2 current_hex)) in
     let* g := lift (int16 (Str.slice 2 4 current_hex)) in
     let* b := lift (int16 (Str.slice 4 6 current_hex)) in
     let* _ := lift (FromArgb r g b) in
     match dialog with
     | Some new_color =>
         let new_hex :=
           "#" +:+ format_02X (Red new_color)
               +:+ format_02X (Green new_color)
               +:+ format_02X (Blue new_color) in
         modify (fun s => {| window := set_color target new_hex (window s);
                             ui_log := ui_log s |}) >>
         _update_color_ui target new_hex
     | None => ret tt
     end)
    (fun e =>
       modify (fun s =>
         {| window := window s;
            ui_log := ui_log s
                      ++ [(ERROR, "Color picker error: " +:+ exn_str e)] |})).

(** The colours the window starts with. *)
Definition set_initial_colors (w : Window) : Window :=
  set_color surface_fg "#323232"
    (set_color surface_bg "#C8C8C8"
       (set_color cut_fg "#323232" (set_color cut_bg "#B4B4B4" w))).

(** *** The buttons that add a value *)

(** What the add handlers see and change: the store with its files, the
    window, and the message boxes shown so far, each with its text and its
    title. *)
Record App : Type := {
  app_data : Taxonomy.World;
  app_window : Window;
  app_boxes : list (string * string)
}.

Definition on_data {A} (m : Py Taxonomy.World A) : Py App A :=
  fun a =>
    let (o, d) := m (app_data a) in
    (o, {| app_data := d; app_window := app_window a;
           app_boxes := app_boxes a |}).

Definition set_window (w : Window) : Py App unit :=
  modify (fun a => {| app_data := app_data a; app_window := w;
                      app_boxes := app_boxes a |}).

Definition MessageBox_Show (text title : string) : Py App unit :=
  modify (fun a => {| app_data := app_data a; app_window := app_window a;
                      app_boxes := app_boxes a ++ [(text, title)] |}).

(** The loop that looks for [result.lower()] among the items and selects
    the first item equal to it. *)
Definition select_lower {rt : Runtime} (result : string) (cmb : ComboBox)
  : ComboBox :=
  match index_where (fun item => String.eqb item (str_lower result))
                    (Items cmb) with
  | Some i => select i cmb
  | None => cmb
  end.



(** [_on_add_toepassing]. *)
Definition _on_add_toepassing {rt : Runtime} (answer : option string)
  : Py App unit :=
  let* w := gets app_window in
  match cmb_naam w with
  | None => MessageBox_Show "Selecteer eerst een NAAM." "Waarschuwing"
  | Some naam =>
      match answer with
      | Some result =>
          if Str.nonempty result then
            let* added := on_data (Taxonomy.add_toepassing naam result) in
            if added then
              let* data := gets (fun a => Taxonomy.self (app_data a)) in
              let w := _on_naam_changed data w in
              let cmb := toepassing_combo data naam in
              let cmb' := select_lower result cmb in
              let w :=
                if (SelectedIndex cmb' =? SelectedIndex cmb)%Z then w
                else _update_preview
                       (set_selection (cmb_naam w) (cmb_kenmerk w)
                                      (SelectedItem cmb') w) in
              set_window w >>
              MessageBox_Show
                ("TOEPASSING '" +:+ str_lower result +:+ "' toegevoegd!")
                "Succes"
            else MessageBox_Show "TOEPASSING bestaat al of is ongeldig."
                                 "Waarschuwing"
          else ret tt
      | None => ret tt
      end
  end.

End Ui.

(** ** The logger: log files, their cleanup and their lines *)

Module Logger.

Definition MAX_LOGS_PER_TOOL : nat := 10.
Definition LOG_LEVEL : string := "DEBUG".

(** *** Strings *)

Definition upper_char (c : ascii) : ascii :=
  if ((97 <=? Str.code c) && (Str.code c <=? 122))%N
  then Ascii.ascii_of_N (Str.code c - 32) else c.

Fixpoint upper (s : string) : string :=
  match s with
  | EmptyString => EmptyString
  | String c s' => String (upper_char c) (upper s')
  end.

(** [s.endswith(k)]: [k] is one of the suffixes of [s]. *)
Fixpoint endswith (s k : string) : bool :=
  String.eqb s k ||
  match s with
  | EmptyString => false
  | String _ s' => endswith s' k
  end.

(** [c * n] for a one-character string. *)
Fixpoint str_mul (c : ascii) (n : nat) : string :=
  match n with
  | O => EmptyString
  | S n' => String c (str_mul c n')
  end.

(** [s.split('\n')] *)
Fixpoint split_lines (s : string) : list string :=
  match s with
  | EmptyString => [EmptyString]
  | String c s' =>
      if Ascii.eqb c "010" then EmptyString :: split_lines s'
      else match split_lines s' with
           | line :: rest => String c line :: rest
           | [] => [String c EmptyString]
           end
  end.

(** *** Log levels *)

Module LogLevel.

Definition DEBUG : Z := 10.
Definition INFO : Z := 20.
Definition WARNING : Z := 30.
Definition ERROR : Z := 40.

Definition _names : list (Z * string) :=
  [(10, "DEBUG"); (20, "INFO"); (30, "WARNING"); (40, "ERROR")]%Z.

Definition _values : dict Z :=
  [("DEBUG", 10); ("INFO", 20); ("WARNING", 30); ("ERROR", 40)]%Z.

Definition get_name (level : Z) : string :=
  match find (fun entry => (fst entry =? level)%Z) _names with
  | Some entry => snd entry
  | None => "UNKNOWN"
  end.

Definition get_value (name : string) : Z :=
  dict_get_default (upper name) 20%Z _values.

End LogLevel.

(** *** The file system the logger sees *)

(** A file of a log directory: its name, its modification time and the
    lines written to it. *)
Record File : Type := {
  file_name : string;
  file_mtime : Z;
  file_lines : list string
}.

(** [datetime.datetime.now()] in the three formats the logger prints, and
    the time a written file is stamped with. *)
Record Clock : Type := {
  time_now : Z;
  now_file : string;
  now_date : string;
  now_time : string
}.

(** The directories the logger may use, by path, each with its files in
    the order [os.listdir] gives them; and what the operating system
    answers: whether the parent of a path exists, and which calls
    succeed. *)
Record OS : Type := {
  dirs : dict (list File);
  parent_exists : string -> bool;
  makedirs_ok : string -> bool;
  listdir_ok : string -> bool;
  getmtime_ok : string -> string -> bool;
  open_ok : string -> string -> bool;
  remove_ok : string -> string -> bool;
  clock : Clock
}.

Definition set_dirs (ds : dict (list File)) (os : OS) : OS :=
  {| dirs := ds; parent_exists := parent_exists os;
     makedirs_ok := makedirs_ok os; listdir_ok := listdir_ok os;
     getmtime_ok := getmtime_ok os; open_ok := open_ok os;
     remove_ok := remove_ok os; clock := clock os |}.

(** The exceptions of the operating system; the logger catches them
    without looking at them. *)
Definition OSError (msg : string) : exn := HostException msg.

Definition find_file (name : string) (fs : list File) : option File :=
  find (fun f => String.eqb (file_name f) name) fs.

Definition remove_file (name : string) (fs : list File) : list File :=
  filter (fun f => negb (String.eqb (file_name f) name)) fs.

(** A written file takes the place of the file of its name, or is added. *)
Definition put_file (f : File) (fs : list File) : list File :=
  match find_file (file_name f) fs with
  | Some _ =>
      map (fun g => if String.eqb (file_name g) (file_name f) then f else g) fs
  | None => fs ++ [f]
  end.

Definition os_path_exists (path : string) : Py OS bool :=
  gets (fun os => dict_has path (dirs os)).

Definition os_makedirs (path : string) : Py OS unit :=
  fun os =>
    if dict_has path (dirs os) then (Raise (OSError "file exists"), os)
    else if makedirs_ok os path
         then (Return tt, set_dirs (dict_set path [] (dirs os)) os)
         else (Raise (OSError "cannot create directory"), os).

Definition os_listdir (path : string) : Py OS (list string) :=
  fun os =>
    match dict_get path (dirs os) with
    | Some fs =>
        if listdir_ok os path then (Return (map file_name fs), os)
        else (Raise (OSError "cannot list directory"), os)
    | None => (Raise (OSError "no such directory"), os)
    end.

Definition os_path_getmtime (path name : string) : Py OS Z :=
  fun os =>
    match dict_get path (dirs os) with
    | Some fs =>
        match find_file name fs with
        | Some f =>
            if getmtime_ok os path name then (Return (file_mtime f), os)
            else (Raise (OSError "cannot read file time"), os)
        | None => (Raise (OSError "no such file"), os)
        end
    | None => (Raise (OSError "no such directory"), os)
    end.

Definition os_remove (path name : string) : Py OS unit :=
  fun os =>
    match dict_get path (dirs os) with
    | Some fs =>
        match find_file name fs with
        | Some _ =>
            if remove_ok os path name
            then (Return tt,
                  set_dirs (dict_set path (remove_file name fs) (dirs os)) os)
            else (Raise (OSError "cannot remove file"), os)
        | None => (Raise (OSError "no such file"), os)
        end
    | None => (Raise (OSError "no such directory"), os)
    end.

(** [open(path, mode)] followed by the writes of the [with] block; once the
    file is open the writes succeed. With [append] the lines follow the
    lines the file has, otherwise they replace them. *)
Definition open_write (path name : string) (append : bool)
    (lines : list string) : Py OS unit :=
  fun os =>
    match dict_get path (dirs os) with
    | Some fs =>
        if open_ok os path name then
          let old := match find_file name fs with
                     | Some f => if append then file_lines f else []
                     | None => []
                     end in
          let f := {| file_name := name; file_mtime := time_now (clock os);
                      file_lines := old ++ lines |} in
          (Return tt, set_dirs (dict_set path (put_file f fs) (dirs os)) os)
        else (Raise (OSError "cannot open file"), os)
    | None => (Raise (OSError "no such directory"), os)
    end.

(** *** The logger *)

(** The configured paths; their values depend on the environment. *)
Record Config : Type := {
  LOG_PATHS : list string;
  FALLBACK_LOG_PATH : string
}.

(** [log_file] is the name of the file in [log_dir]. *)
Record BMLogger : Type := {
  tool_name : string;
  log_level : Z;
  log_dir : string;
  log_file : string
}.

(** [os.path.join(log_dir, filename)], for a directory that does not end
    in a separator. *)
Definition full_path (dir name : string) : string := dir +:+ "\" +:+ name.

(** The body of the loop of [_get_log_directory] for one path: the path
    when it can be used, and nothing otherwise. *)
Definition try_log_path (path : string) : Py OS (option string) :=
  try_except
    (let* parent := gets (fun os => parent_exists os path) in
     let* present := os_path_exists path in
     if parent || present then
       (let* present := os_path_exists path in
        if negb present then os_makedirs path else ret tt) >>
       open_write path ".write_test" false ["test"] >>
       os_remove path ".write_test" >>
       ret (Some path)
     else ret None)
    (fun _ => ret None).

Fixpoint first_log_path (paths : list string) : Py OS (option string) :=
  match paths with
  | [] => ret None
  | path :: rest =>
      let* found := try_log_path path in
      match found with
      | Some path => ret (Some path)
      | None => first_log_path rest
      end
  end.

Definition _get_log_directory (cfg : Config) : Py OS string :=
  let* found := first_log_path (LOG_PATHS cfg) in
  match found with
  | Some path => ret path
  | None =>
      (let* present := os_path_exists (FALLBACK_LOG_PATH cfg) in
       if negb present then os_makedirs (FALLBACK_LOG_PATH cfg) else ret tt) >>
      ret (FALLBACK_LOG_PATH cfg)
  end.

Definition _create_log_file (tool_name : string) : Py OS string :=
  let* timestamp := gets (fun os => now_file (clock os)) in
  ret (tool_name +:+ "_" +:+ timestamp +:+ ".log").

(** The test of [_cleanup_old_logs] on a file name. *)
Definition is_log_of (tool_name f : string) : bool :=
  Str.startswith f (tool_name +:+ "_") && endswith f ".log".

(** The loop over [os.listdir]: the logs of the tool with their times. *)
Fixpoint collect_logs (self : BMLogger) (names : list string)
    (logs : list (string * Z)) : Py OS (list (string * Z)) :=
  match names with
  | [] => ret logs
  | f :: rest =>
      if is_log_of (tool_name self) f then
        let* mtime := os_path_getmtime (log_dir self) f in
        collect_logs self rest (logs ++ [(f, mtime)])
      else collect_logs self rest logs
  end.

(** [logs.sort(key=lambda x: x[1])]: by time, and stable. *)
Fixpoint insert_log (x : string * Z) (l : list (string * Z))
  : list (string * Z) :=
  match l with
  | [] => [x]
  | y :: l' => if (snd x <=? snd y)%Z then x :: l else y :: insert_log x l'
  end.

Fixpoint sort_logs (l : list (string * Z)) : list (string * Z) :=
  match l with
  | [] => []
  | x :: l' => insert_log x (sort_logs l')
  end.

(** [while len(logs) >= MAX_LOGS_PER_TOOL: ...] *)
Fixpoint remove_old_logs (self : BMLogger) (logs : list (string * Z))
  : Py OS unit :=
  match logs with
  | [] => ret tt
  | old_log :: rest =>
      if MAX_LOGS_PER_TOOL <=? length logs then
        try_except (os_remove (log_dir self) (fst old_log))
                   (fun _ => ret tt) >>
        remove_old_logs self rest
      else ret tt
  end.

Definition _cleanup_old_logs (self : BMLogger) : Py OS unit :=
  try_except
    (let* names := os_listdir (log_dir self) in
     let* logs := collect_logs self names [] in
     let logs := sort_logs logs in
     remove_old_logs self logs)
    (fun _ => ret tt).

Definition _write_lines (self : BMLogger) (lines : list string)
  : Py OS unit :=
  try_except (open_write (log_dir self) (log_file self) true lines)
             (fun _ => ret tt).

Definition _write_header (self : BMLogger) : Py OS unit :=
  let* now := gets (fun os => now_date (clock os)) in
  _write_lines self
    [ str_mul "=" 70;
      "3BM BOUWKUNDE - " +:+ upper (tool_name self) +:+ " LOG";
      str_mul "=" 70;
      "Timestamp: " +:+ now;
      "Log file: " +:+ full_path (log_dir self) (log_file self);
      "Log level: " +:+ LOG_LEVEL;
      str_mul "-" 70;
      EmptyString ].

(** [BMLogger(tool_name)] *)
Definition __init__ (cfg : Config) (tool_name : string) : Py OS BMLogger :=
  let log_level := LogLevel.get_value LOG_LEVEL in
  let* log_dir := _get_log_directory cfg in
  let* log_file := _create_log_file tool_name in
  let self := {| tool_name := tool_name; log_level := log_level;
                 log_dir := log_dir; log_file := log_file |} in
  _cleanup_old_logs self >>
  _write_header self >>
  ret self.

(** [_format_message]; [data] is the text of a keyword [data] that is
    given and true, and [exc_info] the text of [traceback.format_exc()]
    when the keyword [exc_info] is true. *)
Definition _format_message (timestamp : string) (level : Z)
    (message : string) (data exc_info : option string) : list string :=
  let level_name := LogLevel.get_name level in
  let lines :=
    ["[" +:+ timestamp +:+ "] [" +:+ level_name +:+ "] " +:+ message] in
  let lines := match data with
               | Some text => lines ++ ["  DATA: " +:+ text]
               | None => lines
               end in
  match exc_info with
  | Some text =>
      (lines ++ ["  EXCEPTION:"])
      ++ map (fun line => "    " +:+ line)
             (filter (fun line => Str.nonempty (Str.strip line))
                     (split_lines text))
  | None => lines
  end.

(** [_log]; nothing is printed, [PRINT_TO_CONSOLE] being false. *)
Definition _log (self : BMLogger) (level : Z) (message : string)
    (data exc_info : option string) : Py OS unit :=
  if (log_level self <=? level)%Z then
    let* timestamp := gets (fun os => now_time (clock os)) in
    _write_lines self (_format_message timestamp level message data exc_info)
  else ret tt.

Definition debug (self : BMLogger) (message : string)
    (data exc_info : option string) : Py OS unit :=
  _log self LogLevel.DEBUG message data exc_info.

Definition info (self : BMLogger) (message : string)
    (data exc_info : option string) : Py OS unit :=
  _log self LogLevel.INFO message data exc_info.

Definition warning (self : BMLogger) (message : string)
    (data exc_info : option string) : Py OS unit :=
  _log self LogLevel.WARNING message data exc_info.

Definition error (self : BMLogger) (message : string)
    (data exc_info : option string) : Py OS unit :=
  _log self LogLevel.ERROR message data exc_info.

End Logger.

(** * Specification vocabulary and examples *)

Import Taxonomy.
Import Host.

(** The table [save_kenmerken] and [save_toepassingen] hand to
    [_write_json]: the comprehension over the sorted keys. *)
Definition saved_table_from (d : dict (list string)) (keys : list string)
    (acc : dict (list string)) : dict (list string) :=
  fold_left
    (fun acc naam => dict_set naam (sorted (dict_get_default naam [] d)) acc)
    keys acc.

Definition saved_table (d : dict (list string)) : dict (list string) :=
  saved_table_from d (sorted (dict_keys d)) [].

Definition namen_document (l : list string) : json_file (list string) :=
  Object (Some "Geldige NAA.K.T. NAMEN") (Some (sorted l)).

Definition kenmerken_document {rt : Runtime} (d : dict (list string))
  : json_file (dict (list string)) :=
  Object (Some "Geldige NAA.K.T. KENMERKEN per NAAM")
         (Some (dict_items (saved_table d))).

Definition toepassingen_document {rt : Runtime} (d : dict (list string))
  : json_file (dict (list string)) :=
  Object (Some "Geldige NAA.K.T. TOEPASSINGEN per NAAM")
         (Some (dict_items (saved_table d))).

Definition store_example : NAAKTData :=
  {| namen := ["hout"];
     kenmerken_per_naam := [("hout", ["ntb"; "eiken"; "generiek"])];
     toepassingen_per_naam := [("hout", ["wand"; "generiek"])] |}.

(** The world after a successful [add_kenmerk]. *)
Definition after_add_kenmerk {rt : Runtime} (w : World) (naam : string)
    (stored : list string) (kenmerk : string) : World :=
  let table := dict_set naam (stored ++ [kenmerk])
                 (kenmerken_per_naam (self w)) in
  {| self := {| namen := namen (self w);
                kenmerken_per_naam := table;
                toepassingen_per_naam := toepassingen_per_naam (self w) |};
     disk := {| NAMEN_FILE := NAMEN_FILE (disk w);
                KENMERKEN_FILE := Some (kenmerken_document table);
                TOEPASSINGEN_FILE := TOEPASSINGEN_FILE (disk w) |};
     log := log w |}.

(** The world after a successful [add_toepassing]. *)
Definition after_add_toepassing {rt : Runtime} (w : World) (naam : string)
    (stored : list string) (toepassing : string) : World :=
  let table := dict_set naam (stored ++ [toepassing])
                 (toepassingen_per_naam (self w)) in
  {| self := {| namen := namen (self w);
                kenmerken_per_naam := kenmerken_per_naam (self w);
                toepassingen_per_naam := table |};
     disk := {| NAMEN_FILE := NAMEN_FILE (disk w);
                KENMERKEN_FILE := KENMERKEN_FILE (disk w);
                TOEPASSINGEN_FILE := Some (toepassingen_document table) |};
     log := log w |}.


(** The world after a successful [add_naam]. *)
Definition after_add_naam {rt : Runtime} (w : World) (naam : string)
  : World :=
  let names := namen (self w) ++ [naam] in
  let kenmerken :=
    dict_set naam ["generiek"; "ntb"] (kenmerken_per_naam (self w)) in
  let toepassingen :=
    dict_set naam ["generiek"; "ntb"] (toepassingen_per_naam (self w)) in
  {| self := {| namen := names;
                kenmerken_per_naam := kenmerken;
                toepassingen_per_naam := toepassingen |};
     disk := {| NAMEN_FILE := Some (namen_document names);
                KENMERKEN_FILE := Some (kenmerken_document kenmerken);
                TOEPASSINGEN_FILE :=
                  Some (toepassingen_document toepassingen) |};
     log := log w |}.

(** Reading the file raises nothing: it is missing, or a JSON object. *)
Definition readable {A} (f : option (json_file A)) : bool :=
  match f with
  | None | Some (Object _ _) => true
  | Some Malformed | Some NotAnObject => false
  end.

(** The collection a file yields: its data field, or the empty default. *)
Definition content {A} (default : A) (f : option (json_file A)) : A :=
  match f with
  | Some (Object _ (Some v)) => v
  | _ => default
  end.

(** The store [load_data] leaves behind when it starts from empty tables:
    the files are read in the order names, attributes, applications, and
    reading stops at the first file that raises. *)
Definition loaded (d : Disk) : NAAKTData :=
  {| namen := content [] (NAMEN_FILE d);
     kenmerken_per_naam :=
       if readable (NAMEN_FILE d) then content [] (KENMERKEN_FILE d) else [];
     toepassingen_per_naam :=
       if readable (NAMEN_FILE d) && readable (KENMERKEN_FILE d)
       then content [] (TOEPASSINGEN_FILE d) else [] |}.

Definition all_readable (d : Disk) : bool :=
  readable (NAMEN_FILE d) && readable (KENMERKEN_FILE d)
  && readable (TOEPASSINGEN_FILE d).

Definition disk_malformed_names : Disk :=
  {| NAMEN_FILE := Some Malformed;
     KENMERKEN_FILE :=
       Some (Object (Some "Geldige NAA.K.T. KENMERKEN per NAAM")
                    (Some [("hout", ["eiken"; "generiek"; "ntb"])]));
     TOEPASSINGEN_FILE :=
       Some (Object (Some "Geldige NAA.K.T. TOEPASSINGEN per NAAM")
                    (Some [("hout", ["generiek"; "ntb"; "wand"])])) |}.

Definition world_malformed_names : World :=
  {| self := {| namen := []; kenmerken_per_naam := [];
                toepassingen_per_naam := [] |};
     disk := disk_malformed_names;
     log := [] |}.

Definition world_missing_names : World :=
  {| self := store_example;
     disk := {| NAMEN_FILE := None;
                KENMERKEN_FILE := KENMERKEN_FILE disk_malformed_names;
                TOEPASSINGEN_FILE := Some NotAnObject |};
     log := [] |}.

(** Two dictionaries hold the same keys, with the same values up to
    order. *)
Definition dict_equiv (d1 d2 : dict (list string)) : Prop :=
  forall k,
    match dict_get k d1, dict_get k d2 with
    | Some l1, Some l2 => l1 ≡ₚ l2
    | None, None => True
    | _, _ => False
    end.



(** The entry the comprehension makes for a key. *)
Definition saved_entry (d : dict (list string)) (naam : string)
  : string * list string :=
  (naam, sorted (dict_get_default naam [] d)).





Definition mk_material (id : ElementId) (name : string) : Material :=
  let grey := {| Red := 128%N; Green := 128%N; Blue := 128%N |} in
  {| Id := id; Name := name; AppearanceAssetId := InvalidElementId;
     SurfaceForegroundPatternId := InvalidElementId;
     SurfaceForegroundPatternColor := grey;
     SurfaceBackgroundPatternId := InvalidElementId;
     SurfaceBackgroundPatternColor := grey;
     CutForegroundPatternId := InvalidElementId;
     CutForegroundPatternColor := grey;
     CutBackgroundPatternId := InvalidElementId;
     CutBackgroundPatternColor := grey |}.

Definition mat_hout : Material := mk_material 1%Z "Hout".
Definition mat_staal : Material := mk_material 3%Z "Staal".

Definition window_example : Window :=
  {| cmb_naam := Some "beton"; cmb_kenmerk := Some "generiek";
     cmb_toepassing := Some "wand"; txt_eigen := EmptyString;
     txt_preview := EmptyString;
     cmb_surface_fg := None; cmb_cut_fg := None; patterns := [];
     surface_fg_color := "#323232"; surface_bg_color := "#C8C8C8";
     cut_fg_color := "#323232"; cut_bg_color := "#B4B4B4" |}.

(** A window in which no attribute is selected and a free text is typed. *)
Definition window_missing_kenmerk : Window :=
  {| cmb_naam := Some "beton"; cmb_kenmerk := None;
     cmb_toepassing := Some "wand"; txt_eigen := "Prefab";
     txt_preview := EmptyString;
     cmb_surface_fg := None; cmb_cut_fg := None; patterns := [];
     surface_fg_color := "#323232"; surface_bg_color := "#C8C8C8";
     cut_fg_color := "#323232"; cut_bg_color := "#B4B4B4" |}.

(** The number of required segments that are selected. *)
Definition selected_count (w : Window) : nat :=
  length (option_list (cmb_naam w)) + length (option_list (cmb_kenmerk w))
  + length (option_list (cmb_toepassing w)).

(** The normalised free text of the window. *)
Definition eigen_of (w : Window) : string :=
  Str.replace_char " " "_" (Str.lower (Str.strip (txt_eigen w))).

Definition is_upper_hex (c : ascii) : bool :=
  let n := Str.code c in
  (((48 <=? n) && (n <=? 57)) || ((65 <=? n) && (n <=? 70)))%N.

Definition upper_hex_chars : list ascii :=
  map upper_hex_digit
    [0; 1; 2; 3; 4; 5; 6; 7; 8; 9; 10; 11; 12; 13; 14; 15]%N.

(** Two digits are read as a byte that is printed as the same digits. *)
Definition byte_roundtrip (c1 c2 : ascii) : bool :=
  match int16 (String c1 (String c2 EmptyString)) with
  | Return z =>
      (0 <=? z)%Z && (z <=? 255)%Z
      && String.eqb (format_02X (Z.to_N z)) (String c1 (String c2 EmptyString))
  | Raise _ => false
  end.

(** What every step of the provisioner other than the transaction calls
    and [Material.Duplicate] leaves alone: the host's behaviour, the state
    of the transaction and the names of the materials. *)
Definition keeps (h h' : HostWorld) : Prop :=
  behaviour h' = behaviour h
  /\ transaction h' = transaction h
  /\ map Name (materials (doc h')) = map Name (materials (doc h)).

Definition stable {A} (m : Py HostWorld A) : Prop :=
  forall h, keeps h (snd (m h)).

(** The computation returns a value: no exception escapes it. *)
Definition returns {A} (m : Py HostWorld A) : Prop :=
  forall h, exists a, fst (m h) = Return a.

(** The host answers the call with an exception. *)
Definition throws (h : HostWorld) (c : HostCall) : bool :=
  match behaviour h c with
  | Throws _ => true
  | _ => false
  end.

(** The state in which the statements after [t.Start()] run. *)
Definition started (h : HostWorld) : HostWorld :=
  set_transaction (Started (doc h)) (set_transaction NotStarted h).

(** The names of the materials of the document. *)
Definition material_names (h : HostWorld) : list string :=
  map Name (materials (doc h)).

(** A document with one material and a host in which assigning the
    surface foreground colour of a material raises. *)
Definition host_example : HostWorld :=
  {| doc := {| materials := [mat_hout]; assets := []; fill_patterns := [] |};
     transaction := NotStarted;
     behaviour := fun c =>
       match c with
       | SetSurfaceForegroundPatternColor =>
           Throws "The color is not valid for this material."
       | _ => Normal
       end;
     answer := Yes;
     host_log := [];
     messages := [] |}.

(** A host in which [Material.Duplicate] raises. *)
Definition host_duplicate_fails : HostWorld :=
  {| doc := {| materials := [mat_hout]; assets := []; fill_patterns := [] |};
     transaction := NotStarted;
     behaviour := fun c =>
       match c with
       | MaterialDuplicate => Throws "The material cannot be duplicated."
       | _ => Normal
       end;
     answer := Yes;
     host_log := [];
     messages := [] |}.

(** ** Invariants of the taxonomy store *)

(** The normal form [add_naam], [add_kenmerk] and [add_toepassing] give
    their input: lowered, then stripped, by the runtime. *)
Definition normal_form {rt : Runtime} (raw : string) : string :=
  str_strip (str_lower raw).

(** Nothing is stored twice: names, the keys of both tables, and the
    values under each key. *)
Definition store_unique (s : NAAKTData) : Prop :=
  NoDup (namen s)
  /\ dict_wf (kenmerken_per_naam s)
  /\ dict_wf (toepassingen_per_naam s)
  /\ (forall naam l, dict_get naam (kenmerken_per_naam s) = Some l -> NoDup l)
  /\ (forall naam l,
        dict_get naam (toepassingen_per_naam s) = Some l -> NoDup l).

(** Every name has an attribute list and an application list, and neither
    is empty. *)
Definition store_complete (s : NAAKTData) : Prop :=
  forall naam, naam ∈ namen s ->
    (exists l, dict_get naam (kenmerken_per_naam s) = Some l /\ l <> [])
    /\ (exists l, dict_get naam (toepassingen_per_naam s) = Some l /\ l <> []).


(** A string that does not start with whitespace. *)
Definition no_leading_space (s : string) : Prop :=
  match s with
  | EmptyString => True
  | String c _ => Str.is_whitespace c = false
  end.

(** A store that satisfies the invariants, used as an example. *)
Definition world_unique_example : World :=
  {| self := {| namen := ["hout"; "staal"];
                kenmerken_per_naam :=
                  [("hout", ["generiek"; "eiken"]); ("staal", ["ntb"])];
                toepassingen_per_naam :=
                  [("hout", ["wand"]); ("staal", ["generiek"])] |};
     disk := {| NAMEN_FILE := None; KENMERKEN_FILE := None;
                TOEPASSINGEN_FILE := None |};
     log := [] |}.

(** ** Vocabulary of the matcher, the composer and the colours *)



(** [n] number signs before a string. *)
Fixpoint hashes (n : nat) (s : string) : string :=
  match n with
  | O => s
  | S n' => String "#" (hashes n' s)
  end.

(** A colour of the host: each component is a byte. *)
Definition byte_color (c : Color) : Prop :=
  (Red c <= 255)%N /\ (Green c <= 255)%N /\ (Blue c <= 255)%N.

(** A byte is printed as two uppercase digits that are read back as the
    byte, also when the digits are lowercased. *)
Definition byte_print_read (n : N) : bool :=
  match format_02X n with
  | String c1 (String c2 EmptyString) =>
      is_upper_hex c1 && is_upper_hex c2
      && match int16 (String c1 (String c2 EmptyString)),
               int16 (Str.lower (String c1 (String c2 EmptyString))) with
         | Return z, Return z' => Z.eqb z (Z.of_N n) && Z.eqb z' (Z.of_N n)
         | _, _ => false
         end
  | _ => false
  end.

(** The element has a fill pattern that can be read. *)
Definition has_fill_pattern (p : FillPatternElement) : Prop :=
  exists fp, GetFillPattern p = Return (Some fp).

Definition pattern_example (id : ElementId) (name : string) (solid : bool)
  : FillPatternElement :=
  {| pattern_Id := id; pattern_Name := name;
     GetFillPattern := Return (Some {| IsSolidFill := solid |}) |}.

Definition document_example : Document :=
  {| materials := [mat_hout; mat_staal];
     assets := [];
     fill_patterns :=
       [ pattern_example 10%Z "Diagonal crosshatch" false;
         {| pattern_Id := 11%Z; pattern_Name := "Broken";
            GetFillPattern := Raise (HostException "Invalid fill pattern.") |};
         pattern_example 12%Z "<Solid fill>" true;
         pattern_example 13%Z "Crosshatch" false ] |}.

(** ** Vocabulary of the provisioner *)

(** The material name is in use in the document. *)
Definition name_in_use (name : string) (h : HostWorld) : bool :=
  existsb (fun mat => String.eqb (Name mat) name) (materials (doc h)).

(** The document with one more material at the end. *)
Definition with_new_material (d : Document) (m : Material) : Document :=
  {| materials := materials d ++ [m];
     assets := assets d;
     fill_patterns := fill_patterns d |}.

(** The document with one more appearance asset at the end. *)
Definition with_new_asset (d : Document) (a : AppearanceAssetElement)
  : Document :=
  {| materials := materials d;
     assets := assets d ++ [a];
     fill_patterns := fill_patterns d |}.

(** The pattern a combo box selects: the id stored for the selected name. *)
Definition selected_pattern (selection : option string)
    (table : dict ElementId) : option ElementId :=
  match selection with
  | Some pattern_name => dict_get pattern_name table
  | None => None
  end.

(** The material after all assignments of [_apply_patterns]: the four
    colours, the selected foreground patterns when there are any, and the
    solid fill pattern as both background patterns when the document has
    one. *)
Definition configured (w : Window) (solid_id : ElementId)
    (surface_fg surface_bg cut_fg cut_bg : Color) (m : Material) : Material :=
  {| Id := Id m;
     Name := Name m;
     AppearanceAssetId := AppearanceAssetId m;
     SurfaceForegroundPatternId :=
       match selected_pattern (cmb_surface_fg w) (patterns w) with
       | Some pattern_id => pattern_id
       | None => SurfaceForegroundPatternId m
       end;
     SurfaceForegroundPatternColor := surface_fg;
     SurfaceBackgroundPatternId :=
       if Z.eqb solid_id InvalidElementId
       then SurfaceBackgroundPatternId m else solid_id;
     SurfaceBackgroundPatternColor := surface_bg;
     CutForegroundPatternId :=
       match selected_pattern (cmb_cut_fg w) (patterns w) with
       | Some pattern_id => pattern_id
       | None => CutForegroundPatternId m
       end;
     CutForegroundPatternColor := cut_fg;
     CutBackgroundPatternId :=
       if Z.eqb solid_id InvalidElementId
       then CutBackgroundPatternId m else solid_id;
     CutBackgroundPatternColor := cut_bg |}.

(** The calls [_apply_patterns] makes into the host. *)
Definition pattern_calls : list HostCall :=
  [ SetSurfaceForegroundPatternId; SetSurfaceForegroundPatternColor;
    SetSurfaceBackgroundPatternColor; SetSurfaceBackgroundPatternId;
    SetCutForegroundPatternId; SetCutForegroundPatternColor;
    SetCutBackgroundPatternColor; SetCutBackgroundPatternId ].

(** A host that answers every call normally, over the example document. *)
Definition host_normal : HostWorld :=
  {| doc := document_example;
     transaction := NotStarted;
     behaviour := fun _ => Normal;
     answer := Yes;
     host_log := [];
     messages := [] |}.

(** A window with a complete selection whose generated name is shown. *)
Definition window_ready : Window :=
  _update_preview
    {| cmb_naam := Some "hout"; cmb_kenmerk := Some "generiek";
       cmb_toepassing := Some "wand"; txt_eigen := EmptyString;
       txt_preview := EmptyString;
       cmb_surface_fg := Some "Crosshatch"; cmb_cut_fg := None;
       patterns := get_all_patterns document_example;
       surface_fg_color := "#323232"; surface_bg_color := "#C8C8C8";
       cut_fg_color := "#323232"; cut_bg_color := "#B4B4B4" |}.

(** A window whose preview shows the name of a material of the example
    document. *)
Definition window_name_in_use : Window :=
  {| cmb_naam := Some "hout"; cmb_kenmerk := Some "generiek";
     cmb_toepassing := Some "wand"; txt_eigen := EmptyString;
     txt_preview := "Hout";
     cmb_surface_fg := None; cmb_cut_fg := None; patterns := [];
     surface_fg_color := "#323232"; surface_bg_color := "#C8C8C8";
     cut_fg_color := "#323232"; cut_bg_color := "#B4B4B4" |}.

(** A material that has an appearance asset, and a document that holds
    both. *)
Definition mat_eiken : Material :=
  with_AppearanceAssetId 5%Z (mk_material 4%Z "Eiken").

Definition document_with_asset : Document :=
  {| materials := [mat_eiken];
     assets := [{| asset_Id := 5%Z; asset_Name := "Eiken" |}];
     fill_patterns := [pattern_example 6%Z "<Solid fill>" true] |}.

(** A host in which duplicating an appearance asset raises. *)
Definition host_asset_fails : HostWorld :=
  {| doc := document_with_asset;
     transaction := NotStarted;
     behaviour := fun c =>
       match c with
       | AssetDuplicate => Throws "The asset cannot be duplicated."
       | _ => Normal
       end;
     answer := Yes;
     host_log := [];
     messages := [] |}.

(** ** Vocabulary of the window *)

(** A colour string as the window stores it: a number sign and six
    uppercase hexadecimal digits. *)
Definition well_formed_hex (s : string) : bool :=
  match s with
  | String "#" (String r1 (String r2 (String g1 (String g2 (String b1
      (String b2 EmptyString)))))) =>
      forallb is_upper_hex [r1; r2; g1; g2; b1; b2]
  | _ => false
  end.

(** The four colours of the window are well formed. *)
Definition colors_ok (w : Window) : Prop :=
  forall target : Ui.ColorTarget,
    well_formed_hex (Ui.get_color target w) = true.

(** The name of a pattern contains [solid], in any case. *)
Definition solid_name (name : string) : bool :=
  Str.contains "solid" (Str.lower name).

(** The item [_on_naam_changed] selects in a filled combo box: [generiek]
    when it is an item, and otherwise the first item. *)
Definition generiek_or_first (items : list string) : option string :=
  if decide ("generiek" ∈ items) then Some "generiek" else head items.


(** ** Vocabulary of the logger *)

(** The files of a directory that [_cleanup_old_logs] takes for logs of
    the tool. *)
Definition logs_of (tool : string) (fs : list Logger.File)
  : list Logger.File :=
  filter (fun f => Logger.is_log_of tool (Logger.file_name f)) fs.

(** The directory at [dir] holds the files [fs]. *)
Definition dir_is (dir : string) (fs : list Logger.File) (os : Logger.OS)
  : Prop :=
  dict_get dir (Logger.dirs os) = Some fs.

(** From [os] to [os'] nothing but the files of [dir] has changed: the
    answers of the operating system, the clock and the other directories
    are the same, and [dir] is a directory after when it was before. *)
Definition only_dir_changed (dir : string) (os os' : Logger.OS) : Prop :=
  Logger.parent_exists os' = Logger.parent_exists os
  /\ Logger.makedirs_ok os' = Logger.makedirs_ok os
  /\ Logger.listdir_ok os' = Logger.listdir_ok os
  /\ Logger.getmtime_ok os' = Logger.getmtime_ok os
  /\ Logger.open_ok os' = Logger.open_ok os
  /\ Logger.remove_ok os' = Logger.remove_ok os
  /\ Logger.clock os' = Logger.clock os
  /\ (forall p, p <> dir ->
        dict_get p (Logger.dirs os') = dict_get p (Logger.dirs os))
  /\ (dict_has dir (Logger.dirs os') = dict_has dir (Logger.dirs os)).

(** A log file of the example. *)
Definition log_example (tool stamp : string) (mtime : Z) : Logger.File :=
  {| Logger.file_name := tool +:+ "_" +:+ stamp +:+ ".log";
     Logger.file_mtime := mtime;
     Logger.file_lines := [] |}.

(** Eleven logs of one tool, in no order, the log of another tool and a
    file that is no log. *)
Definition files_example : list Logger.File :=
  [ log_example "AutoDim" "2024-01-05" 5; log_example "AutoDim" "2024-01-02" 2;
    log_example "AutoDim" "2024-01-11" 11; log_example "Other" "2024-01-01" 1;
    log_example "AutoDim" "2024-01-01" 1; log_example "AutoDim" "2024-01-07" 7;
    log_example "AutoDim" "2024-01-03" 3; log_example "AutoDim" "2024-01-09" 9;
    {| Logger.file_name := "notes.txt"; Logger.file_mtime := 0;
       Logger.file_lines := ["keep"] |};
    log_example "AutoDim" "2024-01-10" 10; log_example "AutoDim" "2024-01-04" 4;
    log_example "AutoDim" "2024-01-08" 8; log_example "AutoDim" "2024-01-06" 6 ].

Definition clock_example : Logger.Clock :=
  {| Logger.time_now := 12; Logger.now_file := "2024-01-12_08-30-00";
     Logger.now_date := "2024-01-12 08:30:00";
     Logger.now_time := "08:30:00.000" |}.

(** A system with one log directory in which every call succeeds. *)
Definition os_example : Logger.OS :=
  {| Logger.dirs := [("C:\logs", files_example)];
     Logger.parent_exists := fun _ => true;
     Logger.makedirs_ok := fun _ => true;
     Logger.listdir_ok := fun _ => true;
     Logger.getmtime_ok := fun _ _ => true;
     Logger.open_ok := fun _ _ => true;
     Logger.remove_ok := fun _ _ => true;
     Logger.clock := clock_example |}.

Definition logger_example : Logger.BMLogger :=
  {| Logger.tool_name := "AutoDim";
     Logger.log_level := Logger.LogLevel.get_value Logger.LOG_LEVEL;
     Logger.log_dir := "C:\logs";
     Logger.log_file := "AutoDim_2024-01-12_08-30-00.log" |}.

(** The time [os.path.getmtime] gives for a name in a directory. *)
Definition mtime_of (name : string) (fs : list Logger.File) : Z :=
  match Logger.find_file name fs with
  | Some f => Logger.file_mtime f
  | None => 0%Z
  end.

(** The list [_cleanup_old_logs] collects from a listing. *)
Definition log_entries (tool : string) (fs : list Logger.File)
    (names : list string) : list (string * Z) :=
  map (fun name => (name, mtime_of name fs))
      (filter (fun name => Logger.is_log_of tool name) names).

(** Older or as old. *)
Definition older (x y : string * Z) : Prop := (snd x <= snd y)%Z.

(** The system of the example when the time of one log cannot be read. *)
Definition os_unreadable_example : Logger.OS :=
  {| Logger.dirs := [("C:\logs", files_example)];
     Logger.parent_exists := fun _ => true;
     Logger.makedirs_ok := fun _ => true;
     Logger.listdir_ok := fun _ => true;
     Logger.getmtime_ok :=
       fun _ name => negb (String.eqb name "AutoDim_2024-01-11.log");
     Logger.open_ok := fun _ _ => true;
     Logger.remove_ok := fun _ _ => true;
     Logger.clock := clock_example |}.


(** A path [_get_log_directory] can use: it or its parent exists, it
    exists or can be made, and the test file can be written and removed. *)
Definition usable (os : Logger.OS) (path : string) : bool :=
  (Logger.parent_exists os path || dict_has path (Logger.dirs os))
  && (dict_has path (Logger.dirs os) || Logger.makedirs_ok os path)
  && Logger.open_ok os path ".write_test"
  && Logger.remove_ok os path ".write_test".

(** What looking for a log directory may change: directories may be made
    where that is allowed, and test files written or removed. The answers
    of the operating system and the clock are the same, every directory
    is still there and keeps its files other than the test file, and a
    directory that was made holds no other file. *)
Definition files_kept (os os' : Logger.OS) : Prop :=
  Logger.parent_exists os' = Logger.parent_exists os
  /\ Logger.makedirs_ok os' = Logger.makedirs_ok os
  /\ Logger.listdir_ok os' = Logger.listdir_ok os
  /\ Logger.getmtime_ok os' = Logger.getmtime_ok os
  /\ Logger.open_ok os' = Logger.open_ok os
  /\ Logger.remove_ok os' = Logger.remove_ok os
  /\ Logger.clock os' = Logger.clock os
  /\ (forall q, dict_has q (Logger.dirs os) = true ->
        dict_has q (Logger.dirs os') = true)
  /\ (forall q, dict_has q (Logger.dirs os') = true ->
        dict_has q (Logger.dirs os) = true
        \/ Logger.makedirs_ok os q = true)
  /\ (forall q fs fs',
        dict_get q (Logger.dirs os) = Some fs ->
        dict_get q (Logger.dirs os') = Some fs' ->
        forall f, Logger.file_name f <> ".write_test" ->
          (f ∈ fs' <-> f ∈ fs))
  /\ (forall q fs',
        dict_get q (Logger.dirs os) = None ->
        dict_get q (Logger.dirs os') = Some fs' ->
        forall f, f ∈ fs' -> Logger.file_name f = ".write_test").

(** The files are kept and the same paths are usable. *)
Definition probed (os os' : Logger.OS) : Prop :=
  files_kept os os' /\ forall q, usable os' q = usable os q.

(** Two candidates and a fallback. *)
Definition config_example : Logger.Config :=
  {| Logger.LOG_PATHS := ["Z:\logs"; "C:\logs"];
     Logger.FALLBACK_LOG_PATH := "C:\Temp\logs" |}.

(** The system of the example when the first candidate can be made but not
    written to. *)
Definition os_readonly_example : Logger.OS :=
  {| Logger.dirs := [("C:\logs", files_example)];
     Logger.parent_exists := fun _ => true;
     Logger.makedirs_ok := fun _ => true;
     Logger.listdir_ok := fun _ => true;
     Logger.getmtime_ok := fun _ _ => true;
     Logger.open_ok := fun path _ => negb (String.eqb path "Z:\logs");
     Logger.remove_ok := fun _ _ => true;
     Logger.clock := clock_example |}.

(** The lines a file of a directory has, none when there is no such
    file. *)
Definition lines_of (name : string) (fs : list Logger.File) : list string :=
  match Logger.find_file name fs with
  | Some f => Logger.file_lines f
  | None => []
  end.

(** The file [_write_lines] leaves when it can open the log file. *)
Definition written (self : Logger.BMLogger) (os : Logger.OS)
    (fs : list Logger.File) (lines : list string) : Logger.File :=
  {| Logger.file_name := Logger.log_file self;
     Logger.file_mtime := Logger.time_now (Logger.clock os);
     Logger.file_lines := lines_of (Logger.log_file self) fs ++ lines |}.

(** The method of the logger for each level of a log record, its number
    and its name. *)
Definition log_method (lvl : level)
  : Logger.BMLogger -> string -> option string -> option string
    -> Py Logger.OS unit :=
  match lvl with
  | DEBUG => Logger.debug
  | INFO => Logger.info
  | WARNING => Logger.warning
  | ERROR => Logger.error
  end.

Definition level_name (lvl : level) : string :=
  match lvl with
  | DEBUG => "DEBUG"
  | INFO => "INFO"
  | WARNING => "WARNING"
  | ERROR => "ERROR"
  end.

(** A configuration with the directory of the example as only
    candidate. *)
Definition config_single_example : Logger.Config :=
  {| Logger.LOG_PATHS := ["C:\logs"];
     Logger.FALLBACK_LOG_PATH := "C:\Temp\logs" |}.

(** * Properties *)

(** ** The monad *)

Lemma bind_run {S A B} (m : Py S A) (k : A -> Py S B) (s s' : S) (a : A) :
  m s = (Return a, s') -> bind m k s = k a s'.
Proof. unfold bind. by intros ->. Qed.

Lemma bind_raise {S A B} (m : Py S A) (k : A -> Py S B) (s s' : S) (e : exn) :
  m s = (Raise e, s') -> bind m k s = (Raise e, s').
Proof. unfold bind. by intros ->. Qed.

(** ** Sorting *)

Lemma sorted_Sorted (l : list string) : Sorted String.le (sorted l).
Proof. apply Sorted_merge_sort. apply _. Qed.

Lemma sorted_Permutation (l : list string) : sorted l ≡ₚ l.
Proof. apply merge_sort_Permutation. Qed.

Lemma sorted_unique (l1 l2 : list string) : l1 ≡ₚ l2 -> sorted l1 = sorted l2.
Proof.
  intros Hp. apply (Sorted_unique String.le).
  - apply sorted_Sorted.
  - apply sorted_Sorted.
  - rewrite !sorted_Permutation. exact Hp.
Qed.



(** ** Dictionaries *)

Section DictFacts.
Context {V : Type}.
Implicit Types (d : dict V) (k : string) (v : V).

Lemma dict_get_set_eq k v d : dict_get k (dict_set k v d) = Some v.
Proof.
  induction d as [|[k' v'] d IH]; simpl.
  - by rewrite String.eqb_refl.
  - destruct (String.eqb k' k) eqn:E; simpl.
    + by rewrite String.eqb_refl.
    + by rewrite E.
Qed.

Lemma dict_get_set_ne k k' v d :
  k <> k' -> dict_get k' (dict_set k v d) = dict_get k' d.
Proof.
  intros Hne. induction d as [|[k0 v0] d IH]; simpl.
  - by apply String.eqb_neq in Hne as ->.
  - destruct (String.eqb k0 k) eqn:E; simpl.
    + apply String.eqb_eq in E as ->.
      by apply String.eqb_neq in Hne as ->.
    + by rewrite IH.
Qed.

Lemma dict_get_None k d : dict_get k d = None <-> k ∉ dict_keys d.
Proof.
  induction d as [|[k0 v0] d IH]; simpl.
  - split; [intros _; apply not_elem_of_nil | done].
  - rewrite not_elem_of_cons. destruct (String.eqb k0 k) eqn:E.
    + apply String.eqb_eq in E as ->. split; [done | intros [? _]; done].
    + apply String.eqb_neq in E. rewrite IH. split; [|intros [_ ?]; done].
      intros ?; split; [congruence | done].
Qed.

Lemma dict_get_Some_key k v d : dict_get k d = Some v -> k ∈ dict_keys d.
Proof.
  intros H. destruct (decide (k ∈ dict_keys d)) as [|Hn]; [done|].
  apply dict_get_None in Hn. congruence.
Qed.

Lemma dict_key_get k d : k ∈ dict_keys d -> exists v, dict_get k d = Some v.
Proof.
  intros H. destruct (dict_get k d) as [v|] eqn:E; [by exists v|].
  apply dict_get_None in E. done.
Qed.

Lemma dict_has_true k d : dict_has k d = true <-> k ∈ dict_keys d.
Proof.
  unfold dict_has. split.
  - destruct (dict_get k d) eqn:E; [|done]. intros _.
    by eapply dict_get_Some_key.
  - intros [v ->]%dict_key_get. done.
Qed.

Lemma dict_set_fresh k v d : k ∉ dict_keys d -> dict_set k v d = d ++ [(k, v)].
Proof.
  induction d as [|[k0 v0] d IH]; simpl; [done|].
  rewrite not_elem_of_cons. intros [Hne Hnin].
  assert (String.eqb k0 k = false) as -> by (apply String.eqb_neq; congruence).
  by rewrite IH.
Qed.

Lemma dict_keys_set_present k v d :
  k ∈ dict_keys d -> dict_keys (dict_set k v d) = dict_keys d.
Proof.
  induction d as [|[k0 v0] d IH]; simpl.
  - by intros ?%elem_of_nil.
  - destruct (String.eqb k0 k) eqn:E; simpl.
    + apply String.eqb_eq in E as ->. done.
    + apply String.eqb_neq in E. rewrite elem_of_cons.
      intros [->|Hin]; [done|]. f_equal. by apply IH.
Qed.

Lemma dict_wf_set k v d : dict_wf d -> dict_wf (dict_set k v d).
Proof.
  unfold dict_wf. intros Hwf.
  destruct (decide (k ∈ dict_keys d)) as [Hin|Hnin].
  - by rewrite dict_keys_set_present.
  - rewrite dict_set_fresh by done. unfold dict_keys. rewrite map_app. simpl.
    apply NoDup_app. split; [done|]. split; [|apply NoDup_singleton].
    intros x Hx ->%list_elem_of_singleton. done.
Qed.

End DictFacts.

Lemma list_has_true (x : string) (l : list string) :
  list_has x l = true <-> x ∈ l.
Proof.
  unfold list_has. rewrite existsb_exists. split.
  - intros (y & Hin & ->%String.eqb_eq). by apply list_elem_of_In.
  - intros Hin. exists x. split; [by apply list_elem_of_In|].
    apply String.eqb_refl.
Qed.

(** Membership in a literal list. *)
Ltac list_absent :=
  let H := fresh "H" in
  intros H%list_elem_of_In; simpl in H; intuition discriminate.
Ltac list_present := apply list_elem_of_In; simpl; tauto.

Lemma nonempty_true (s : string) : Str.nonempty s = true <-> s <> EmptyString.
Proof. destruct s; simpl; split; done. Qed.

(** ** Taxonomy store *)

(** The comprehension never meets a missing key: its keys are the
    dictionary's own. *)
Lemma sorted_comprehension_run d keys acc (w : World) :
  (forall k, k ∈ keys -> k ∈ dict_keys d) ->
  sorted_comprehension d keys acc w = (Return (saved_table_from d keys acc), w).
Proof.
  revert acc. induction keys as [|k keys IH]; intros acc Hsub; [done|].
  destruct (dict_key_get k d) as [v Hv]; [apply Hsub; left|].
  simpl. unfold bind, dict_item. rewrite Hv. simpl.
  rewrite IH by (intros; apply Hsub; by right).
  unfold dict_get_default. by rewrite Hv.
Qed.

Lemma sorted_keys_run d (w : World) :
  sorted_comprehension d (sorted (dict_keys d)) [] w
  = (Return (saved_table d), w).
Proof.
  apply sorted_comprehension_run. intros k.
  by rewrite sorted_Permutation.
Qed.

Lemma save_namen_run (w : World) :
  save_namen w =
  (Return tt,
   {| self := self w;
      disk := {| NAMEN_FILE := Some (namen_document (namen (self w)));
                 KENMERKEN_FILE := KENMERKEN_FILE (disk w);
                 TOEPASSINGEN_FILE := TOEPASSINGEN_FILE (disk w) |};
      log := log w |}).
Proof. reflexivity. Qed.

Lemma save_kenmerken_run {rt : Runtime} (w : World) :
  save_kenmerken w =
  (Return tt,
   {| self := self w;
      disk := {| NAMEN_FILE := NAMEN_FILE (disk w);
                 KENMERKEN_FILE :=
                   Some (kenmerken_document (kenmerken_per_naam (self w)));
                 TOEPASSINGEN_FILE := TOEPASSINGEN_FILE (disk w) |};
      log := log w |}).
Proof.
  unfold save_kenmerken, bind, gets. by rewrite sorted_keys_run.
Qed.

Lemma save_toepassingen_run {rt : Runtime} (w : World) :
  save_toepassingen w =
  (Return tt,
   {| self := self w;
      disk := {| NAMEN_FILE := NAMEN_FILE (disk w);
                 KENMERKEN_FILE := KENMERKEN_FILE (disk w);
                 TOEPASSINGEN_FILE :=
                   Some (toepassingen_document
                           (toepassingen_per_naam (self w))) |};
      log := log w |}).
Proof.
  unfold save_toepassingen, bind, gets. by rewrite sorted_keys_run.
Qed.

(** C9. For every name, known or not, [get_kenmerken] and
    [get_toepassingen] return a list (the functions are total: nothing is
    raised and nothing is null) that is sorted and is a rearrangement of the
    list stored for the name; for a name that is not a key of the table the
    result is the empty list. *)
Theorem get_kenmerken_toepassingen_sorted_copy (s : NAAKTData) (naam : string) :
  (Sorted String.le (get_kenmerken s naam)
   /\ get_kenmerken s naam
      ≡ₚ match dict_get naam (kenmerken_per_naam s) with
         | Some stored => stored
         | None => []
         end
   /\ (dict_has naam (kenmerken_per_naam s) = false ->
       get_kenmerken s naam = []))
  /\
  (Sorted String.le (get_toepassingen s naam)
   /\ get_toepassingen s naam
      ≡ₚ match dict_get naam (toepassingen_per_naam s) with
         | Some stored => stored
         | None => []
         end
   /\ (dict_has naam (toepassingen_per_naam s) = false ->
       get_toepassingen s naam = [])).
Proof.
  unfold get_kenmerken, get_toepassingen, dict_get_default, dict_has.
  split; (split; [apply sorted_Sorted|]); (split; [apply sorted_Permutation|]).
  - destruct (dict_get naam (kenmerken_per_naam s)); [done|]. reflexivity.
  - destruct (dict_get naam (toepassingen_per_naam s)); [done|]. reflexivity.
Qed.

Lemma get_kenmerken_toepassingen_sorted_copy_witness :
  get_kenmerken store_example "hout" = ["eiken"; "generiek"; "ntb"]
  /\ get_kenmerken store_example "staal" = []
  /\ get_toepassingen store_example "staal" = [].
Proof.
  split; [reflexivity|].
  pose proof (get_kenmerken_toepassingen_sorted_copy store_example "staal")
    as [(_ & _ & Hk) (_ & _ & Ht)].
  split; [apply Hk | apply Ht]; reflexivity.
Defined.

Lemma world_eta (w : World) :
  {| self := self w; disk := disk w; log := log w |} = w.
Proof. by destruct w. Qed.

Lemma add_kenmerk_fail {rt : Runtime} (w : World) (naam raw : string) :
  let kenmerk := str_strip (str_lower raw) in
  naam ∉ dict_keys (kenmerken_per_naam (self w))
  \/ kenmerk = EmptyString
  \/ (exists stored, dict_get naam (kenmerken_per_naam (self w)) = Some stored
                     /\ kenmerk ∈ stored) ->
  add_kenmerk naam raw w = (Return false, w).
Proof.
  intros kenmerk H. unfold add_kenmerk, bind, gets, dict_has, dict_item.
  fold kenmerk.
  destruct (dict_get naam (kenmerken_per_naam (self w))) as [l|] eqn:El;
    simpl; [|done].
  destruct (Str.nonempty kenmerk) eqn:En; simpl; [|done].
  destruct (list_has kenmerk l) eqn:Eh; simpl; [done|].
  exfalso. destruct H as [H|[H|(l' & Hl' & Hin)]].
  - apply H. by eapply dict_get_Some_key.
  - by apply nonempty_true in En.
  - simplify_eq. apply list_has_true in Hin. congruence.
Qed.

Lemma add_kenmerk_ok {rt : Runtime} (w : World) (naam raw : string)
    (stored : list string) :
  let kenmerk := str_strip (str_lower raw) in
  dict_get naam (kenmerken_per_naam (self w)) = Some stored ->
  kenmerk <> EmptyString -> kenmerk ∉ stored ->
  add_kenmerk naam raw w = (Return true, after_add_kenmerk w naam stored kenmerk).
Proof.
  intros kenmerk Hl Hne Hnin.
  unfold add_kenmerk, bind, gets, dict_has, dict_item. fold kenmerk.
  rewrite Hl. simpl.
  apply nonempty_true in Hne as ->. simpl.
  destruct (list_has kenmerk stored) eqn:Eh.
  { apply list_has_true in Eh. done. }
  simpl. unfold set_kenmerken, modify. by rewrite save_kenmerken_run.
Qed.

Lemma add_toepassing_fail {rt : Runtime} (w : World) (naam raw : string) :
  let toepassing := str_strip (str_lower raw) in
  naam ∉ dict_keys (toepassingen_per_naam (self w))
  \/ toepassing = EmptyString
  \/ (exists stored,
        dict_get naam (toepassingen_per_naam (self w)) = Some stored
        /\ toepassing ∈ stored) ->
  add_toepassing naam raw w = (Return false, w).
Proof.
  intros toepassing H. unfold add_toepassing, bind, gets, dict_has, dict_item.
  fold toepassing.
  destruct (dict_get naam (toepassingen_per_naam (self w))) as [l|] eqn:El;
    simpl; [|done].
  destruct (Str.nonempty toepassing) eqn:En; simpl; [|done].
  destruct (list_has toepassing l) eqn:Eh; simpl; [done|].
  exfalso. destruct H as [H|[H|(l' & Hl' & Hin)]].
  - apply H. by eapply dict_get_Some_key.
  - by apply nonempty_true in En.
  - simplify_eq. apply list_has_true in Hin. congruence.
Qed.

Lemma add_toepassing_ok {rt : Runtime} (w : World) (naam raw : string)
    (stored : list string) :
  let toepassing := str_strip (str_lower raw) in
  dict_get naam (toepassingen_per_naam (self w)) = Some stored ->
  toepassing <> EmptyString -> toepassing ∉ stored ->
  add_toepassing naam raw w
  = (Return true, after_add_toepassing w naam stored toepassing).
Proof.
  intros toepassing Hl Hne Hnin.
  unfold add_toepassing, bind, gets, dict_has, dict_item. fold toepassing.
  rewrite Hl. simpl.
  apply nonempty_true in Hne as ->. simpl.
  destruct (list_has toepassing stored) eqn:Eh.
  { apply list_has_true in Eh. done. }
  simpl. unfold set_toepassingen, modify. by rewrite save_toepassingen_run.
Qed.



Lemma add_naam_new {rt : Runtime} (w : World) (raw : string) :
  let naam := str_strip (str_lower raw) in
  naam <> EmptyString -> naam ∉ namen (self w) ->
  add_naam raw w = (Return true, after_add_naam w naam).
Proof.
  intros naam Hne Hnin. unfold add_naam. fold naam.
  unfold bind at 1. unfold gets at 1.
  apply nonempty_true in Hne as ->.
  destruct (list_has naam (namen (self w))) eqn:Eh.
  { apply list_has_true in Eh. done. }
  cbn [andb negb].
  do 3 (erewrite bind_run by reflexivity).
  erewrite bind_run by apply save_namen_run.
  erewrite bind_run by apply save_kenmerken_run.
  erewrite bind_run by apply save_toepassingen_run.
  reflexivity.
Qed.

Lemma add_naam_present {rt : Runtime} (w : World) (raw : string) :
  str_strip (str_lower raw) ∈ namen (self w) ->
  add_naam raw w = (Return false, w).
Proof.
  intros Hin%list_has_true. unfold add_naam, bind, gets.
  rewrite Hin. by rewrite andb_false_r.
Qed.



(** *** Loading *)

(** C5, as stated, fails: with a malformed names file and well-formed
    attribute and application files, none of the tables is loaded. *)
Lemma load_data_not_per_table :
  NAMEN_FILE (disk world_malformed_names) = Some Malformed
  /\ content [] (KENMERKEN_FILE (disk world_malformed_names))
     = [("hout", ["eiken"; "generiek"; "ntb"])]
  /\ content [] (TOEPASSINGEN_FILE (disk world_malformed_names))
     = [("hout", ["generiek"; "ntb"; "wand"])]
  /\ fst (init world_malformed_names) = Return tt
  /\ kenmerken_per_naam (self (snd (init world_malformed_names))) = []
  /\ toepassingen_per_naam (self (snd (init world_malformed_names))) = [].
Proof. repeat split. Qed.

(** C5, amended. [load_data] (run by the constructor on empty tables)
    never raises and never writes. A missing file yields the empty
    collection for its table and the next files are still read. A document
    that cannot be read is logged as one error; its table and the tables
    read after it (the order is names, attributes, applications) stay
    empty, the tables read before it are loaded. *)
Theorem load_data_degrades (w : World) :
  exists w',
    init w = (Return tt, w')
    /\ disk w' = disk w
    /\ self w' = loaded (disk w)
    /\ (all_readable (disk w) = true -> log w' = log w)
    /\ (all_readable (disk w) = false ->
        exists msg, log w' = log w ++ [(ERROR, msg)]).
Proof.
  destruct w as [s [fn fk ft] lg].
  destruct fn as [[| |? [?|]]|], fk as [[| |? [?|]]|], ft as [[| |? [?|]]|];
    (eexists; split; [reflexivity|]);
    (split; [reflexivity|]); (split; [reflexivity|]);
    (split; [intros H; try discriminate H; reflexivity|]);
    intros H; try discriminate H; eexists; reflexivity.
Qed.

Lemma load_data_degrades_witness :
  exists w',
    init world_missing_names = (Return tt, w')
    /\ namen (self w') = []
    /\ kenmerken_per_naam (self w') = [("hout", ["eiken"; "generiek"; "ntb"])]
    /\ toepassingen_per_naam (self w') = []
    /\ exists msg, log w' = [(ERROR, msg)].
Proof.
  destruct (load_data_degrades world_missing_names)
    as (w' & Hrun & _ & Hself & _ & Hlog).
  exists w'. split; [exact Hrun|]. rewrite Hself.
  split; [reflexivity|]. split; [reflexivity|]. split; [reflexivity|].
  apply Hlog. reflexivity.
Defined.

(** *** Saving *)

Lemma saved_table_from_fresh d keys acc :
  NoDup keys ->
  (forall k, k ∈ keys -> k ∉ dict_keys acc) ->
  saved_table_from d keys acc = acc ++ map (saved_entry d) keys.
Proof.
  revert acc. induction keys as [|k keys IH]; intros acc Hnd Hfresh; simpl.
  - by rewrite app_nil_r.
  - apply NoDup_cons in Hnd as [Hk Hnd].
    rewrite dict_set_fresh by (apply Hfresh; left).
    rewrite IH; [by rewrite <- app_assoc | done |].
    intros k' Hk'. unfold dict_keys. rewrite map_app. simpl.
    rewrite elem_of_app, list_elem_of_singleton.
    intros [Hin| ->]; [|done].
    by apply (Hfresh k'); [right|].
Qed.

Lemma saved_table_map d :
  dict_wf d -> saved_table d = map (saved_entry d) (sorted (dict_keys d)).
Proof.
  intros Hwf. unfold saved_table. rewrite saved_table_from_fresh; [done| |].
  - by rewrite sorted_Permutation.
  - intros k _. apply not_elem_of_nil.
Qed.

Lemma saved_table_keys d :
  dict_wf d -> dict_keys (saved_table d) = sorted (dict_keys d).
Proof.
  intros Hwf. rewrite saved_table_map by done.
  unfold dict_keys at 1. rewrite map_map. simpl. apply map_id.
Qed.

Lemma dict_get_entries d keys k :
  dict_get k (map (saved_entry d) keys)
  = if decide (k ∈ keys) then Some (sorted (dict_get_default k [] d))
    else None.
Proof.
  induction keys as [|k0 keys IH]; cbn [map dict_get saved_entry].
  - by rewrite decide_False by apply not_elem_of_nil.
  - destruct (String.eqb k0 k) eqn:E.
    + apply String.eqb_eq in E as ->. rewrite decide_True; [done | by left].
    + apply String.eqb_neq in E. rewrite IH.
      destruct (decide (k ∈ keys)) as [Hin|Hnin].
      * rewrite decide_True; [done | by right].
      * rewrite decide_False; [done|].
        rewrite not_elem_of_cons. split; [congruence | done].
Qed.

Lemma saved_table_get d k :
  dict_wf d -> dict_get k (saved_table d) = sorted <$> dict_get k d.
Proof.
  intros Hwf. rewrite saved_table_map, dict_get_entries by done.
  destruct (decide (k ∈ sorted (dict_keys d))) as [Hin|Hnin].
  - rewrite sorted_Permutation in Hin.
    apply dict_key_get in Hin as [v Hv].
    unfold dict_get_default. by rewrite Hv.
  - rewrite sorted_Permutation in Hnin.
    apply dict_get_None in Hnin. by rewrite Hnin.
Qed.

Lemma saved_table_equiv d : dict_wf d -> dict_equiv (saved_table d) d.
Proof.
  intros Hwf k. rewrite saved_table_get by done.
  destruct (dict_get k d); simpl; [apply sorted_Permutation | done].
Qed.

Lemma dict_equiv_keys d1 d2 :
  dict_wf d1 -> dict_wf d2 -> dict_equiv d1 d2 ->
  dict_keys d1 ≡ₚ dict_keys d2.
Proof.
  intros Hwf1 Hwf2 Heq. apply NoDup_Permutation; [done..|].
  intros k. specialize (Heq k). split; intros [v Hv]%dict_key_get.
  - rewrite Hv in Heq. destruct (dict_get k d2) eqn:E; [|done].
    by eapply dict_get_Some_key.
  - rewrite Hv in Heq. destruct (dict_get k d1) eqn:E; [|done].
    by eapply dict_get_Some_key.
Qed.

Lemma saved_table_deterministic d1 d2 :
  dict_wf d1 -> dict_wf d2 -> dict_equiv d1 d2 ->
  saved_table d1 = saved_table d2.
Proof.
  intros Hwf1 Hwf2 Heq. rewrite !saved_table_map by done.
  rewrite (sorted_unique _ _ (dict_equiv_keys _ _ Hwf1 Hwf2 Heq)).
  apply map_ext. intros k. unfold saved_entry, dict_get_default. f_equal.
  specialize (Heq k).
  destruct (dict_get k d1), (dict_get k d2); try done.
  by apply sorted_unique.
Qed.



Section DictItems.
Context {rt : Runtime} {V : Type}.
Implicit Types (d : dict V) (k : string).






End DictItems.



Lemma saved_table_wf d : dict_wf d -> dict_wf (saved_table d).
Proof.
  intros Hwf. unfold dict_wf. rewrite saved_table_keys by done.
  by rewrite sorted_Permutation.
Qed.





(** ** Keyword matcher *)










(** ** Name composer *)

(** The gate of [_update_preview] counts the free text as a segment. *)
Lemma preview_parts_length (w : Window) :
  length (preview_parts w)
  = selected_count w + (if Str.nonempty (eigen_of w) then 1 else 0).
Proof.
  unfold preview_parts, selected_count. fold (eigen_of w).
  destruct (cmb_naam w), (cmb_kenmerk w), (cmb_toepassing w),
    (Str.nonempty (eigen_of w)); reflexivity.
Qed.

(** C2, at the failing input: with the name and the application selected,
    no attribute selected and the free text [Prefab], the preview passes the
    gate and a generated name is produced; without the free text the same
    selection is reported as incomplete. *)
Theorem update_preview_counts_free_text :
  cmb_kenmerk window_missing_kenmerk = None
  /\ _get_generated_name (_update_preview window_missing_kenmerk)
     = Some "beton_wand_prefab"
  /\ _get_generated_name
       (_update_preview
          {| cmb_naam := Some "beton"; cmb_kenmerk := None;
             cmb_toepassing := Some "wand"; txt_eigen := EmptyString;
             txt_preview := EmptyString;
             cmb_surface_fg := None; cmb_cut_fg := None; patterns := [];
             surface_fg_color := "#323232"; surface_bg_color := "#C8C8C8";
             cut_fg_color := "#323232"; cut_bg_color := "#B4B4B4" |})
     = None
  /\ _get_generated_name (_update_preview window_example)
     = Some "beton_generiek_wand".
Proof. repeat split. Qed.

(** ** Colours *)

Lemma is_upper_hex_chars (c : ascii) :
  is_upper_hex c = true -> In c upper_hex_chars.
Proof.
  destruct c as [[] [] [] [] [] [] [] []]; vm_compute; intros H;
    try discriminate H; tauto.
Qed.

Lemma byte_roundtrip_all :
  forallb (fun c1 => forallb (byte_roundtrip c1) upper_hex_chars)
          upper_hex_chars = true.
Proof. vm_compute. reflexivity. Qed.

Lemma byte_roundtrip_ok (c1 c2 : ascii) :
  is_upper_hex c1 = true -> is_upper_hex c2 = true ->
  exists z,
    int16 (String c1 (String c2 EmptyString)) = Return z
    /\ (0 <= z <= 255)%Z
    /\ format_02X (Z.to_N z) = String c1 (String c2 EmptyString).
Proof.
  intros H1%is_upper_hex_chars H2%is_upper_hex_chars.
  pose proof byte_roundtrip_all as Hall.
  rewrite forallb_forall in Hall. specialize (Hall c1 H1).
  rewrite forallb_forall in Hall. specialize (Hall c2 H2).
  unfold byte_roundtrip in Hall.
  destruct (int16 (String c1 (String c2 EmptyString))) as [z|]; [|done].
  apply andb_prop in Hall as [Hrange Heq].
  apply andb_prop in Hrange as [Hlo Hhi].
  exists z. split; [done|]. split; [lia|].
  by apply String.eqb_eq.
Qed.

Lemma upper_hex_not_hash (c : ascii) :
  is_upper_hex c = true -> Ascii.eqb c "#" = false.
Proof.
  intros H%is_upper_hex_chars. vm_compute in H.
  repeat (destruct H as [<-|H]; [reflexivity|]). destruct H.
Qed.

Lemma RevitColor_bytes (r g b : Z) :
  (0 <= r <= 255)%Z -> (0 <= g <= 255)%Z -> (0 <= b <= 255)%Z ->
  RevitColor r g b
  = Return {| Red := Z.to_N r; Green := Z.to_N g; Blue := Z.to_N b |}.
Proof.
  intros Hr Hg Hb. unfold RevitColor.
  assert (((0 <=? r) && (r <=? 255) && (0 <=? g) && (g <=? 255)
           && (0 <=? b) && (b <=? 255))%Z = true) as ->; [|done].
  repeat (apply andb_true_intro; split); apply Z.leb_le; lia.
Qed.

(** C10. For six uppercase hexadecimal digits, [hex_to_revit_color] of the
    digits after a [#] returns a colour that [revit_color_to_hex] prints as
    the same string, and the digits without the [#] give the same colour. *)
Theorem hex_color_roundtrip (r1 r2 g1 g2 b1 b2 : ascii) :
  Forall (fun c => is_upper_hex c = true) [r1; r2; g1; g2; b1; b2] ->
  let digits :=
    String r1 (String r2 (String g1 (String g2 (String b1
      (String b2 EmptyString))))) in
  exists color,
    hex_to_revit_color (String "#" digits) = Return color
    /\ revit_color_to_hex color = String "#" digits
    /\ hex_to_revit_color digits = Return color.
Proof.
  intros Hall digits.
  apply Forall_cons in Hall as [Hr1 Hall].
  apply Forall_cons in Hall as [Hr2 Hall].
  apply Forall_cons in Hall as [Hg1 Hall].
  apply Forall_cons in Hall as [Hg2 Hall].
  apply Forall_cons in Hall as [Hb1 Hall].
  apply Forall_cons in Hall as [Hb2 _].
  destruct (byte_roundtrip_ok r1 r2 Hr1 Hr2) as (r & Hr & Hrr & Hrf).
  destruct (byte_roundtrip_ok g1 g2 Hg1 Hg2) as (g & Hg & Hgr & Hgf).
  destruct (byte_roundtrip_ok b1 b2 Hb1 Hb2) as (b & Hb & Hbr & Hbf).
  assert (hex_to_revit_color digits
          = Return {| Red := Z.to_N r; Green := Z.to_N g;
                      Blue := Z.to_N b |}) as Hplain.
  { unfold hex_to_revit_color, digits.
    cbn [Str.lstrip_char]. rewrite (upper_hex_not_hash r1 Hr1).
    change (Str.slice 0 2 ?s) with (String r1 (String r2 EmptyString)).
    change (Str.slice 2 4 ?s) with (String g1 (String g2 EmptyString)).
    change (Str.slice 4 6 ?s) with (String b1 (String b2 EmptyString)).
    rewrite Hr, Hg, Hb. cbn [obind]. by apply RevitColor_bytes. }
  eexists. split; [|split; [|exact Hplain]].
  - unfold hex_to_revit_color. cbn [Str.lstrip_char].
    change (Ascii.eqb "#" "#") with true. cbv iota.
    exact Hplain.
  - unfold revit_color_to_hex. cbn [Red Green Blue].
    rewrite Hrf, Hgf, Hbf. reflexivity.
Qed.

Lemma hex_color_roundtrip_witness :
  exists color,
    hex_to_revit_color "#C8C8C8" = Return color
    /\ revit_color_to_hex color = "#C8C8C8"
    /\ hex_to_revit_color "C8C8C8" = Return color.
Proof.
  apply (hex_color_roundtrip "C" "8" "C" "8" "C" "8").
  repeat constructor.
Defined.

(** ** Material provisioner *)

Lemma keeps_refl h : keeps h h.
Proof. done. Qed.

Lemma keeps_trans h1 h2 h3 : keeps h1 h2 -> keeps h2 h3 -> keeps h1 h3.
Proof.
  intros (Hb1 & Ht1 & Hn1) (Hb2 & Ht2 & Hn2).
  split; [congruence|]. split; congruence.
Qed.

Section Stable.
Context {A B : Type}.

Lemma stable_ret (a : A) : stable (ret a).
Proof. intros h. apply keeps_refl. Qed.

Lemma stable_raise (e : exn) : stable (@raise HostWorld A e).
Proof. intros h. apply keeps_refl. Qed.

Lemma stable_lift (o : outcome A) : stable (lift o).
Proof. intros h. apply keeps_refl. Qed.

Lemma stable_gets (f : HostWorld -> A) : stable (gets f).
Proof. intros h. apply keeps_refl. Qed.

Lemma stable_bind (m : Py HostWorld A) (k : A -> Py HostWorld B) :
  stable m -> (forall a, stable (k a)) -> stable (bind m k).
Proof.
  intros Hm Hk h. unfold bind. specialize (Hm h).
  destruct (m h) as [[a|e] h1]; simpl in *; [|done].
  eapply keeps_trans; [exact Hm | apply Hk].
Qed.

Lemma stable_try (body : Py HostWorld A) (handler : exn -> Py HostWorld A) :
  stable body -> (forall e, stable (handler e)) ->
  stable (try_except body handler).
Proof.
  intros Hm Hk h. unfold try_except. specialize (Hm h).
  destruct (body h) as [[a|e] h1]; simpl in *; [done|].
  eapply keeps_trans; [exact Hm | apply Hk].
Qed.

Lemma returns_try (body : Py HostWorld A)
    (handler : exn -> Py HostWorld A) :
  (forall e, returns (handler e)) -> returns (try_except body handler).
Proof.
  intros Hk h. unfold try_except.
  destruct (body h) as [[a|e] h1]; simpl; [by exists a | apply Hk].
Qed.

End Stable.

Lemma stable_host_call c : stable (host_call c).
Proof.
  intros h. unfold host_call. destruct (behaviour h c); apply keeps_refl.
Qed.

Lemma stable_add_log r : stable (modify (add_log r)).
Proof. intros h. done. Qed.

Lemma stable_log_info msg : stable (log_info msg).
Proof. apply stable_add_log. Qed.

Lemma stable_log_warning msg : stable (log_warning msg).
Proof. apply stable_add_log. Qed.

Lemma stable_log_error msg : stable (Host.log_error msg).
Proof. apply stable_add_log. Qed.

Lemma stable_MessageBox_Show msg : stable (MessageBox_Show msg).
Proof. intros h. done. Qed.

Lemma update_material_names id f d :
  (forall m, Name (f m) = Name m) ->
  map Name (materials (update_material id f d)) = map Name (materials d).
Proof.
  intros Hf. simpl. rewrite map_map. apply map_ext. intros m.
  destruct (Z.eqb (Id m) id); [apply Hf | done].
Qed.

Lemma stable_set_property c id f :
  (forall m, Name (f m) = Name m) -> stable (set_property c id f).
Proof.
  intros Hf. apply stable_bind; [apply stable_host_call|]. intros _ h.
  split; [done|]. split; [done|]. simpl. rewrite map_map. apply map_ext.
  intros m. destruct (Z.eqb (Id m) id); [apply Hf | done].
Qed.

Lemma stable_get_solid_pattern_id : stable get_solid_pattern_id.
Proof. apply stable_gets. Qed.

Lemma stable_get_AppearanceAssetId id : stable (get_AppearanceAssetId id).
Proof.
  apply stable_bind; [apply stable_host_call|]. intros _.
  apply stable_bind; [apply stable_gets|]. intros [m|];
    [apply stable_ret | apply stable_raise].
Qed.

Lemma stable_doc_GetElement id : stable (doc_GetElement id).
Proof.
  apply stable_bind; [apply stable_host_call|]. intros [| |];
    first [apply stable_gets | apply stable_ret].
Qed.

Lemma stable_Asset_Duplicate asset new_name :
  stable (Asset_Duplicate asset new_name).
Proof.
  intros h. unfold Asset_Duplicate, bind, gets, host_call.
  destruct (behaviour h AssetDuplicate); simpl; repeat case_match; done.
Qed.

Create HintDb stable_db.
#[local] Hint Resolve stable_ret stable_raise stable_lift stable_gets
  stable_host_call stable_log_info stable_log_warning stable_log_error
  stable_MessageBox_Show stable_get_solid_pattern_id
  stable_get_AppearanceAssetId stable_doc_GetElement
  stable_Asset_Duplicate : stable_db.

(** Decompose a computation into its steps. *)
Ltac stable_steps :=
  repeat first
    [ apply stable_set_property; intros ?; reflexivity
    | solve [auto with stable_db]
    | apply stable_bind; [|intros ?]
    | apply stable_try; [|intros ?]
    | match goal with
      | |- stable (match ?x with _ => _ end) => destruct x
      | |- stable (if ?x then _ else _) => destruct x
      end ].

Lemma stable_apply_patterns w material : stable (_apply_patterns w material).
Proof. unfold _apply_patterns, apply_patterns_body. stable_steps. Qed.

Lemma returns_apply_patterns w material : returns (_apply_patterns w material).
Proof.
  apply returns_try. intros e h. by exists tt.
Qed.

Lemma stable_duplicate_appearance_asset new_mat new_name :
  stable (duplicate_appearance_asset new_mat new_name).
Proof. unfold duplicate_appearance_asset. stable_steps. Qed.

(** [Material.Duplicate] either fails and changes nothing, or adds one
    material with the new name at the end of the list. *)
Lemma Material_Duplicate_cases source new_name h :
  match Material_Duplicate source new_name h with
  | (Return (Some id), h1) =>
      behaviour h1 = behaviour h
      /\ transaction h1 = transaction h
      /\ map Name (materials (doc h1))
         = map Name (materials (doc h)) ++ [new_name]
  | (_, h1) => h1 = h
  end.
Proof.
  unfold Material_Duplicate, bind, gets, host_call.
  destruct (behaviour h MaterialDuplicate); simpl; try done;
    destruct (existsb _ (materials (doc h))); simpl; try done;
    rewrite map_app; done.
Qed.

Lemma duplicate_material_cases source new_name h :
  exists r h1,
    duplicate_material (Some source) new_name h = (Return r, h1)
    /\ behaviour h1 = behaviour h
    /\ transaction h1 = transaction h
    /\ match r with
       | Some _ => map Name (materials (doc h1))
                   = map Name (materials (doc h)) ++ [new_name]
       | None => True
       end.
Proof.
  unfold duplicate_material, try_except, duplicate_material_body.
  unfold bind at 1. unfold gets at 1.
  destruct (existsb _ (materials (doc h))); [by eexists _, _|].
  unfold bind at 1.
  pose proof (Material_Duplicate_cases source new_name h) as Hdup.
  destruct (Material_Duplicate source new_name h) as [[[id|]|e] h1];
    try (subst h1; by eexists _, _).
  destruct Hdup as (Hb & Ht & Hn).
  pose proof (stable_duplicate_appearance_asset id new_name h1)
    as (Hb' & Ht' & Hn').
  unfold bind.
  destruct (duplicate_appearance_asset id new_name h1) as [[[]|e] h2];
    simpl in *.
  - eexists _, _. split; [reflexivity|]. split; [congruence|].
    split; congruence.
  - eexists _, _. split; [reflexivity|]. simpl. split; [congruence|].
    split; [congruence | done].
Qed.

Lemma host_call_run c h :
  host_call c h =
  match behaviour h c with
  | Throws msg => (Raise (HostException msg), h)
  | b => (Return b, h)
  end.
Proof. reflexivity. Qed.

Lemma t_Start_run h :
  t_Start h =
  match behaviour h TransactionStart with
  | Throws msg => (Raise (HostException msg), h)
  | _ => (Return tt, set_transaction (Started (doc h)) h)
  end.
Proof.
  unfold t_Start, bind. rewrite host_call_run.
  by destruct (behaviour h TransactionStart).
Qed.

Lemma t_Commit_run h :
  t_Commit h =
  match behaviour h TransactionCommit with
  | Throws msg => (Raise (HostException msg), h)
  | _ => (Return tt, set_transaction Committed h)
  end.
Proof.
  unfold t_Commit, bind. rewrite host_call_run.
  by destruct (behaviour h TransactionCommit).
Qed.

Lemma apply_patterns_run w material h :
  exists h2, _apply_patterns w material h = (Return tt, h2) /\ keeps h h2.
Proof.
  pose proof (stable_apply_patterns w material h) as Hk.
  destruct (returns_apply_patterns w material h) as [[] Hr].
  destruct (_apply_patterns w material h) as [o h2]. simpl in *. subst o.
  by exists h2.
Qed.

(** The paths through [create_material]. *)
Lemma create_material_cases w source new_name h :
  exists h',
    create_material w source new_name h = (Return tt, h')
    /\ if throws h TransactionStart then doc h' = doc h
       else
         exists r h1,
           duplicate_material (Some source) new_name (started h)
           = (Return r, h1)
           /\ match r with
              | None => doc h' = doc h
              | Some new_mat =>
                  exists h2,
                    _apply_patterns w new_mat h1 = (Return tt, h2)
                    /\ if throws h TransactionCommit then doc h' = doc h
                       else doc h' = doc h2
                            /\ host_log h' = host_log h2
                            /\ transaction h' = Committed
                            /\ material_names h'
                               = material_names h ++ [new_name]
              end.
Proof.
  unfold create_material, try_except, with_Transaction, create_body, throws.
  unfold bind at 1. rewrite t_Start_run.
  change (behaviour (set_transaction NotStarted h) TransactionStart)
    with (behaviour h TransactionStart).
  destruct (duplicate_material_cases source new_name (started h))
    as (r & h1 & Hdup & Hb1 & Ht1 & Hn1).
  change (behaviour (started h)) with (behaviour h) in Hb1.
  change (transaction (started h)) with (Started (doc h)) in Ht1.
  change (doc (started h)) with (doc h) in Hn1.
  destruct (behaviour h TransactionStart) eqn:Es;
    [| eexists; split; [reflexivity | done] |];
    fold (started h); erewrite bind_run by exact Hdup;
    (destruct r as [id|];
     [ destruct (apply_patterns_run w id h1) as (h2 & Hap & Hb2 & Ht2 & Hn2);
       erewrite bind_run by exact Hap;
       unfold bind at 1; rewrite t_Commit_run;
       assert (behaviour h2 TransactionCommit = behaviour h TransactionCommit)
         as -> by congruence;
       destruct (behaviour h TransactionCommit) eqn:Ec;
       [ | unfold t_Dispose; rewrite Ht2, Ht1 | ];
       (eexists; split; [reflexivity|]);
       exists (Some id), h1; (split; [done|]);
       exists h2; (split; [done|]);
       simpl; unfold material_names; try done;
       (split; [done|]); (split; [done|]); (split; [done|]);
       exact (eq_trans Hn2 Hn1)
     | unfold bind, t_RollBack, modify; rewrite Ht1; simpl;
       eexists; split; [reflexivity|];
       by exists None, h1 ]).
Qed.

(** C1, as stated, fails: an exception raised while the colours are
    assigned is caught in [_apply_patterns]; the transaction is committed
    and the document has one material more. *)
Lemma create_material_commits_after_pattern_failure :
  let after_duplication :=
    snd (duplicate_material (Some mat_hout) "hout_generiek_wand"
           (started host_example)) in
  let h' := snd (create_material window_example mat_hout
                   "hout_generiek_wand" host_example) in
  fst (duplicate_material (Some mat_hout) "hout_generiek_wand"
         (started host_example)) = Return (Some 2%Z)
  /\ fst (apply_patterns_body window_example 2%Z after_duplication)
     = Raise (HostException "The color is not valid for this material.")
  /\ transaction h' = Committed
  /\ material_names host_example = ["Hout"]
  /\ material_names h' = ["Hout"; "hout_generiek_wand"]
  /\ doc h' <> doc host_example.
Proof.
  repeat split; try reflexivity.
  vm_compute. discriminate.
Qed.

Lemma duplicate_material_raise source new_name h e :
  fst (duplicate_material_body source new_name h) = Raise e ->
  fst (duplicate_material (Some source) new_name h) = Return None.
Proof.
  unfold duplicate_material, try_except.
  destruct (duplicate_material_body source new_name h) as [[r|e'] hb];
    simpl; [discriminate | reflexivity].
Qed.

Lemma apply_patterns_raise w material h e :
  fst (apply_patterns_body w material h) = Raise e ->
  exists hb,
    _apply_patterns w material h
    = (Return tt,
       add_log (WARNING, "Could not apply all patterns: " +:+ exn_str e) hb).
Proof.
  unfold _apply_patterns, try_except.
  destruct (apply_patterns_body w material h) as [[r|e'] hb]; simpl;
    [discriminate|].
  intros [= ->]. by exists hb.
Qed.

(** C1, amended. [create_material] runs in one host transaction and never
    raises. Either the document is left as it was, or the transaction is
    committed and the list of materials has grown by the new name. An
    exception raised in the [try] block of [duplicate_material], and an
    exception of [Start] or [Commit], leave the document unchanged. An
    exception raised while the patterns and colours are applied is caught
    and logged as a warning: when duplication gave a material and [Start]
    and [Commit] do not raise, the transaction is committed and the new
    material exists. *)
Theorem create_material_transaction (w : Window) (source : Material)
    (new_name : string) (h : HostWorld) :
  exists h',
    create_material w source new_name h = (Return tt, h')
    /\ (doc h' = doc h
        \/ (transaction h' = Committed
            /\ material_names h' = material_names h ++ [new_name]))
    /\ (forall e,
          fst (duplicate_material_body source new_name (started h)) = Raise e ->
          doc h' = doc h
          /\ length (materials (doc h')) = length (materials (doc h)))
    /\ (throws h TransactionStart = true \/ throws h TransactionCommit = true ->
        doc h' = doc h)
    /\ (forall new_mat h1 e,
          throws h TransactionStart = false ->
          throws h TransactionCommit = false ->
          duplicate_material (Some source) new_name (started h)
          = (Return (Some new_mat), h1) ->
          fst (apply_patterns_body w new_mat h1) = Raise e ->
          transaction h' = Committed
          /\ material_names h' = material_names h ++ [new_name]
          /\ length (materials (doc h')) = S (length (materials (doc h)))
          /\ (WARNING, "Could not apply all patterns: " +:+ exn_str e)
             ∈ host_log h').
Proof.
  destruct (create_material_cases w source new_name h) as (h' & Hrun & Hcases).
  exists h'. split; [exact Hrun|].
  destruct (throws h TransactionStart) eqn:Es.
  { rewrite Hcases. split; [by left|]. split; [done|]. split; [done|].
    intros; discriminate. }
  destruct Hcases as (r & h1 & Hdup & Hr).
  destruct r as [id|].
  - destruct Hr as (h2 & Hap & Hcommit).
    destruct (throws h TransactionCommit) eqn:Ec.
    + rewrite Hcommit. split; [by left|]. split; [done|]. split; [done|].
      intros; discriminate.
    + destruct Hcommit as (Hdoc & Hlog & Htx & Hnames).
      split; [by right|]. split; [|split].
      * intros e He. apply duplicate_material_raise in He.
        rewrite Hdup in He. discriminate He.
      * intros [?|?]; discriminate.
      * intros new_mat h1' e _ _ Hdup' He.
        rewrite Hdup in Hdup'. injection Hdup' as <- <-.
        apply apply_patterns_raise in He as [hb Hb].
        rewrite Hap in Hb. injection Hb as ->.
        split; [done|]. split; [done|]. split.
        -- unfold material_names in Hnames.
           apply (f_equal length) in Hnames.
           rewrite length_app, !length_map in Hnames. simpl in Hnames. lia.
        -- rewrite Hlog. simpl. apply elem_of_app. right.
           by apply list_elem_of_singleton.
  - rewrite Hr. split; [by left|]. split; [done|]. split; [done|].
    intros new_mat h1' e _ _ Hdup'. rewrite Hdup in Hdup'. discriminate Hdup'.
Qed.

Lemma create_material_transaction_witness :
  doc (snd (create_material window_example mat_hout "hout_generiek_wand"
              host_duplicate_fails))
  = doc host_duplicate_fails
  /\ length
       (materials
          (doc (snd (create_material window_example mat_hout
                       "hout_generiek_wand" host_example))))
     = 2.
Proof.
  split.
  - destruct (create_material_transaction window_example mat_hout
                "hout_generiek_wand" host_duplicate_fails)
      as (h' & Hrun & _ & Hdup & _).
    rewrite Hrun. simpl. eapply Hdup. reflexivity.
  - destruct (create_material_transaction window_example mat_hout
                "hout_generiek_wand" host_example)
      as (h' & Hrun & _ & _ & _ & Hpat).
    rewrite Hrun. simpl.
    destruct (Hpat 2%Z
                (snd (duplicate_material (Some mat_hout) "hout_generiek_wand"
                        (started host_example)))
                (HostException "The color is not valid for this material."))
      as (_ & _ & Hlen & _); [reflexivity..|].
    exact Hlen.
Defined.

(** ** Normal forms in the ASCII range *)

(** [Str.lower] and [Str.strip] commute and are idempotent, so on the
    runtime that lowers and strips in the ASCII range every normal form is
    its own normal form. *)

Lemma lower_char_idempotent (c : ascii) :
  Str.lower_char (Str.lower_char c) = Str.lower_char c.
Proof. destruct c as [[] [] [] [] [] [] [] []]; reflexivity. Qed.

Lemma lower_char_whitespace (c : ascii) :
  Str.is_whitespace (Str.lower_char c) = Str.is_whitespace c.
Proof. destruct c as [[] [] [] [] [] [] [] []]; reflexivity. Qed.

Lemma lower_idempotent (s : string) : Str.lower (Str.lower s) = Str.lower s.
Proof.
  induction s as [|c s IH]; simpl; [done|].
  by rewrite lower_char_idempotent, IH.
Qed.

Lemma lower_lstrip (s : string) :
  Str.lower (Str.lstrip s) = Str.lstrip (Str.lower s).
Proof.
  induction s as [|c s IH]; simpl; [done|].
  rewrite lower_char_whitespace. by destruct (Str.is_whitespace c).
Qed.

Lemma lower_rstrip (s : string) :
  Str.lower (Str.rstrip s) = Str.rstrip (Str.lower s).
Proof.
  induction s as [|c s IH]; simpl; [done|].
  rewrite <- IH, lower_char_whitespace.
  destruct (Str.rstrip s); simpl; [by destruct (Str.is_whitespace c) | done].
Qed.

Lemma lower_strip (s : string) :
  Str.lower (Str.strip s) = Str.strip (Str.lower s).
Proof. unfold Str.strip. by rewrite lower_rstrip, lower_lstrip. Qed.

Lemma rstrip_idempotent (s : string) :
  Str.rstrip (Str.rstrip s) = Str.rstrip s.
Proof.
  induction s as [|c s IH]; simpl; [done|].
  destruct (Str.rstrip s) as [|c' r] eqn:E.
  - destruct (Str.is_whitespace c) eqn:Ec; simpl; [done|]. by rewrite Ec.
  - simpl. simpl in IH. by rewrite IH.
Qed.

Lemma lstrip_no_leading_space (s : string) : no_leading_space (Str.lstrip s).
Proof.
  induction s as [|c s IH]; simpl; [done|].
  destruct (Str.is_whitespace c) eqn:E; [done | exact E].
Qed.

Lemma lstrip_fixed (s : string) : no_leading_space s -> Str.lstrip s = s.
Proof. destruct s as [|c s]; simpl; [done|]. by intros ->. Qed.

Lemma rstrip_no_leading_space (s : string) :
  no_leading_space s -> no_leading_space (Str.rstrip s).
Proof.
  destruct s as [|c s]; simpl; [done|]. intros Hc.
  destruct (Str.rstrip s); simpl; [by rewrite Hc | done].
Qed.

Lemma strip_idempotent (s : string) : Str.strip (Str.strip s) = Str.strip s.
Proof.
  unfold Str.strip.
  rewrite (lstrip_fixed (Str.rstrip (Str.lstrip s))).
  - apply rstrip_idempotent.
  - apply rstrip_no_leading_space, lstrip_no_leading_space.
Qed.

Lemma normal_form_idempotent (raw : string) :
  @normal_form Runtime_ascii (normal_form raw) = normal_form raw.
Proof.
  unfold normal_form.
  by rewrite lower_strip, lower_idempotent, strip_idempotent.
Qed.

(** ** Invariants of the taxonomy store *)

Lemma add_naam_cases {rt : Runtime} (w : World) (raw : string) :
  (normal_form raw <> EmptyString
   /\ (normal_form raw ∉ namen (self w))
   /\ add_naam raw w = (Return true, after_add_naam w (normal_form raw)))
  \/ add_naam raw w = (Return false, w).
Proof.
  destruct (decide (normal_form raw = EmptyString)) as [He|Hne].
  { right. unfold add_naam, bind, gets. fold (normal_form raw).
    by rewrite He. }
  destruct (decide (normal_form raw ∈ namen (self w))) as [Hin|Hnin].
  { right. by apply add_naam_present. }
  left. split; [done|]. split; [done|]. by apply add_naam_new.
Qed.

Lemma add_kenmerk_cases {rt : Runtime} (w : World) (naam raw : string) :
  (exists stored,
     dict_get naam (kenmerken_per_naam (self w)) = Some stored
     /\ normal_form raw <> EmptyString
     /\ (normal_form raw ∉ stored)
     /\ add_kenmerk naam raw w
        = (Return true, after_add_kenmerk w naam stored (normal_form raw)))
  \/ add_kenmerk naam raw w = (Return false, w).
Proof.
  destruct (dict_get naam (kenmerken_per_naam (self w))) as [stored|] eqn:E.
  - destruct (decide (normal_form raw = EmptyString)) as [He|Hne].
    { right. apply add_kenmerk_fail. right; left. exact He. }
    destruct (decide (normal_form raw ∈ stored)) as [Hin|Hnin].
    { right. apply add_kenmerk_fail. right; right. by exists stored. }
    left. exists stored. split; [done|]. split; [done|]. split; [done|].
    by apply add_kenmerk_ok.
  - right. apply add_kenmerk_fail. left. by apply dict_get_None.
Qed.

Lemma add_toepassing_cases {rt : Runtime} (w : World) (naam raw : string) :
  (exists stored,
     dict_get naam (toepassingen_per_naam (self w)) = Some stored
     /\ normal_form raw <> EmptyString
     /\ (normal_form raw ∉ stored)
     /\ add_toepassing naam raw w
        = (Return true, after_add_toepassing w naam stored (normal_form raw)))
  \/ add_toepassing naam raw w = (Return false, w).
Proof.
  destruct (dict_get naam (toepassingen_per_naam (self w)))
    as [stored|] eqn:E.
  - destruct (decide (normal_form raw = EmptyString)) as [He|Hne].
    { right. apply add_toepassing_fail. right; left. exact He. }
    destruct (decide (normal_form raw ∈ stored)) as [Hin|Hnin].
    { right. apply add_toepassing_fail. right; right. by exists stored. }
    left. exists stored. split; [done|]. split; [done|]. split; [done|].
    by apply add_toepassing_ok.
  - right. apply add_toepassing_fail. left. by apply dict_get_None.
Qed.

(** The value under a key after an assignment. *)
Lemma dict_get_set {V} (k k' : string) (v : V) (d : dict V) :
  dict_get k' (dict_set k v d)
  = if decide (k = k') then Some v else dict_get k' d.
Proof.
  destruct (decide (k = k')) as [<-|Hne].
  - apply dict_get_set_eq.
  - by apply dict_get_set_ne.
Qed.

Lemma NoDup_snoc (l : list string) (x : string) :
  NoDup l -> x ∉ l -> NoDup (l ++ [x]).
Proof.
  intros Hl Hx. apply NoDup_app. split; [done|].
  split; [|apply NoDup_singleton].
  intros y Hy ->%list_elem_of_singleton. done.
Qed.

Lemma NoDup_defaults : NoDup ["generiek"; "ntb"].
Proof.
  apply NoDup_cons. split; [list_absent|]. apply NoDup_singleton.
Qed.

Lemma values_unique_set (d : dict (list string)) (k : string)
    (v : list string) :
  NoDup v ->
  (forall naam l, dict_get naam d = Some l -> NoDup l) ->
  forall naam l, dict_get naam (dict_set k v d) = Some l -> NoDup l.
Proof.
  intros Hv Hd naam l. rewrite dict_get_set.
  destruct (decide (k = naam)); [by intros [= <-] | apply Hd].
Qed.

(** X1. The three additions keep the store free of duplicates: when the
    names, the keys of both tables and the values under each key are
    pairwise distinct before [add_naam], [add_kenmerk] or [add_toepassing],
    they are so afterwards, whatever the input and whether the call
    succeeds or not. *)
Theorem additions_keep_unique {rt : Runtime} (w : World)
    (naam raw : string) :
  store_unique (self w) ->
  store_unique (self (snd (add_naam raw w)))
  /\ store_unique (self (snd (add_kenmerk naam raw w)))
  /\ store_unique (self (snd (add_toepassing naam raw w))).
Proof.
  intros (Hn & Hk & Ht & Hkv & Htv). split; [|split].
  - destruct (add_naam_cases w raw) as [(_ & Hnin & ->)| ->]; [|done].
    simpl. split; [by apply NoDup_snoc|].
    split; [by apply dict_wf_set|]. split; [by apply dict_wf_set|].
    split; apply values_unique_set; auto using NoDup_defaults.
  - destruct (add_kenmerk_cases w naam raw)
      as [(stored & Hs & _ & Hnin & ->)| ->]; [|done].
    simpl. split; [done|]. split; [by apply dict_wf_set|]. split; [done|].
    split; [|done]. apply values_unique_set; [|done].
    apply NoDup_snoc; eauto.
  - destruct (add_toepassing_cases w naam raw)
      as [(stored & Hs & _ & Hnin & ->)| ->]; [|done].
    simpl. split; [done|]. split; [done|]. split; [by apply dict_wf_set|].
    split; [done|]. apply values_unique_set; [|done].
    apply NoDup_snoc; eauto.
Qed.

Lemma dict_get_elem {V} (k : string) (v : V) (d : dict V) :
  dict_get k d = Some v -> (k, v) ∈ d.
Proof.
  induction d as [|[k0 v0] d IH]; simpl; [done|].
  destruct (String.eqb k0 k) eqn:E.
  - apply String.eqb_eq in E as ->. intros [= ->]. by left.
  - intros H. right. by apply IH.
Qed.

Lemma values_unique_Forall (d : dict (list string)) :
  Forall (fun entry => NoDup (snd entry)) d ->
  forall naam l, dict_get naam d = Some l -> NoDup l.
Proof.
  intros Hall naam l Hget%dict_get_elem.
  rewrite Forall_forall in Hall. exact (Hall _ Hget).
Qed.

(** Pairwise distinctness of a literal list of strings. *)
Ltac literal_NoDup :=
  repeat (apply NoDup_cons; split; [list_absent|]); apply NoDup_nil_2.

Lemma world_unique_example_unique : store_unique (self world_unique_example).
Proof.
  split; [literal_NoDup|]. split; [unfold dict_wf; simpl; literal_NoDup|].
  split; [unfold dict_wf; simpl; literal_NoDup|].
  split; apply values_unique_Forall; simpl;
    repeat (apply List.Forall_cons; [simpl; literal_NoDup|]);
    apply List.Forall_nil.
Qed.

Lemma additions_keep_unique_witness :
  store_unique (self (snd (add_naam " Beton" world_unique_example)))
  /\ store_unique
       (self (snd (add_kenmerk "hout" "Grenen" world_unique_example))).
Proof.
  destruct (additions_keep_unique world_unique_example "hout" " Beton"
              world_unique_example_unique) as (H1 & _ & _).
  destruct (additions_keep_unique world_unique_example "hout" "Grenen"
              world_unique_example_unique) as (_ & H2 & _).
  split; [exact H1 | exact H2].
Defined.

Lemma world_unique_example_complete :
  store_complete (self world_unique_example).
Proof.
  intros naam Hin. apply list_elem_of_In in Hin. simpl in Hin.
  destruct Hin as [<-|[<-|[]]]; split; eexists; (split; [reflexivity|done]).
Qed.

(** X2. The three additions keep the store complete: when every name has a
    non-empty attribute list and a non-empty application list before
    [add_naam], [add_kenmerk] or [add_toepassing], it has afterwards; a name
    that [add_naam] adds comes with both lists. *)
Theorem additions_keep_complete {rt : Runtime} (w : World)
    (naam raw : string) :
  store_complete (self w) ->
  store_complete (self (snd (add_naam raw w)))
  /\ store_complete (self (snd (add_kenmerk naam raw w)))
  /\ store_complete (self (snd (add_toepassing naam raw w))).
Proof.
  intros Hc. split; [|split].
  - destruct (add_naam_cases w raw) as [(_ & Hnin & ->)| ->]; [|done].
    intros n [Hold| ->%list_elem_of_singleton]%elem_of_app; simpl.
    + rewrite !dict_get_set.
      destruct (decide (normal_form raw = n));
        [split; by eexists | by apply Hc].
    + rewrite !dict_get_set_eq. split; by eexists.
  - destruct (add_kenmerk_cases w naam raw)
      as [(stored & Hs & _ & _ & ->)| ->]; [|done].
    intros n Hn. simpl. rewrite dict_get_set.
    destruct (Hc n Hn) as [Hk Ht]. split; [|done].
    destruct (decide (naam = n)); [|done].
    eexists. split; [done|]. by destruct stored.
  - destruct (add_toepassing_cases w naam raw)
      as [(stored & Hs & _ & _ & ->)| ->]; [|done].
    intros n Hn. simpl. rewrite dict_get_set.
    destruct (Hc n Hn) as [Hk Ht]. split; [done|].
    destruct (decide (naam = n)); [|done].
    eexists. split; [done|]. by destruct stored.
Qed.

Lemma additions_keep_complete_witness :
  store_complete (self (snd (add_naam " Beton" world_unique_example)))
  /\ store_complete
       (self (snd (add_toepassing "staal" "Kolom" world_unique_example))).
Proof.
  destruct (additions_keep_complete world_unique_example "staal" " Beton"
              world_unique_example_complete) as (H1 & _ & _).
  destruct (additions_keep_complete world_unique_example "staal" "Kolom"
              world_unique_example_complete) as (_ & _ & H2).
  split; [exact H1 | exact H2].
Defined.




(** X4. After a successful [add_kenmerk] the new value is listed by
    [get_kenmerken] for that name, the list is the old one with the value
    added, the lists of all other names are as before, and no application
    list has changed. *)
Theorem add_kenmerk_then_get {rt : Runtime} (w : World) (naam raw : string) :
  fst (add_kenmerk naam raw w) = Return true ->
  let s' := self (snd (add_kenmerk naam raw w)) in
  normal_form raw ∈ get_kenmerken s' naam
  /\ get_kenmerken s' naam ≡ₚ normal_form raw :: get_kenmerken (self w) naam
  /\ (forall other, other <> naam ->
        get_kenmerken s' other = get_kenmerken (self w) other)
  /\ (forall other, get_toepassingen s' other = get_toepassingen (self w) other)
  /\ namen s' = namen (self w).
Proof.
  destruct (add_kenmerk_cases w naam raw)
    as [(stored & Hs & _ & _ & ->)| ->]; [|discriminate].
  intros _ s'. subst s'. simpl.
  unfold get_kenmerken, dict_get_default. simpl.
  rewrite dict_get_set_eq, Hs, !sorted_Permutation.
  split; [apply elem_of_app; right; by apply list_elem_of_singleton|].
  split; [by rewrite Permutation_app_comm|].
  split; [|done].
  intros other Hne. by rewrite dict_get_set_ne.
Qed.

Lemma add_kenmerk_then_get_witness :
  get_kenmerken (self (snd (add_kenmerk "hout" " Grenen " world_unique_example)))
    "hout"
  ≡ₚ "grenen" :: get_kenmerken (self world_unique_example) "hout".
Proof.
  destruct (add_kenmerk_then_get world_unique_example "hout" " Grenen ")
    as (_ & H & _); [reflexivity|].
  exact H.
Defined.

(** X5. On every runtime, a value is added once: after a successful
    [add_kenmerk] or [add_toepassing], a second call for the same name with
    an input that the runtime lowers and strips to the same string (another
    casing, other surrounding blanks) returns [False] and changes
    nothing. *)
Theorem value_added_once {rt : Runtime} (w : World)
    (naam raw raw' : string) :
  normal_form raw' = normal_form raw ->
  (fst (add_kenmerk naam raw w) = Return true ->
   add_kenmerk naam raw' (snd (add_kenmerk naam raw w))
   = (Return false, snd (add_kenmerk naam raw w)))
  /\ (fst (add_toepassing naam raw w) = Return true ->
      add_toepassing naam raw' (snd (add_toepassing naam raw w))
      = (Return false, snd (add_toepassing naam raw w))).
Proof.
  intros Hsame. split.
  - destruct (add_kenmerk_cases w naam raw)
      as [(stored & Hs & _ & _ & ->)| ->]; [|discriminate].
    intros _. simpl. apply add_kenmerk_fail. right; right.
    eexists. split; [apply dict_get_set_eq|].
    fold (normal_form raw'). rewrite Hsame.
    apply elem_of_app. right. by apply list_elem_of_singleton.
  - destruct (add_toepassing_cases w naam raw)
      as [(stored & Hs & _ & _ & ->)| ->]; [|discriminate].
    intros _. simpl. apply add_toepassing_fail. right; right.
    eexists. split; [apply dict_get_set_eq|].
    fold (normal_form raw'). rewrite Hsame.
    apply elem_of_app. right. by apply list_elem_of_singleton.
Qed.

Lemma value_added_once_witness :
  add_kenmerk "hout" "GRENEN  "
    (snd (add_kenmerk "hout" " Grenen" world_unique_example))
  = (Return false, snd (add_kenmerk "hout" " Grenen" world_unique_example)).
Proof.
  destruct (value_added_once world_unique_example "hout" " Grenen" "GRENEN  ")
    as [H _]; [reflexivity|].
  apply H. reflexivity.
Defined.

Lemma saved_table_idempotent (d : dict (list string)) :
  dict_wf d -> saved_table (saved_table d) = saved_table d.
Proof.
  intros Hwf. apply saved_table_deterministic.
  - by apply saved_table_wf.
  - done.
  - by apply saved_table_equiv.
Qed.






(** ** More on the keyword matcher *)















(** ** More on the name composer *)

Lemma prefix_empty (s : string) : String.prefix EmptyString s = true.
Proof. by destruct s. Qed.






(** ** More on the colours *)

Lemma lstrip_hashes (n : nat) (s : string) :
  Str.lstrip_char "#" (hashes n s) = Str.lstrip_char "#" s.
Proof. induction n as [|n IH]; [done | exact IH]. Qed.

Lemma substring_nothing (n : nat) (s : string) :
  String.substring n 0 s = EmptyString.
Proof.
  revert s. induction n as [|n IH]; intros [|c s]; simpl; auto.
Qed.

(** What [hex_to_revit_color] reads of a string that starts with six
    characters other than the number sign. *)
Lemma hex_to_revit_color_six (r1 r2 g1 g2 b1 b2 : ascii) (rest : string) :
  Ascii.eqb r1 "#" = false ->
  hex_to_revit_color
    (String r1 (String r2 (String g1 (String g2 (String b1
       (String b2 rest))))))
  = obind (int16 (String r1 (String r2 EmptyString))) (fun r =>
    obind (int16 (String g1 (String g2 EmptyString))) (fun g =>
    obind (int16 (String b1 (String b2 EmptyString))) (fun b =>
    RevitColor r g b))).
Proof.
  intros Hr1. unfold hex_to_revit_color. cbn [Str.lstrip_char].
  rewrite Hr1. unfold Str.slice. simpl.
  by rewrite !substring_nothing.
Qed.

Lemma slice_beyond (s : string) :
  String.length s <= 4 -> Str.slice 4 6 s = EmptyString.
Proof.
  intros Hlen. unfold Str.slice.
  replace (Nat.min 6 (String.length s) - 4) with 0 by lia.
  apply substring_nothing.
Qed.

Lemma byte_print_read_all :
  forallb byte_print_read (map N.of_nat (seq 0 256)) = true.
Proof. vm_compute. reflexivity. Qed.

(** A byte is printed as two uppercase digits, which are read back as the
    byte in either case. *)
Lemma byte_print_read_ok (n : N) :
  (n <= 255)%N ->
  exists c1 c2,
    format_02X n = String c1 (String c2 EmptyString)
    /\ is_upper_hex c1 = true
    /\ is_upper_hex c2 = true
    /\ int16 (String c1 (String c2 EmptyString)) = Return (Z.of_N n)
    /\ int16 (Str.lower (String c1 (String c2 EmptyString)))
       = Return (Z.of_N n).
Proof.
  intros Hn. pose proof byte_print_read_all as Hall.
  rewrite forallb_forall in Hall.
  specialize (Hall n). unfold byte_print_read in Hall.
  destruct (format_02X n) as [|c1 [|c2 [|]]];
    try (discriminate Hall; apply in_map_iff; exists (N.to_nat n);
         split; [lia | apply in_seq; lia]).
  exists c1, c2. split; [done|].
  assert (In n (map N.of_nat (seq 0 256))) as Hin.
  { apply in_map_iff. exists (N.to_nat n). split; [lia | apply in_seq; lia]. }
  specialize (Hall Hin).
  apply andb_prop in Hall as [Hhex Hread].
  apply andb_prop in Hhex as [H1 H2].
  destruct (int16 (String c1 (String c2 EmptyString))) as [z|]; [|done].
  destruct (int16 (Str.lower (String c1 (String c2 EmptyString))))
    as [z'|]; [|done].
  apply andb_prop in Hread as [Hz Hz'].
  apply Z.eqb_eq in Hz, Hz'. by subst.
Qed.

(** X11. The parser reads what the formatter writes: for every colour
    whose components are bytes, [hex_to_revit_color] of
    [revit_color_to_hex] of the colour returns the colour. *)
Theorem revit_color_hex_roundtrip (color : Color) :
  byte_color color ->
  hex_to_revit_color (revit_color_to_hex color) = Return color.
Proof.
  destruct color as [r g b]. intros (Hr & Hg & Hb). simpl in *.
  unfold revit_color_to_hex. cbn [Red Green Blue].
  destruct (byte_print_read_ok r Hr) as (r1 & r2 & -> & Hr1 & _ & Hri & _).
  destruct (byte_print_read_ok g Hg) as (g1 & g2 & -> & _ & _ & Hgi & _).
  destruct (byte_print_read_ok b Hb) as (b1 & b2 & -> & _ & _ & Hbi & _).
  change (hex_to_revit_color
            (hashes 1 (String r1 (String r2 (String g1 (String g2 (String b1
               (String b2 EmptyString)))))))
          = Return {| Red := r; Green := g; Blue := b |}).
  unfold hex_to_revit_color. rewrite lstrip_hashes.
  fold (hex_to_revit_color
          (String r1 (String r2 (String g1 (String g2 (String b1
             (String b2 EmptyString))))))).
  rewrite hex_to_revit_color_six by by apply upper_hex_not_hash.
  rewrite Hri, Hgi, Hbi. cbn [obind].
  rewrite RevitColor_bytes by lia. by rewrite !N2Z.id.
Qed.

Lemma revit_color_hex_roundtrip_witness :
  hex_to_revit_color
    (revit_color_to_hex {| Red := 200; Green := 0; Blue := 255 |})
  = Return {| Red := 200; Green := 0; Blue := 255 |}.
Proof.
  apply revit_color_hex_roundtrip. repeat split; by vm_compute.
Defined.

(** X12. The parser is lenient about what surrounds the six digits and
    strict about their number: any number of leading number signs and any
    text after the sixth character are ignored, and a string with fewer
    than five characters after the number signs raises. *)
Theorem hex_to_revit_color_shape :
  (forall (n : nat) (r1 r2 g1 g2 b1 b2 : ascii) (rest : string),
     Ascii.eqb r1 "#" = false ->
     hex_to_revit_color
       (hashes n (String r1 (String r2 (String g1 (String g2 (String b1
          (String b2 rest)))))))
     = hex_to_revit_color
         (String r1 (String r2 (String g1 (String g2 (String b1
            (String b2 EmptyString)))))))
  /\ (forall s,
        String.length (Str.lstrip_char "#" s) <= 4 ->
        exists e, hex_to_revit_color s = Raise e).
Proof.
  split.
  - intros n r1 r2 g1 g2 b1 b2 rest Hr1.
    transitivity
      (hex_to_revit_color
         (String r1 (String r2 (String g1 (String g2 (String b1
            (String b2 rest))))))).
    + unfold hex_to_revit_color. by rewrite lstrip_hashes.
    + by rewrite !hex_to_revit_color_six.
  - intros s Hlen. unfold hex_to_revit_color.
    rewrite (slice_beyond _ Hlen).
    destruct (int16 (Str.slice 0 2 _)) as [r|e]; [|by exists e].
    destruct (int16 (Str.slice 2 4 _)) as [g|e]; [|by exists e].
    simpl. by eexists.
Qed.

Lemma hex_to_revit_color_shape_witness :
  hex_to_revit_color "##C8C8C8FF" = hex_to_revit_color "C8C8C8"
  /\ exists e, hex_to_revit_color "#C8C8" = Raise e.
Proof.
  destruct hex_to_revit_color_shape as [Hlenient Hshort]. split.
  - exact (Hlenient 2 "C"%char "8"%char "C"%char "8"%char "C"%char "8"%char
             "FF" eq_refl).
  - apply Hshort. vm_compute. lia.
Defined.

Lemma lower_upper_hex_not_hash (c : ascii) :
  is_upper_hex c = true -> Ascii.eqb (Str.lower_char c) "#" = false.
Proof.
  intros H%is_upper_hex_chars. vm_compute in H.
  repeat (destruct H as [<-|H]; [reflexivity|]). destruct H.
Qed.

Lemma int16_lower_pair (c1 c2 : ascii) :
  is_upper_hex c1 = true -> is_upper_hex c2 = true ->
  int16 (Str.lower (String c1 (String c2 EmptyString)))
  = int16 (String c1 (String c2 EmptyString)).
Proof.
  intros H1 H2.
  destruct (byte_roundtrip_ok c1 c2 H1 H2) as (z & Hz & Hrange & Hprint).
  destruct (byte_print_read_ok (Z.to_N z)) as (d1 & d2 & Hd & _ & _ & _ & Hl);
    [lia|].
  rewrite Hprint in Hd. injection Hd as <- <-.
  rewrite Hl, Hz. f_equal. lia.
Qed.

(** Six uppercase digits after a number sign are read as a colour that is
    printed as the same string. *)
Lemma byte_roundtrip_six (r1 r2 g1 g2 b1 b2 : ascii) :
  Forall (fun c => is_upper_hex c = true) [r1; r2; g1; g2; b1; b2] ->
  exists color,
    hex_to_revit_color
      (String "#" (String r1 (String r2 (String g1 (String g2 (String b1
         (String b2 EmptyString)))))))
    = Return color
    /\ revit_color_to_hex color
       = String "#" (String r1 (String r2 (String g1 (String g2 (String b1
           (String b2 EmptyString)))))).
Proof.
  intros Hall.
  apply Forall_cons in Hall as [Hr1 Hall].
  apply Forall_cons in Hall as [Hr2 Hall].
  apply Forall_cons in Hall as [Hg1 Hall].
  apply Forall_cons in Hall as [Hg2 Hall].
  apply Forall_cons in Hall as [Hb1 Hall].
  apply Forall_cons in Hall as [Hb2 _].
  destruct (byte_roundtrip_ok r1 r2 Hr1 Hr2) as (r & Hr & Hrr & Hrf).
  destruct (byte_roundtrip_ok g1 g2 Hg1 Hg2) as (g & Hg & Hgr & Hgf).
  destruct (byte_roundtrip_ok b1 b2 Hb1 Hb2) as (b & Hb & Hbr & Hbf).
  exists {| Red := Z.to_N r; Green := Z.to_N g; Blue := Z.to_N b |}. split.
  - change (String "#" ?s) with (hashes 1 s).
    unfold hex_to_revit_color. rewrite lstrip_hashes.
    fold (hex_to_revit_color
            (String r1 (String r2 (String g1 (String g2 (String b1
               (String b2 EmptyString))))))).
    rewrite hex_to_revit_color_six by by apply upper_hex_not_hash.
    rewrite Hr, Hg, Hb. cbn [obind]. by apply RevitColor_bytes.
  - unfold revit_color_to_hex. cbn [Red Green Blue].
    by rewrite Hrf, Hgf, Hbf.
Qed.

(** X13. The digits may be written in lowercase: for six uppercase
    hexadecimal digits, the lowercased string is read as the same colour, so
    reading a lowercase colour and printing it gives the uppercase form. *)
Theorem hex_to_revit_color_lowercase (r1 r2 g1 g2 b1 b2 : ascii) :
  Forall (fun c => is_upper_hex c = true) [r1; r2; g1; g2; b1; b2] ->
  let upper :=
    String "#" (String r1 (String r2 (String g1 (String g2 (String b1
      (String b2 EmptyString)))))) in
  hex_to_revit_color (Str.lower upper) = hex_to_revit_color upper
  /\ exists color,
       hex_to_revit_color (Str.lower upper) = Return color
       /\ revit_color_to_hex color = upper.
Proof.
  intros Hall upper.
  assert (hex_to_revit_color (Str.lower upper) = hex_to_revit_color upper)
    as Hsame.
  { apply Forall_cons in Hall as [Hr1 Hall].
    apply Forall_cons in Hall as [Hr2 Hall].
    apply Forall_cons in Hall as [Hg1 Hall].
    apply Forall_cons in Hall as [Hg2 Hall].
    apply Forall_cons in Hall as [Hb1 Hall].
    apply Forall_cons in Hall as [Hb2 _].
    pose proof (int16_lower_pair r1 r2 Hr1 Hr2) as Hr.
    pose proof (int16_lower_pair g1 g2 Hg1 Hg2) as Hg.
    pose proof (int16_lower_pair b1 b2 Hb1 Hb2) as Hb.
    unfold upper. cbn [Str.lower] in *.
    change (Str.lower_char "#") with "#"%char.
    unfold hex_to_revit_color at 1 2. cbn [Str.lstrip_char].
    change (Ascii.eqb "#" "#") with true. cbv iota.
    rewrite (lower_upper_hex_not_hash r1 Hr1), (upper_hex_not_hash r1 Hr1).
    unfold Str.slice. simpl. by rewrite Hr, Hg, Hb. }
  split; [exact Hsame|]. rewrite Hsame.
  destruct (byte_roundtrip_six r1 r2 g1 g2 b1 b2 Hall) as (color & Hc & Hp).
  by exists color.
Qed.

Lemma hex_to_revit_color_lowercase_witness :
  hex_to_revit_color "#c8c8c8" = hex_to_revit_color "#C8C8C8".
Proof.
  destruct (hex_to_revit_color_lowercase "C" "8" "C" "8" "C" "8") as [H _].
  - repeat constructor.
  - exact H.
Defined.

(** ** Pattern helper *)

(** One step of the loop of [get_all_patterns]. *)
Lemma get_all_patterns_step (ps : list FillPatternElement)
    (p : FillPatternElement) (d : Document) :
  fill_patterns d = ps ++ [p] ->
  get_all_patterns d
  = let before :=
      get_all_patterns {| materials := materials d; assets := assets d;
                          fill_patterns := ps |} in
    match GetFillPattern p with
    | Return (Some _) => dict_set (pattern_Name p) (pattern_Id p) before
    | _ => before
    end.
Proof.
  intros Hd. unfold get_all_patterns. rewrite Hd, fold_left_app. reflexivity.
Qed.

Lemma has_fill_pattern_cases (p : FillPatternElement) :
  (has_fill_pattern p
   /\ exists fp, GetFillPattern p = Return (Some fp))
  \/ (~ has_fill_pattern p
      /\ (GetFillPattern p = Return None
          \/ exists e, GetFillPattern p = Raise e)).
Proof.
  unfold has_fill_pattern.
  destruct (GetFillPattern p) as [[fp|]|e].
  - left. split; by exists fp.
  - right. split; [by intros [fp ?] | by left].
  - right. split; [by intros [fp ?] | right; by exists e].
Qed.

Lemma get_all_patterns_entries (ps : list FillPatternElement)
    (ms : list Material) (az : list AppearanceAssetElement) :
  let table :=
    get_all_patterns {| materials := ms; assets := az; fill_patterns := ps |} in
  dict_wf table
  /\ (forall name id,
        dict_get name table = Some id ->
        exists p, p ∈ ps /\ pattern_Name p = name /\ pattern_Id p = id
                  /\ has_fill_pattern p)
  /\ (forall p, p ∈ ps -> has_fill_pattern p ->
                exists id, dict_get (pattern_Name p) table = Some id).
Proof.
  induction ps as [|p ps IH] using rev_ind; intros table.
  - split; [apply NoDup_nil_2|]. split; [done|]. by intros p ?%elem_of_nil.
  - subst table.
    rewrite (get_all_patterns_step ps p) by reflexivity. cbn zeta.
    cbn [materials assets]. destruct IH as (Hwf & Hsound & Hcomplete).
    destruct (has_fill_pattern_cases p)
      as [(Hp & fp & Hfp)|(Hp & [Hnone|[e He]])].
    + rewrite Hfp. split; [by apply dict_wf_set|]. split.
      * intros name id. rewrite dict_get_set.
        destruct (decide (pattern_Name p = name)) as [<-|Hne].
        -- intros [= <-]. exists p. split; [|done].
           apply elem_of_app. right. by apply list_elem_of_singleton.
        -- intros (q & Hq & ?)%Hsound. exists q. split; [|done].
           apply elem_of_app. by left.
      * intros q Hq Hhas. rewrite dict_get_set.
        destruct (decide (pattern_Name p = pattern_Name q)); [by eexists|].
        apply elem_of_app in Hq as [Hq| ->%list_elem_of_singleton];
          [by apply Hcomplete | done].
    + rewrite Hnone. split; [done|]. split.
      * intros name id (q & Hq & ?)%Hsound. exists q. split; [|done].
        apply elem_of_app. by left.
      * intros q [Hq| ->%list_elem_of_singleton]%elem_of_app Hhas;
          [by apply Hcomplete | done].
    + rewrite He. split; [done|]. split.
      * intros name id (q & Hq & ?)%Hsound. exists q. split; [|done].
        apply elem_of_app. by left.
      * intros q [Hq| ->%list_elem_of_singleton]%elem_of_app Hhas;
          [by apply Hcomplete | done].
Qed.

(** X14. The table of [get_all_patterns] has one entry per name; every
    entry is the name and id of a fill pattern element of the document whose
    fill pattern can be read; and the name of every such element is a key.
    Elements whose [GetFillPattern] raises or returns nothing are left
    out. *)
Theorem get_all_patterns_table (d : Document) :
  dict_wf (get_all_patterns d)
  /\ (forall name id,
        dict_get name (get_all_patterns d) = Some id ->
        exists p, p ∈ fill_patterns d /\ pattern_Name p = name
                  /\ pattern_Id p = id /\ has_fill_pattern p)
  /\ (forall p, p ∈ fill_patterns d -> has_fill_pattern p ->
                exists id, dict_get (pattern_Name p) (get_all_patterns d)
                           = Some id).
Proof.
  destruct d as [ms az ps]. apply get_all_patterns_entries.
Qed.

Lemma get_all_patterns_table_witness :
  dict_get "Broken" (get_all_patterns document_example) = None
  /\ exists id,
       dict_get "<Solid fill>" (get_all_patterns document_example) = Some id.
Proof.
  split; [reflexivity|].
  destruct (get_all_patterns_table document_example) as (_ & _ & H).
  apply (H (pattern_example 12%Z "<Solid fill>" true)).
  - list_present.
  - by eexists.
Defined.




(** ** More on the provisioner *)

Lemma material_exists_run (name : string) (h : HostWorld) :
  material_exists name h = (Return (name_in_use name h), h).
Proof. reflexivity. Qed.

(** X16. [_on_create] rejects before it touches the host: when there is
    no generated name, when the name is already in use in the document,
    when the document has no material to copy, or when the user answers no,
    the call returns normally and the document, the transaction and the log
    are as before. *)
Theorem on_create_rejects_untouched (w : Window) (h : HostWorld) :
  _get_generated_name w = None
  \/ (exists new_name, _get_generated_name w = Some new_name
                       /\ name_in_use new_name h = true)
  \/ (_get_generated_name w <> None /\ materials (doc h) = [])
  \/ (cmb_naam w <> None /\ answer h = No) ->
  exists h',
    _on_create w h = (Return tt, h')
    /\ doc h' = doc h
    /\ transaction h' = transaction h
    /\ host_log h' = host_log h.
Proof.
  unfold _on_create.
  destruct (_get_generated_name w) as [new_name|] eqn:Hname;
    [|intros _; by eexists].
  rewrite (bind_run _ _ _ _ _ (material_exists_run new_name h)).
  destruct (name_in_use new_name h) eqn:Huse; [intros _; by eexists|].
  intros [?|[(n & [= <-] & ?)|[[_ Hempty]|[Hnaam Hno]]]];
    [done | congruence | |].
  - unfold find_source, bind, gets. rewrite Hempty.
    destruct (cmb_naam w); by eexists.
  - destruct (cmb_naam w) as [naakt_naam|]; [|done].
    unfold find_source. unfold bind at 1. unfold gets at 1.
    unfold bind at 1. unfold ret at 1.
    destruct (find_closest_material (materials (doc h)) naakt_naam);
      [|by eexists].
    unfold bind, MessageBox_Show, modify, gets. simpl. rewrite Hno.
    by eexists.
Qed.

Lemma on_create_rejects_untouched_witness :
  exists h',
    _on_create window_name_in_use host_normal = (Return tt, h')
    /\ doc h' = doc host_normal.
Proof.
  destruct (on_create_rejects_untouched window_name_in_use host_normal)
    as (h' & Hrun & Hdoc & _).
  - right; left. exists "Hout". split; reflexivity.
  - exists h'. split; [exact Hrun | exact Hdoc].
Defined.

(** X17. With a name selected [_on_create] never raises, and it changes
    the document all or nothing: afterwards the document is as before, or
    the transaction is committed and the list of materials has grown by the
    generated name. With no name selected, a generated name that is not in
    use and a document that has materials, it raises and the document is
    untouched. *)
Theorem on_create_all_or_nothing (w : Window) (h : HostWorld) :
  (cmb_naam w <> None ->
   exists h',
     _on_create w h = (Return tt, h')
     /\ (doc h' = doc h
         \/ exists new_name,
              _get_generated_name w = Some new_name
              /\ transaction h' = Committed
              /\ material_names h' = material_names h ++ [new_name]))
  /\ (forall new_name,
        cmb_naam w = None ->
        _get_generated_name w = Some new_name ->
        name_in_use new_name h = false ->
        materials (doc h) <> [] ->
        exists e, _on_create w h = (Raise e, h)).
Proof.
  split.
  - intros Hnaam. unfold _on_create.
    destruct (_get_generated_name w) as [new_name|] eqn:Hname;
      [|eexists; split; [reflexivity | by left]].
    rewrite (bind_run _ _ _ _ _ (material_exists_run new_name h)).
    destruct (name_in_use new_name h) eqn:Huse;
      [eexists; split; [reflexivity | by left]|].
    destruct (cmb_naam w) as [naakt_naam|]; [|done].
    unfold find_source. unfold bind at 1. unfold gets at 1.
    unfold bind at 1. unfold ret at 1.
    destruct (find_closest_material (materials (doc h)) naakt_naam)
      as [source_mat|]; [|eexists; split; [reflexivity | by left]].
    unfold bind at 1. unfold MessageBox_Show at 1. unfold modify at 1.
    unfold bind at 1. unfold gets at 1. cbn [answer add_message].
    destruct (answer h); [|eexists; split; [reflexivity | by left]].
    match goal with
    | |- context [create_material w source_mat new_name ?h0] =>
        destruct (create_material_cases w source_mat new_name h0)
          as (h' & Hrun & Hcases)
    end.
    exists h'. split; [exact Hrun|].
    destruct (throws _ TransactionStart); [by left|].
    destruct Hcases as (r & h1 & Hdup & Hr).
    destruct r as [new_mat|]; [|by left].
    destruct Hr as (h2 & Hap & Hcommit).
    destruct (throws _ TransactionCommit); [by left|].
    destruct Hcommit as (_ & _ & Htx & Hnames).
    right. by exists new_name.
  - intros new_name Hnaam Hname Huse Hmats. unfold _on_create.
    rewrite Hname.
    rewrite (bind_run _ _ _ _ _ (material_exists_run new_name h)).
    rewrite Huse, Hnaam. unfold find_source, bind, gets.
    destruct (materials (doc h)); [done|]. by eexists.
Qed.

Lemma on_create_all_or_nothing_witness :
  exists h',
    _on_create window_ready host_normal = (Return tt, h')
    /\ (doc h' = doc host_normal
        \/ exists new_name,
             _get_generated_name window_ready = Some new_name
             /\ transaction h' = Committed
             /\ material_names h' = material_names host_normal ++ [new_name]).
Proof.
  destruct (on_create_all_or_nothing window_ready host_normal) as [H _].
  apply H. discriminate.
Defined.

Lemma max_id_ge (ids : list ElementId) (id : ElementId) :
  id ∈ ids -> (id <= max_id ids)%Z.
Proof.
  unfold max_id. induction ids as [|x ids IH]; [by intros ?%elem_of_nil|].
  intros [->|Hin]%elem_of_cons; simpl; [lia|].
  specialize (IH Hin). lia.
Qed.

(** The id the host gives a new element is the id of no material. *)
Lemma fresh_id_material (d : Document) (m : Material) :
  m ∈ materials d -> Z.eqb (Id m) (fresh_id d) = false.
Proof.
  intros Hin. apply Z.eqb_neq. unfold fresh_id.
  assert (Id m <= max_id (map Id (materials d) ++ map asset_Id (assets d)
                          ++ map pattern_Id (fill_patterns d)))%Z; [|lia].
  apply max_id_ge, elem_of_app. left. by apply list_elem_of_fmap_2.
Qed.

Lemma find_last {A} (f : A -> bool) (l : list A) (x : A) :
  (forall y, y ∈ l -> f y = false) -> f x = true ->
  find f (l ++ [x]) = Some x.
Proof.
  intros Hl Hx. induction l as [|y l IH]; simpl; [by rewrite Hx|].
  rewrite (Hl y) by left. apply IH. intros z Hz. apply Hl. by right.
Qed.

Lemma find_material_new (d : Document) (m : Material) :
  Id m = fresh_id d ->
  find_material (fresh_id d) (with_new_material d m) = Some m.
Proof.
  intros Hid. unfold find_material. simpl. apply find_last.
  - intros y Hy. by apply fresh_id_material.
  - rewrite Hid. apply Z.eqb_refl.
Qed.

Lemma update_material_new (d : Document) (m : Material)
    (f : Material -> Material) :
  Id m = fresh_id d ->
  materials (update_material (fresh_id d) f (with_new_material d m))
  = materials d ++ [f m].
Proof.
  intros Hid. simpl. rewrite map_app. simpl.
  rewrite Hid, Z.eqb_refl. f_equal.
  rewrite <- (map_id (materials d)) at 2. apply map_ext_in.
  intros y Hy%list_elem_of_In. by rewrite fresh_id_material.
Qed.

Lemma throws_false (h : HostWorld) (c : HostCall) :
  throws h c = false -> exists b, host_call c h = (Return b, h).
Proof.
  unfold throws, host_call. destruct (behaviour h c); [|done|]; by eexists.
Qed.

Lemma Material_Duplicate_run (source : Material) (new_name : string)
    (h : HostWorld) :
  name_in_use new_name h = false ->
  behaviour h MaterialDuplicate = Normal ->
  Material_Duplicate source new_name h
  = (Return (Some (fresh_id (doc h))),
     set_doc (with_new_material (doc h)
                (rename_material source (fresh_id (doc h)) new_name)) h).
Proof.
  intros Huse Hb. unfold Material_Duplicate, bind, host_call, gets.
  rewrite Hb. unfold name_in_use in Huse. by rewrite Huse.
Qed.

Lemma Asset_Duplicate_throws (asset : AppearanceAssetElement)
    (new_name : string) (h : HostWorld) (msg : string) :
  behaviour h AssetDuplicate = Throws msg ->
  Asset_Duplicate asset new_name h = (Raise (HostException msg), h).
Proof.
  intros Hb. unfold Asset_Duplicate, bind, host_call. by rewrite Hb.
Qed.

Lemma Asset_Duplicate_run (asset : AppearanceAssetElement)
    (new_name : string) (h : HostWorld) :
  behaviour h AssetDuplicate = Normal ->
  existsb (fun a => String.eqb (asset_Name a) new_name) (assets (doc h))
  = false ->
  Asset_Duplicate asset new_name h
  = (Return (Some (fresh_id (doc h))),
     set_doc (with_new_asset (doc h)
                {| asset_Id := fresh_id (doc h); asset_Name := new_name |}) h).
Proof.
  intros Hb Hfree. unfold Asset_Duplicate, bind, host_call, gets.
  by rewrite Hb, Hfree.
Qed.

(** X18. What [duplicate_material] makes of the appearance asset. Let the
    new name be free, the host duplicate the material, and the source have
    an appearance asset that the document holds. If duplicating the asset
    raises, the failure is logged as a warning and the new material is
    returned all the same, sharing the asset of the source. If it succeeds,
    the document gains one asset with the new name, and the new material,
    appended to the list of materials, refers to it; no other material is
    changed. *)
Theorem duplicate_material_asset (source : Material) (new_name : string)
    (h : HostWorld) (asset : AppearanceAssetElement) :
  name_in_use new_name h = false ->
  behaviour h MaterialDuplicate = Normal ->
  throws h GetAppearanceAssetId = false ->
  behaviour h GetElement = Normal ->
  AppearanceAssetId source <> InvalidElementId ->
  find (fun a => Z.eqb (asset_Id a) (AppearanceAssetId source))
       (assets (doc h)) = Some asset ->
  let new_id := fresh_id (doc h) in
  let copy := rename_material source new_id new_name in
  let d1 := with_new_material (doc h) copy in
  (forall msg,
     behaviour h AssetDuplicate = Throws msg ->
     duplicate_material (Some source) new_name h
     = (Return (Some new_id),
        add_log (WARNING, "Asset duplicate failed: " +:+ msg) (set_doc d1 h)))
  /\ (behaviour h AssetDuplicate = Normal ->
      throws h SetAppearanceAssetId = false ->
      existsb (fun a => String.eqb (asset_Name a) new_name) (assets (doc h))
      = false ->
      exists h',
        duplicate_material (Some source) new_name h = (Return (Some new_id), h')
        /\ materials (doc h')
           = materials (doc h) ++ [with_AppearanceAssetId (fresh_id d1) copy]
        /\ assets (doc h')
           = assets (doc h)
             ++ [{| asset_Id := fresh_id d1; asset_Name := new_name |}]
        /\ host_log h' = host_log h).
Proof.
  intros Huse Hdup Hget Helem Hvalid Hasset new_id copy d1.
  assert (duplicate_material_body source new_name h
          = bind (duplicate_appearance_asset new_id new_name)
                 (fun _ => ret (Some new_id)) (set_doc d1 h)) as Hbody.
  { unfold duplicate_material_body. unfold bind at 1. unfold gets at 1.
    fold (name_in_use new_name h). rewrite Huse.
    by rewrite (bind_run _ _ _ _ _
                  (Material_Duplicate_run source new_name h Huse Hdup)). }
  assert (forall k : ElementId -> Py HostWorld unit,
            bind (get_AppearanceAssetId new_id) k (set_doc d1 h)
            = k (AppearanceAssetId source) (set_doc d1 h)) as Hid.
  { intros k. apply bind_run. unfold get_AppearanceAssetId.
    destruct (throws_false (set_doc d1 h) GetAppearanceAssetId Hget)
      as [b Hb].
    rewrite (bind_run _ _ _ _ _ Hb). unfold bind, gets. cbn [doc set_doc].
    unfold d1, new_id. by rewrite find_material_new. }
  assert (doc_GetElement (AppearanceAssetId source) (set_doc d1 h)
          = (Return (Some asset), set_doc d1 h)) as Hel.
  { unfold doc_GetElement, bind, host_call, gets. cbn [behaviour set_doc].
    rewrite Helem. subst d1. simpl. by rewrite Hasset. }
  assert (negb (Z.eqb (AppearanceAssetId source) InvalidElementId) = true)
    as Hne by (apply negb_true_iff, Z.eqb_neq; exact Hvalid).
  split.
  - intros msg Hthrow. unfold duplicate_material, try_except.
    rewrite Hbody. unfold bind at 1. unfold duplicate_appearance_asset.
    rewrite Hid, Hne, (bind_run _ _ _ _ _ Hel).
    unfold try_except.
    by rewrite (bind_raise _ _ _ _ _
                  (Asset_Duplicate_throws asset new_name (set_doc d1 h) msg
                     Hthrow)).
  - intros Hnormal Hset Hfree. unfold duplicate_material, try_except.
    rewrite Hbody. unfold bind at 1. unfold duplicate_appearance_asset.
    rewrite Hid, Hne, (bind_run _ _ _ _ _ Hel).
    unfold try_except.
    rewrite (bind_run _ _ _ _ _
               (Asset_Duplicate_run asset new_name (set_doc d1 h)
                  Hnormal Hfree)).
    destruct (throws_false
                (set_doc (with_new_asset d1
                            {| asset_Id := fresh_id d1;
                               asset_Name := new_name |}) (set_doc d1 h))
                SetAppearanceAssetId Hset) as [b Hb].
    unfold set_property. rewrite (bind_run _ _ _ _ _ Hb).
    eexists. split; [reflexivity|]. cbn [doc set_doc].
    split; [|done].
    exact (update_material_new (doc h) copy _ eq_refl).
Qed.

Lemma duplicate_material_asset_witness :
  duplicate_material (Some mat_eiken) "hout_eiken_vloer" host_asset_fails
  = (Return (Some 7%Z),
     add_log (WARNING,
              "Asset duplicate failed: The asset cannot be duplicated.")
       (set_doc
          (with_new_material document_with_asset
             (rename_material mat_eiken 7%Z "hout_eiken_vloer"))
          host_asset_fails)).
Proof.
  assert (AppearanceAssetId mat_eiken <> InvalidElementId) as Hvalid
    by discriminate.
  destruct (duplicate_material_asset mat_eiken "hout_eiken_vloer"
              host_asset_fails {| asset_Id := 5%Z; asset_Name := "Eiken" |}
              eq_refl eq_refl eq_refl eq_refl Hvalid eq_refl)
    as [Hfail _].
  exact (Hfail _ eq_refl).
Defined.

Lemma set_property_run (c : HostCall) (id : ElementId)
    (f : Material -> Material) (h : HostWorld) :
  throws h c = false ->
  set_property c id f h
  = (Return tt, set_doc (update_material id f (doc h)) h).
Proof.
  intros [b Hb]%throws_false. unfold set_property.
  by rewrite (bind_run _ _ _ _ _ Hb).
Qed.

(** One step of the body of [_apply_patterns]. *)
Ltac pattern_step Hcalls :=
  first
    [ erewrite bind_run
        by (apply set_property_run; apply Hcalls; list_present)
    | erewrite bind_run by reflexivity ].

(** X19. When none of the assignments raises and the four colour strings
    are read as colours, [_apply_patterns] returns normally, logs that the
    patterns were applied, and the material with the given id is configured:
    its four colours are the colours read, both background patterns are the
    first solid fill pattern of the document when there is one, and each
    foreground pattern is the one selected in the window when the selection
    is a key of the pattern table. All other materials, the assets and the
    fill patterns are unchanged. *)
Theorem apply_patterns_configures (w : Window) (material : ElementId)
    (h : HostWorld) (surface_fg surface_bg cut_fg cut_bg : Color) :
  (forall c, c ∈ pattern_calls -> throws h c = false) ->
  hex_to_revit_color (surface_fg_color w) = Return surface_fg ->
  hex_to_revit_color (surface_bg_color w) = Return surface_bg ->
  hex_to_revit_color (cut_fg_color w) = Return cut_fg ->
  hex_to_revit_color (cut_bg_color w) = Return cut_bg ->
  let solid_id := solid_pattern_scan (fill_patterns (doc h)) in
  exists h',
    _apply_patterns w material h = (Return tt, h')
    /\ materials (doc h')
       = map (fun m =>
                if Z.eqb (Id m) material
                then configured w solid_id surface_fg surface_bg cut_fg
                                cut_bg m
                else m)
             (materials (doc h))
    /\ assets (doc h') = assets (doc h)
    /\ fill_patterns (doc h') = fill_patterns (doc h)
    /\ host_log h' = host_log h ++ [(INFO, "Patterns applied successfully")].
Proof.
  intros Hcalls H1 H2 H3 H4 solid_id.
  unfold _apply_patterns, try_except, apply_patterns_body.
  rewrite H1, H2, H3, H4. unfold get_solid_pattern_id.
  unfold configured, selected_pattern. fold solid_id.
  destruct (cmb_surface_fg w) as [s1|];
    [destruct (dict_get s1 (patterns w)) as [p1|]|];
    (destruct (cmb_cut_fg w) as [s2|];
     [destruct (dict_get s2 (patterns w)) as [p2|]|]);
    repeat pattern_step Hcalls;
    cbn [doc set_doc update_material fill_patterns]; fold solid_id;
    destruct (Z.eqb solid_id InvalidElementId); cbn [negb];
    repeat pattern_step Hcalls;
    (eexists; split; [reflexivity|]);
    cbn [doc set_doc add_log update_material materials assets fill_patterns
         host_log];
    (split; [|done]);
    rewrite ?map_map; apply map_ext; intros m;
    destruct (Z.eqb (Id m) material) eqn:E;
    repeat (progress
              (cbn [Id with_SurfaceForegroundPatternId
                    with_SurfaceForegroundPatternColor
                    with_SurfaceBackgroundPatternColor
                    with_SurfaceBackgroundPatternId
                    with_CutForegroundPatternId with_CutForegroundPatternColor
                    with_CutBackgroundPatternColor
                    with_CutBackgroundPatternId];
               rewrite ?E));
    by destruct m.
Qed.

Lemma apply_patterns_configures_witness :
  exists h',
    _apply_patterns window_ready 1%Z host_normal = (Return tt, h')
    /\ host_log h' = [(INFO, "Patterns applied successfully")]
    /\ (SurfaceBackgroundPatternId <$> find_material 1%Z (doc h')) = Some 12%Z
    /\ (SurfaceForegroundPatternId <$> find_material 1%Z (doc h')) = Some 13%Z.
Proof.
  destruct (apply_patterns_configures window_ready 1%Z host_normal
              {| Red := 50; Green := 50; Blue := 50 |}
              {| Red := 200; Green := 200; Blue := 200 |}
              {| Red := 50; Green := 50; Blue := 50 |}
              {| Red := 180; Green := 180; Blue := 180 |}
              (fun c _ => eq_refl) eq_refl eq_refl eq_refl eq_refl)
    as (h' & Hrun & Hmats & _ & _ & Hlog).
  exists h'. split; [exact Hrun|]. split; [exact Hlog|].
  unfold find_material. rewrite Hmats. split; reflexivity.
Defined.

(** ** The window *)

Import Ui.

Lemma well_formed_hex_digits (s : string) :
  well_formed_hex s = true ->
  exists r1 r2 g1 g2 b1 b2,
    s = String "#" (String r1 (String r2 (String g1 (String g2 (String b1
          (String b2 EmptyString))))))
    /\ Forall (fun c => is_upper_hex c = true) [r1; r2; g1; g2; b1; b2].
Proof.
  intros H.
  destruct s as [|[[] [] [] [] [] [] [] []]
                  [|r1 [|r2 [|g1 [|g2 [|b1 [|b2 [|]]]]]]]];
    try discriminate H.
  exists r1, r2, g1, g2, b1, b2. split; [done|].
  apply Forall_forall. intros c Hc.
  change (forallb is_upper_hex [r1; r2; g1; g2; b1; b2] = true) in H.
  rewrite forallb_forall in H.
  apply H. by apply list_elem_of_In.
Qed.

(** The three bytes a well-formed colour string is read as. *)
Lemma well_formed_hex_slices (s : string) :
  well_formed_hex s = true ->
  exists r g b,
    int16 (Str.slice 0 2 (Str.lstrip_char "#" s)) = Return r
    /\ int16 (Str.slice 2 4 (Str.lstrip_char "#" s)) = Return g
    /\ int16 (Str.slice 4 6 (Str.lstrip_char "#" s)) = Return b
    /\ (0 <= r <= 255)%Z /\ (0 <= g <= 255)%Z /\ (0 <= b <= 255)%Z.
Proof.
  intros (r1 & r2 & g1 & g2 & b1 & b2 & -> & Hall)%well_formed_hex_digits.
  apply Forall_cons in Hall as [Hr1 Hall].
  apply Forall_cons in Hall as [Hr2 Hall].
  apply Forall_cons in Hall as [Hg1 Hall].
  apply Forall_cons in Hall as [Hg2 Hall].
  apply Forall_cons in Hall as [Hb1 Hall].
  apply Forall_cons in Hall as [Hb2 _].
  destruct (byte_roundtrip_ok r1 r2 Hr1 Hr2) as (r & Hr & Hrr & _).
  destruct (byte_roundtrip_ok g1 g2 Hg1 Hg2) as (g & Hg & Hgr & _).
  destruct (byte_roundtrip_ok b1 b2 Hb1 Hb2) as (b & Hb & Hbr & _).
  exists r, g, b. cbn [Str.lstrip_char].
  change (Ascii.eqb "#" "#") with true. cbv iota.
  rewrite (upper_hex_not_hash r1 Hr1).
  unfold Str.slice. simpl. by rewrite Hr, Hg, Hb.
Qed.

Lemma FromArgb_bytes (r g b : Z) :
  (0 <= r <= 255)%Z -> (0 <= g <= 255)%Z -> (0 <= b <= 255)%Z ->
  FromArgb r g b
  = Return {| Red := Z.to_N r; Green := Z.to_N g; Blue := Z.to_N b |}.
Proof.
  intros Hr Hg Hb. unfold FromArgb.
  assert (((0 <=? r) && (r <=? 255) && (0 <=? g) && (g <=? 255)
           && (0 <=? b) && (b <=? 255))%Z = true) as ->; [|done].
  repeat (apply andb_true_intro; split); apply Z.leb_le; lia.
Qed.

Lemma well_formed_hex_reads (s : string) :
  well_formed_hex s = true ->
  (exists c, hex_to_revit_color s = Return c)
  /\ (exists c, hex_to_wpf_color s = Return c).
Proof.
  intros (r & g & b & Hr & Hg & Hb & ? & ? & ?)%well_formed_hex_slices.
  unfold hex_to_revit_color, hex_to_wpf_color. rewrite Hr, Hg, Hb.
  cbn [obind]. rewrite RevitColor_bytes, FromArgb_bytes by done.
  split; by eexists.
Qed.

(** The string [_pick_color] stores for a colour of bytes is well
    formed. *)
Lemma picked_color_well_formed (c : Color) :
  byte_color c ->
  well_formed_hex
    ("#" +:+ format_02X (Red c) +:+ format_02X (Green c)
         +:+ format_02X (Blue c)) = true.
Proof.
  intros (Hr & Hg & Hb).
  destruct (byte_print_read_ok _ Hr) as (r1 & r2 & -> & Hr1 & Hr2 & _).
  destruct (byte_print_read_ok _ Hg) as (g1 & g2 & -> & Hg1 & Hg2 & _).
  destruct (byte_print_read_ok _ Hb) as (b1 & b2 & -> & Hb1 & Hb2 & _).
  change (forallb is_upper_hex [r1; r2; g1; g2; b1; b2] = true).
  simpl. by rewrite Hr1, Hr2, Hg1, Hg2, Hb1, Hb2.
Qed.

(** X20. The colours of the window stay well formed. The colours the
    window starts with are a number sign and six uppercase hexadecimal
    digits. When the four colours are so, [_pick_color] returns without
    logging an error and leaves them so: a cancelled dialog changes nothing,
    a confirmed colour is stored for the target in the format of
    [revit_color_to_hex] and the other three colours are kept. And every
    well-formed colour is read by [hex_to_revit_color] without an
    exception. *)
Theorem pick_color_keeps_colors (target : ColorTarget)
    (dialog : option Color) (s : Session) :
  (forall w, colors_ok (set_initial_colors w))
  /\ (colors_ok (window s) ->
      (forall c, dialog = Some c -> byte_color c) ->
      exists s',
        _pick_color target dialog s = (Return tt, s')
        /\ ui_log s' = ui_log s
        /\ colors_ok (window s')
        /\ match dialog with
           | Some c =>
               get_color target (window s') = revit_color_to_hex c
               /\ forall other, other <> target ->
                    get_color other (window s') = get_color other (window s)
           | None => window s' = window s
           end)
  /\ (colors_ok (window s) ->
      exists c, hex_to_revit_color (get_color target (window s)) = Return c).
Proof.
  split; [intros w []; reflexivity|]. split.
  - intros Hok Hbytes.
    destruct (well_formed_hex_slices _ (Hok target))
      as (r & g & b & Hr & Hg & Hb & Hrr & Hgr & Hbr).
    unfold _pick_color, try_except.
    unfold bind at 1. unfold gets at 1.
    rewrite Hr, Hg, Hb. unfold bind at 1 2 3. unfold lift at 1 2 3.
    rewrite (FromArgb_bytes r g b Hrr Hgr Hbr).
    unfold bind at 1. unfold lift at 1.
    destruct dialog as [c|].
    + pose proof (picked_color_well_formed c (Hbytes c eq_refl)) as Hwf.
      destruct (well_formed_hex_reads _ Hwf) as [_ [c' Hwpf]].
      unfold bind at 1. unfold modify at 1.
      destruct (well_formed_hex_slices _ Hwf)
        as (r' & g' & b' & Hr' & Hg' & Hb' & _).
      unfold _update_color_ui, bind, lift. rewrite Hwpf, Hr', Hg', Hb'.
      eexists. split; [reflexivity|]. cbn [ui_log window].
      split; [done|]. split; [|split].
      * intros other. pose proof (Hok other) as Ho.
        destruct other, target; first [exact Hwf | exact Ho].
      * by destruct target.
      * intros other Hne. by destruct other, target.
    + eexists. split; [reflexivity|]. by destruct s.
  - intros Hok. by destruct (well_formed_hex_reads _ (Hok target)).
Qed.

Lemma pick_color_keeps_colors_witness :
  exists s',
    _pick_color cut_bg (Some {| Red := 18; Green := 171; Blue := 255 |})
      {| window := set_initial_colors window_example; ui_log := [] |}
    = (Return tt, s')
    /\ ui_log s' = []
    /\ get_color cut_bg (window s') = "#12ABFF"
    /\ get_color surface_fg (window s') = "#323232".
Proof.
  destruct (proj1 (proj2 (pick_color_keeps_colors cut_bg
              (Some {| Red := 18; Green := 171; Blue := 255 |})
              {| window := set_initial_colors window_example;
                 ui_log := [] |})))
    as (s' & Hrun & Hlog & _ & Hnew & Hother).
  - intros []; reflexivity.
  - intros c [= <-]. repeat split; vm_compute; discriminate.
  - exists s'. split; [exact Hrun|]. split; [exact Hlog|].
    split; [exact Hnew|]. by rewrite (Hother surface_fg).
Defined.

(** *** Combo boxes *)

Lemma index_where_Some {A} (test : A -> bool) (l : list A) (i : nat) :
  index_where test l = Some i ->
  exists x, l !! i = Some x /\ test x = true
    /\ forall j y, j < i -> l !! j = Some y -> test y = false.
Proof.
  revert i. induction l as [|a l IH]; intros i; [done|].
  cbn [index_where]. destruct (test a) eqn:Ea.
  - intros [= <-]. exists a. repeat split; [done|]. intros j y Hj. lia.
  - destruct (index_where test l) as [i'|] eqn:Ei; [|done].
    intros [= <-]. destruct (IH i' eq_refl) as (x & Hx & Htx & Hbefore).
    exists x. repeat split; [done..|].
    intros [|j] y Hj; [by intros [= <-]|].
    cbn [lookup list_lookup]. apply Hbefore. lia.
Qed.

Lemma index_where_None {A} (test : A -> bool) (l : list A) :
  index_where test l = None -> forall x, x ∈ l -> test x = false.
Proof.
  induction l as [|a l IH]; intros H x Hx; [by apply elem_of_nil in Hx|].
  cbn [index_where] in H. destruct (test a) eqn:Ea; [done|].
  destruct (index_where test l) eqn:Ei; [done|].
  apply elem_of_cons in Hx as [->|Hx]; [done|]. by apply IH.
Qed.

Lemma SelectedItem_fill (l : list string) : SelectedItem (fill_items l) = None.
Proof. reflexivity. Qed.

Lemma SelectedItem_select (i : nat) (l : list string) :
  SelectedItem (select i (fill_items l)) = l !! i.
Proof.
  unfold SelectedItem, select. cbn [SelectedIndex Items fill_items].
  destruct (Z.ltb_spec (Z.of_nat i) 0); [lia|]. by rewrite Nat2Z.id.
Qed.

(** In a sorted list an item is at most every item behind it. *)
Lemma Sorted_lookup_le (l : list string) (i j : nat) (x y : string) :
  Sorted String.le l -> l !! i = Some x -> l !! j = Some y -> i <= j ->
  String.le x y.
Proof.
  intros Hs%(Sorted_StronglySorted _). revert i j.
  induction Hs as [|a l Hs IH Hall]; intros i j Hi Hj Hij; [done|].
  destruct i as [|i], j as [|j]; try lia.
  - cbn in Hi, Hj. by simplify_eq.
  - cbn in Hi, Hj. simplify_eq. rewrite List.Forall_forall in Hall.
    apply Hall. apply list_elem_of_In. by eapply list_elem_of_lookup_2.
  - cbn in Hi, Hj. apply (IH i j Hi Hj). lia.
Qed.

(** The first item that passes a test in a sorted list is the least item
    that passes it. *)
Lemma index_where_sorted_least (test : string -> bool) (l : list string)
    (i : nat) (x other : string) :
  Sorted String.le l -> index_where test l = Some i -> l !! i = Some x ->
  other ∈ l -> test other = true -> String.le x other.
Proof.
  intros Hs Hi Hx Ho Hto.
  destruct (index_where_Some _ _ _ Hi) as (x' & Hx' & _ & Hbefore).
  apply list_elem_of_lookup in Ho as [j Hj].
  destruct (decide (i <= j)) as [Hle|Hgt].
  - by apply (Sorted_lookup_le l i j).
  - rewrite (Hbefore j other) in Hto; [done|lia|done].
Qed.

Lemma setup_pattern_combo_item (patterns : dict ElementId) :
  let names := sorted (dict_keys patterns) in
  SelectedItem (setup_pattern_combo patterns)
  = match index_where solid_name names with
    | Some i => names !! i
    | None => head names
    end.
Proof.
  intros names. unfold setup_pattern_combo. fold names.
  change (fun name => Str.contains "solid" (Str.lower name)) with solid_name.
  destruct (index_where solid_name names) as [i|] eqn:Ei.
  - assert ((SelectedIndex (select i (fill_items names)) <? 0)%Z = false)
      as ->; [cbn [select SelectedIndex]; apply Z.ltb_ge; lia|].
    cbn [andb]. apply SelectedItem_select.
  - destruct names as [|n names']; [reflexivity|].
    cbn [fill_items SelectedIndex andb]. cbn [Z.ltb Z.compare].
    apply (SelectedItem_select 0 (n :: names')).
Qed.

(** X21. [_setup_controls] selects the same pattern in both pattern combo
    boxes. Nothing is selected exactly when the document has no fill
    pattern. A selected name is the name of a pattern of the window; it is
    the least name that contains [solid] (in any case) when there is such
    a name, and the least of all names otherwise. *)
Theorem setup_controls_selection (w : Window) :
  cmb_cut_fg (_setup_controls w) = cmb_surface_fg (_setup_controls w)
  /\ (cmb_surface_fg (_setup_controls w) = None <-> patterns w = [])
  /\ forall name,
       cmb_surface_fg (_setup_controls w) = Some name ->
       name ∈ dict_keys (patterns w)
       /\ (solid_name name = true
           \/ forall k, k ∈ dict_keys (patterns w) -> solid_name k = false)
       /\ forall other,
            other ∈ dict_keys (patterns w) ->
            solid_name other = true \/ solid_name name = false ->
            String.le name other.
Proof.
  split; [reflexivity|].
  change (cmb_surface_fg (_setup_controls w))
    with (SelectedItem (setup_pattern_combo (patterns w))).
  rewrite setup_pattern_combo_item.
  pose proof (sorted_Permutation (dict_keys (patterns w))) as Hp.
  pose proof (sorted_Sorted (dict_keys (patterns w))) as Hs.
  set (names := sorted (dict_keys (patterns w))) in *.
  destruct (index_where solid_name names) as [i|] eqn:Ei.
  - destruct (index_where_Some _ _ _ Ei) as (x & Hx & Htx & Hbefore).
    rewrite Hx. split.
    + split; [done|]. intros Hnil. rewrite Hnil in Hp.
      apply Permutation_nil_r in Hp. by rewrite Hp in Hx.
    + intros name [= <-]. split; [|split].
      * rewrite <- Hp. by eapply list_elem_of_lookup_2.
      * by left.
      * intros other Ho [Hso|Hsx]; [|congruence].
        rewrite <- Hp in Ho.
        by apply (index_where_sorted_least solid_name names i).
  - pose proof (index_where_None _ _ Ei) as Hnone. split.
    + split.
      * intros Hhead. destruct names as [|n names'] eqn:En; [|done].
        apply Permutation_nil_l in Hp.
        by destruct (patterns w).
      * intros Hnil. rewrite Hnil in Hp.
        apply Permutation_nil_r in Hp. by rewrite Hp.
    + intros name Hhead. split; [|split].
      * rewrite <- Hp. destruct names; [done|]. cbn in Hhead.
        simplify_eq. by left.
      * right. intros k Hk. apply Hnone. by rewrite Hp.
      * intros other Ho _. rewrite <- Hp in Ho.
        apply list_elem_of_lookup in Ho as [j Hj].
        apply (Sorted_lookup_le names 0 j); [done| |done|lia].
        by destruct names.
Qed.

Lemma select_generiek_item (l : list string) :
  SelectedItem (select_generiek (fill_items l)) = generiek_or_first l.
Proof.
  unfold select_generiek, generiek_or_first. cbn [Items fill_items].
  destruct (index_where _ l) as [i|] eqn:Ei.
  - destruct (index_where_Some _ _ _ Ei) as (x & Hx & Htx & _).
    apply String.eqb_eq in Htx as ->.
    rewrite SelectedItem_select, Hx.
    rewrite decide_True; [done|]. by eapply list_elem_of_lookup_2.
  - pose proof (index_where_None _ _ Ei) as Hnone.
    rewrite decide_False.
    + destruct l as [|a l]; [reflexivity|].
      apply (SelectedItem_select 0 (a :: l)).
    + intros Hin. apply Hnone in Hin. by rewrite String.eqb_refl in Hin.
Qed.





Lemma on_naam_changed_fields (data : NAAKTData) (w : Window) (naam : string) :
  cmb_naam w = Some naam ->
  cmb_naam (_on_naam_changed data w) = Some naam
  /\ cmb_kenmerk (_on_naam_changed data w)
     = generiek_or_first (get_kenmerken data naam)
  /\ cmb_toepassing (_on_naam_changed data w)
     = generiek_or_first (get_toepassingen data naam).
Proof.
  intros Hn. unfold _on_naam_changed, kenmerk_combo, toepassing_combo.
  rewrite Hn.
  rewrite !select_generiek_item. unfold _update_preview.
  by destruct (3 <=? _).
Qed.

Lemma update_preview_fields (w : Window) :
  cmb_naam (_update_preview w) = cmb_naam w
  /\ cmb_kenmerk (_update_preview w) = cmb_kenmerk w
  /\ cmb_toepassing (_update_preview w) = cmb_toepassing w.
Proof. unfold _update_preview. by destruct (3 <=? _). Qed.






Lemma setup_controls_selection_witness :
  "<Solid fill>" ∈ dict_keys (patterns window_ready)
  /\ String.le "<Solid fill>" "<Solid fill>".
Proof.
  destruct (setup_controls_selection window_ready) as (_ & _ & H).
  destruct (H "<Solid fill>" ltac:(vm_compute; reflexivity))
    as (Hin & _ & Hle).
  split; [exact Hin|]. apply (Hle "<Solid fill>" Hin). by left.
Defined.





(** *** The buttons that add a value *)

Lemma on_data_run {A} (m : Py World A) (a : App) (o : outcome A) (d : World) :
  m (app_data a) = (o, d) ->
  on_data m a = (o, {| app_data := d; app_window := app_window a;
                       app_boxes := app_boxes a |}).
Proof. intros H. unfold on_data. by rewrite H. Qed.

Lemma index_where_elem {A} (test : A -> bool) (l : list A) (x : A) :
  x ∈ l -> test x = true -> exists i, index_where test l = Some i.
Proof.
  intros Hin Hx. destruct (index_where test l) as [i|] eqn:E; [by exists i|].
  by rewrite (index_where_None _ _ E x Hin) in Hx.
Qed.

Lemma SelectedItem_select_any (i : nat) (cmb : ComboBox) :
  SelectedItem (select i cmb) = Items cmb !! i.
Proof.
  unfold SelectedItem, select. cbn [SelectedIndex Items].
  destruct (Z.ltb_spec (Z.of_nat i) 0); [lia|]. by rewrite Nat2Z.id.
Qed.

Lemma Items_select_lower {rt : Runtime} (result : string)
    (cmb : ComboBox) :
  Items (select_lower result cmb) = Items cmb.
Proof. unfold select_lower. by destruct (index_where _ _). Qed.

(** The item selected after the loop: the lowercased input when it is an
    item, and the item selected before otherwise. *)
Lemma select_lower_item {rt : Runtime} (result : string)
    (cmb : ComboBox) :
  SelectedItem (select_lower result cmb)
  = if decide (str_lower result ∈ Items cmb) then Some (str_lower result)
    else SelectedItem cmb.
Proof.
  unfold select_lower.
  destruct (index_where _ (Items cmb)) as [i|] eqn:Ei.
  - destruct (index_where_Some _ _ _ Ei) as (x & Hx & Htx & _).
    apply String.eqb_eq in Htx as ->.
    rewrite SelectedItem_select_any, Hx.
    rewrite decide_True; [done|]. by eapply list_elem_of_lookup_2.
  - rewrite decide_False; [done|]. intros Hin.
    apply (index_where_None _ _ Ei) in Hin.
    by rewrite String.eqb_refl in Hin.
Qed.

Lemma ComboBox_eq (c1 c2 : ComboBox) :
  Items c1 = Items c2 -> SelectedIndex c1 = SelectedIndex c2 -> c1 = c2.
Proof. destruct c1, c2. cbn. by intros -> ->. Qed.

(** An input with a non-empty normal form is not empty: the runtime lowers
    and strips the empty string to itself. *)
Lemma nonempty_normal_form {rt : Runtime} (raw : string) :
  normal_form raw <> EmptyString -> Str.nonempty raw = true.
Proof.
  intros H. destruct raw; [|done]. destruct H. unfold normal_form.
  by rewrite str_lower_empty, str_strip_empty.
Qed.




Lemma get_toepassingen_after_add {rt : Runtime} (w : World) (naam k : string)
    (stored : list string) :
  get_toepassingen (self (after_add_toepassing w naam stored k)) naam
  = sorted (stored ++ [k]).
Proof.
  unfold get_toepassingen, dict_get_default, after_add_toepassing.
  cbn [self toepassingen_per_naam]. by rewrite dict_get_set_eq.
Qed.

(** The same for applications. With a name selected and an input whose
    normal form is not empty and not yet stored for the name,
    [_on_add_toepassing] stores the normal form, writes the file, shows
    one message of success and keeps the name selected. The new application
    is selected when the lowered input has no surrounding whitespace. When
    it has, the stored value is the trimmed one but the window looks for
    the untrimmed lowered input: when that string is itself stored for the
    name, it is the item selected; when it is not, nothing is found, and
    the combo box shows [generiek] or the least application instead. *)
Lemma on_add_toepassing_selects {rt : Runtime} (a : App)
    (naam result : string)
    (stored : list string) :
  cmb_naam (app_window a) = Some naam ->
  dict_get naam (toepassingen_per_naam (self (app_data a))) = Some stored ->
  normal_form result <> EmptyString ->
  normal_form result ∉ stored ->
  exists w',
    _on_add_toepassing (Some result) a
    = (Return tt,
       {| app_data :=
            after_add_toepassing (app_data a) naam stored (normal_form result);
          app_window := w';
          app_boxes :=
            app_boxes a
            ++ [("TOEPASSING '" +:+ str_lower result +:+ "' toegevoegd!",
                 "Succes")] |})
    /\ cmb_naam w' = Some naam
    /\ (str_lower result = normal_form result ->
        cmb_toepassing w' = Some (normal_form result))
    /\ (str_lower result <> normal_form result ->
        str_lower result ∈ stored ->
        cmb_toepassing w' = Some (str_lower result))
    /\ (str_lower result <> normal_form result ->
        str_lower result ∉ stored ->
        cmb_toepassing w'
        = generiek_or_first (sorted (stored ++ [normal_form result]))).
Proof.
  intros Hn Hstored Hne Hnew.
  pose proof (add_toepassing_ok (app_data a) naam result stored Hstored Hne Hnew)
    as Hadd. cbn zeta in Hadd. fold (normal_form result) in Hadd.
  set (d := after_add_toepassing (app_data a) naam stored (normal_form result))
    in *.
  set (w1 := _on_naam_changed (self d) (app_window a)).
  set (cmb := toepassing_combo (self d) naam).
  set (cmb' := select_lower result cmb).
  destruct (on_naam_changed_fields (self d) (app_window a) naam Hn)
    as (Hn1 & Hk1 & Ht1). fold w1 in Hn1, Hk1, Ht1.
  assert (Items cmb = sorted (stored ++ [normal_form result])) as Hitems.
  { unfold cmb, toepassing_combo, select_generiek.
    unfold d. rewrite get_toepassingen_after_add. cbn [Items fill_items].
    destruct (index_where _ _); [reflexivity|]. by destruct (0 <? _). }
  assert (SelectedItem cmb
          = generiek_or_first (sorted (stored ++ [normal_form result])))
    as Hsel.
  { unfold cmb, toepassing_combo. rewrite select_generiek_item.
    unfold d. by rewrite get_toepassingen_after_add. }
  set (w' := if (SelectedIndex cmb' =? SelectedIndex cmb)%Z then w1
             else _update_preview
                    (set_selection (cmb_naam w1) (cmb_kenmerk w1)
                                   (SelectedItem cmb') w1)).
  assert (cmb_naam w' = Some naam /\ cmb_toepassing w' = SelectedItem cmb')
    as [Hn' Hk'].
  { unfold w'. destruct (Z.eqb_spec (SelectedIndex cmb') (SelectedIndex cmb))
      as [Hsame|Hdiff].
    - split; [done|]. rewrite Ht1.
      unfold d. rewrite get_toepassingen_after_add. rewrite <- Hsel.
      f_equal. symmetry. apply ComboBox_eq; [|done].
      apply Items_select_lower.
    - destruct (update_preview_fields
                  (set_selection (cmb_naam w1) (cmb_kenmerk w1)
                                 (SelectedItem cmb') w1)) as (-> & _ & ->).
      done. }
  exists w'. split.
  - unfold _on_add_toepassing. unfold bind at 1. unfold gets at 1.
    rewrite Hn, (nonempty_normal_form _ Hne).
    erewrite bind_run by (apply on_data_run; exact Hadd).
    reflexivity.
  - split; [done|]. rewrite Hk'. unfold cmb'. rewrite select_lower_item.
    rewrite Hitems. split; [|split].
    + intros Heq. rewrite Heq. rewrite decide_True; [done|].
      rewrite sorted_Permutation. apply elem_of_app. right. by left.
    + intros _ Hin. rewrite decide_True; [done|].
      rewrite sorted_Permutation. apply elem_of_app. by left.
    + intros Hdiff Hout. rewrite decide_False; [done|].
      rewrite sorted_Permutation. intros [Hin|Hin%list_elem_of_singleton]%elem_of_app;
        done.
Qed.






(** ** The logger *)

Import Logger.

(** *** Files of a directory *)

Lemma find_file_Some (name : string) (fs : list File) (f : File) :
  find_file name fs = Some f -> f ∈ fs /\ file_name f = name.
Proof.
  unfold find_file. intros H. apply find_some in H as [Hin Heq].
  split; [by apply list_elem_of_In|]. by apply String.eqb_eq.
Qed.

Lemma find_file_elem (name : string) (fs : list File) :
  name ∈ map file_name fs -> exists f, find_file name fs = Some f.
Proof.
  intros Hin. unfold find_file.
  destruct (find _ fs) as [f|] eqn:E; [by exists f|].
  apply list_elem_of_fmap in Hin as (f & -> & Hf).
  apply list_elem_of_In in Hf.
  pose proof (find_none _ _ E f Hf) as Hnone. cbn in Hnone.
  by rewrite String.eqb_refl in Hnone.
Qed.

Lemma remove_file_elem (name : string) (fs : list File) (f : File) :
  f ∈ remove_file name fs <-> f ∈ fs /\ file_name f <> name.
Proof.
  unfold remove_file. rewrite list_elem_of_filter.
  destruct (String.eqb_spec (file_name f) name) as [E|E]; cbn.
  - split; [by intros [[] _]|by intros [_ []]].
  - split; [by intros [_ ?]|by intros [? _]].
Qed.

Lemma remove_file_names (name : string) (fs : list File) :
  NoDup (map file_name fs) -> NoDup (map file_name (remove_file name fs)).
Proof.
  induction fs as [|f fs IH]; [done|]. cbn [map].
  intros [Hf Hfs]%NoDup_cons. unfold remove_file. rewrite filter_cons.
  fold (remove_file name fs). destruct (decide _); [|by apply IH].
  cbn [map]. apply NoDup_cons. split; [|by apply IH].
  intros (g & Hg & Hin)%list_elem_of_fmap.
  apply remove_file_elem in Hin as [Hin _].
  apply Hf. apply list_elem_of_fmap. by exists g.
Qed.

Lemma remove_file_absent (name : string) (fs : list File) :
  name ∉ map file_name fs -> remove_file name fs = fs.
Proof.
  induction fs as [|f fs IH]; [done|]. cbn [map]. intros Hout.
  unfold remove_file. rewrite filter_cons. fold (remove_file name fs).
  rewrite IH by (intros H; apply Hout; by right).
  rewrite decide_True; [done|].
  destruct (String.eqb_spec (file_name f) name) as [E|]; [|done].
  destruct Hout. rewrite E. by left.
Qed.

(** Removing a log of the tool from a directory without double names
    leaves one log less. *)
Lemma remove_file_logs_length (tool : string) (fs : list File) (f : File) :
  NoDup (map file_name fs) -> f ∈ fs ->
  is_log_of tool (file_name f) = true ->
  S (length (logs_of tool (remove_file (file_name f) fs)))
  = length (logs_of tool fs).
Proof.
  intros Hnd Hin Hlog.
  induction fs as [|g fs IH]; [by apply elem_of_nil in Hin|].
  cbn [map] in Hnd. apply NoDup_cons in Hnd as [Hg Hfs].
  unfold remove_file, logs_of. rewrite !filter_cons.
  fold (remove_file (file_name f) fs). fold (logs_of tool fs).
  apply elem_of_cons in Hin as [<-|Hin].
  - rewrite decide_False by (rewrite String.eqb_refl; cbn; tauto).
    rewrite decide_True by (by rewrite Hlog).
    by rewrite (remove_file_absent _ _ Hg).
  - rewrite decide_True.
    2:{ destruct (String.eqb_spec (file_name g) (file_name f)) as [E|];
          [|done].
        destruct Hg. rewrite E. apply list_elem_of_fmap. by exists f. }
    rewrite filter_cons. fold (logs_of tool (remove_file (file_name f) fs)).
    destruct (decide _); cbn [length]; by rewrite (IH Hfs Hin).
Qed.

(** *** Calls of the operating system *)

Lemma only_dir_changed_refl (dir : string) (os : OS) :
  only_dir_changed dir os os.
Proof. by repeat split. Qed.

Lemma only_dir_changed_trans (dir : string) (os1 os2 os3 : OS) :
  only_dir_changed dir os1 os2 -> only_dir_changed dir os2 os3 ->
  only_dir_changed dir os1 os3.
Proof.
  intros (Ha1 & Hb1 & Hc1 & Hd1 & He1 & Hf1 & Hg1 & Hp1 & Hh1)
         (Ha2 & Hb2 & Hc2 & Hd2 & He2 & Hf2 & Hg2 & Hp2 & Hh2).
  repeat split; try congruence.
  intros p Hp. by rewrite Hp2, Hp1.
Qed.

Lemma dict_has_set {V} (k k' : string) (v : V) (d : dict V) :
  dict_has k' (dict_set k v d) = String.eqb k k' || dict_has k' d.
Proof.
  unfold dict_has. rewrite dict_get_set.
  destruct (String.eqb_spec k k'); by destruct (decide _).
Qed.

Lemma only_dir_changed_set (dir : string) (fs fs' : list File) (os : OS) :
  dir_is dir fs os ->
  only_dir_changed dir os (set_dirs (dict_set dir fs' (dirs os)) os)
  /\ dir_is dir fs' (set_dirs (dict_set dir fs' (dirs os)) os).
Proof.
  intros Hdir. split; [|apply dict_get_set_eq].
  repeat split; cbn [set_dirs dirs].
  - intros p Hp. by apply dict_get_set_ne.
  - rewrite dict_has_set, String.eqb_refl. cbn.
    unfold dict_has. by rewrite Hdir.
Qed.

Lemma os_remove_run (dir name : string) (fs : list File) (os : OS) :
  dir_is dir fs os -> name ∈ map file_name fs ->
  remove_ok os dir name = true ->
  os_remove dir name os
  = (Return tt, set_dirs (dict_set dir (remove_file name fs) (dirs os)) os).
Proof.
  intros Hdir [f Hf]%find_file_elem Hok. unfold os_remove.
  by rewrite Hdir, Hf, Hok.
Qed.

(** Whether it succeeds or not, removing a file changes nothing but the
    directory, which loses at most the files of that name. *)
Lemma os_remove_any (dir name : string) (os : OS) :
  exists o os',
    os_remove dir name os = (o, os')
    /\ only_dir_changed dir os os'
    /\ forall fs, dir_is dir fs os ->
         exists fs', dir_is dir fs' os'
           /\ (forall f, f ∈ fs' -> f ∈ fs)
           /\ (forall f, f ∈ fs -> file_name f <> name -> f ∈ fs').
Proof.
  unfold os_remove.
  destruct (dict_get dir (dirs os)) as [fs|] eqn:Hdir.
  - destruct (find_file name fs) as [f|] eqn:Hf.
    + destruct (remove_ok os dir name).
      * do 2 eexists. split; [reflexivity|].
        destruct (only_dir_changed_set dir fs (remove_file name fs) os Hdir)
          as [Hframe Hafter].
        split; [done|]. intros fs0 Hfs0. exists (remove_file name fs).
        unfold dir_is in Hfs0. rewrite Hdir in Hfs0. injection Hfs0 as <-.
        split; [done|]. split.
        -- by intros g [? ?]%remove_file_elem.
        -- intros g Hg Hne. by apply remove_file_elem.
      * do 2 eexists. split; [reflexivity|].
        split; [apply only_dir_changed_refl|]. intros fs0 Hfs0.
        exists fs0. by repeat split.
    + do 2 eexists. split; [reflexivity|].
      split; [apply only_dir_changed_refl|]. intros fs0 Hfs0.
      exists fs0. by repeat split.
  - do 2 eexists. split; [reflexivity|].
    split; [apply only_dir_changed_refl|]. intros fs0 Hfs0.
    exists fs0. by repeat split.
Qed.

(** *** The sort *)

Lemma insert_log_Permutation (x : string * Z) (l : list (string * Z)) :
  insert_log x l ≡ₚ x :: l.
Proof.
  induction l as [|y l IH]; [done|]. cbn [insert_log].
  destruct (snd x <=? snd y)%Z; [done|].
  rewrite IH. apply Permutation_swap.
Qed.

Lemma sort_logs_Permutation (l : list (string * Z)) : sort_logs l ≡ₚ l.
Proof.
  induction l as [|x l IH]; [done|]. cbn [sort_logs].
  by rewrite insert_log_Permutation, IH.
Qed.

Lemma insert_log_sorted (x : string * Z) (l : list (string * Z)) :
  StronglySorted older l -> StronglySorted older (insert_log x l).
Proof.
  induction 1 as [|y l Hs IH Hall]; cbn [insert_log].
  - repeat constructor.
  - destruct (Z.leb_spec (snd x) (snd y)) as [Hle|Hgt].
    + constructor; [by constructor|]. constructor; [done|].
      eapply List.Forall_impl; [|exact Hall]. intros z Hz.
      unfold older in *. lia.
    + constructor; [done|].
      rewrite List.Forall_forall in *. intros z Hz.
      apply list_elem_of_In in Hz. rewrite insert_log_Permutation in Hz.
      apply elem_of_cons in Hz as [->|Hz].
      * unfold older. lia.
      * apply Hall. by apply list_elem_of_In.
Qed.

Lemma sort_logs_sorted (l : list (string * Z)) :
  StronglySorted older (sort_logs l).
Proof.
  induction l as [|x l IH]; [constructor|]. by apply insert_log_sorted.
Qed.

(** *** The loops of the cleanup *)

Lemma os_path_getmtime_state (dir name : string) (os : OS) :
  snd (os_path_getmtime dir name os) = os.
Proof. unfold os_path_getmtime. by repeat case_match. Qed.

Lemma os_path_getmtime_run (dir name : string) (fs : list File) (os : OS) :
  dir_is dir fs os -> name ∈ map file_name fs ->
  getmtime_ok os dir name = true ->
  os_path_getmtime dir name os = (Return (mtime_of name fs), os).
Proof.
  intros Hdir [f Hf]%find_file_elem Hok.
  unfold os_path_getmtime, mtime_of. by rewrite Hdir, Hf, Hok.
Qed.

(** Collecting the logs reads the directory and changes nothing. *)
Lemma collect_logs_state (self : BMLogger) (names : list string)
    (acc : list (string * Z)) (os : OS) :
  snd (collect_logs self names acc os) = os.
Proof.
  revert acc. induction names as [|name names IH]; intros acc; [done|].
  cbn [collect_logs]. destruct (is_log_of _ name); [|apply IH].
  unfold bind.
  pose proof (os_path_getmtime_state (log_dir self) name os) as Hs.
  destruct (os_path_getmtime _ name os) as [[m|e] os1]; cbn in Hs; subst os1.
  - apply IH.
  - done.
Qed.

Lemma collect_logs_run (self : BMLogger) (fs : list File)
    (names : list string) (acc : list (string * Z)) (os : OS) :
  dir_is (log_dir self) fs os ->
  (forall name, name ∈ names -> name ∈ map file_name fs) ->
  (forall name, name ∈ names -> is_log_of (tool_name self) name = true ->
     getmtime_ok os (log_dir self) name = true) ->
  collect_logs self names acc os
  = (Return (acc ++ log_entries (tool_name self) fs names), os).
Proof.
  intros Hdir. revert acc.
  induction names as [|name names IH]; intros acc Hsub Hok.
  { cbn. by rewrite app_nil_r. }
  cbn [collect_logs]. unfold log_entries. rewrite filter_cons.
  fold (log_entries (tool_name self) fs names).
  destruct (is_log_of (tool_name self) name) eqn:El.
  - rewrite decide_True by done.
    erewrite bind_run.
    2:{ apply (os_path_getmtime_run _ _ fs); [done| |].
        - apply Hsub. by left.
        - apply Hok; [by left|done]. }
    rewrite IH.
    + cbn [map]. fold (log_entries (tool_name self) fs names).
      by rewrite <- app_assoc.
    + intros n Hn. apply Hsub. by right.
    + intros n Hn. apply Hok. by right.
  - rewrite decide_False by (by intros []).
    apply IH.
    + intros n Hn. apply Hsub. by right.
    + intros n Hn. apply Hok. by right.
Qed.

(** A time that cannot be read stops the collection. *)
Lemma collect_logs_raise (self : BMLogger) (fs : list File)
    (names : list string) (acc : list (string * Z)) (os : OS)
    (name : string) :
  dir_is (log_dir self) fs os ->
  name ∈ names -> is_log_of (tool_name self) name = true ->
  getmtime_ok os (log_dir self) name = false ->
  exists e, collect_logs self names acc os = (Raise e, os).
Proof.
  intros Hdir Hin Hlog Hbad. revert acc.
  induction names as [|n names IH]; intros acc;
    [by apply elem_of_nil in Hin|].
  cbn [collect_logs].
  destruct (decide (n = name)) as [->|Hne].
  - rewrite Hlog. unfold bind, os_path_getmtime. rewrite Hdir.
    destruct (find_file name fs); [rewrite Hbad|]; by eexists.
  - apply elem_of_cons in Hin as [->|Hin]; [done|].
    destruct (is_log_of _ n); [|by apply IH].
    unfold bind.
    pose proof (os_path_getmtime_state (log_dir self) n os) as Hs.
    destruct (os_path_getmtime _ n os) as [[m|e] os1]; cbn in Hs; subst os1.
    + by apply IH.
    + by eexists.
Qed.

(** Every collected entry is an entry that was there or the name of a log
    of the tool. *)
Lemma collect_logs_names (self : BMLogger) (names : list string)
    (acc logs : list (string * Z)) (os os' : OS) :
  collect_logs self names acc os = (Return logs, os') ->
  forall x, x ∈ logs ->
    x ∈ acc \/ is_log_of (tool_name self) (fst x) = true.
Proof.
  revert acc os. induction names as [|n names IH]; intros acc os Hrun x Hx.
  { cbn in Hrun. injection Hrun as <- _. by left. }
  cbn [collect_logs] in Hrun.
  destruct (is_log_of (tool_name self) n) eqn:El; [|by eapply IH].
  unfold bind in Hrun.
  destruct (os_path_getmtime _ n os) as [[m|e] os1]; [|done].
  destruct (IH _ _ Hrun x Hx) as [Hacc|Hlog]; [|by right].
  apply elem_of_app in Hacc as [Hacc|Hnew]; [by left|].
  apply list_elem_of_singleton in Hnew as ->. by right.
Qed.

Lemma try_remove_run (dir name : string) (os : OS) :
  exists os',
    try_except (os_remove dir name) (fun _ => ret tt) os = (Return tt, os')
    /\ only_dir_changed dir os os'
    /\ forall fs, dir_is dir fs os ->
         exists fs', dir_is dir fs' os'
           /\ (forall f, f ∈ fs' -> f ∈ fs)
           /\ (forall f, f ∈ fs -> file_name f <> name -> f ∈ fs').
Proof.
  destruct (os_remove_any dir name os) as (o & os' & Hrun & Hframe & Hfs).
  exists os'. unfold try_except. rewrite Hrun.
  split; [by destruct o as [[]|]|]. by split.
Qed.

(** Whatever the operating system answers, the loop returns, and it
    removes no file but the ones it was given. *)
Lemma remove_old_logs_any (self : BMLogger) (logs : list (string * Z))
    (os : OS) :
  exists os',
    remove_old_logs self logs os = (Return tt, os')
    /\ only_dir_changed (log_dir self) os os'
    /\ forall fs, dir_is (log_dir self) fs os ->
         exists fs', dir_is (log_dir self) fs' os'
           /\ (forall f, f ∈ fs' -> f ∈ fs)
           /\ (forall f, f ∈ fs -> file_name f ∉ map fst logs -> f ∈ fs').
Proof.
  revert os. induction logs as [|x logs IH]; intros os.
  { exists os. split; [done|]. split; [apply only_dir_changed_refl|].
    intros fs Hfs. exists fs. by repeat split. }
  cbn [remove_old_logs].
  destruct (MAX_LOGS_PER_TOOL <=? length (x :: logs)).
  - destruct (try_remove_run (log_dir self) (fst x) os)
      as (os1 & Hrun1 & Hframe1 & Hfs1).
    destruct (IH os1) as (os2 & Hrun2 & Hframe2 & Hfs2).
    exists os2. erewrite bind_run by exact Hrun1.
    split; [done|]. split; [by eapply only_dir_changed_trans|].
    intros fs Hfs.
    destruct (Hfs1 fs Hfs) as (fs1 & Hdir1 & Hsub1 & Hkeep1).
    destruct (Hfs2 fs1 Hdir1) as (fs2 & Hdir2 & Hsub2 & Hkeep2).
    exists fs2. split; [done|]. split.
    + intros f Hf. by apply Hsub1, Hsub2.
    + intros f Hf Hout. cbn [map] in Hout.
      apply Hkeep2; [apply Hkeep1; [done|]|].
      * intros E. apply Hout. rewrite E. by left.
      * intros Hin. apply Hout. by right.
  - exists os. split; [done|]. split; [apply only_dir_changed_refl|].
    intros fs Hfs. exists fs. by repeat split.
Qed.

(** With fewer logs than the limit the loop does nothing. *)
Lemma remove_old_logs_few (self : BMLogger) (logs : list (string * Z))
    (os : OS) :
  length logs < MAX_LOGS_PER_TOOL ->
  remove_old_logs self logs os = (Return tt, os).
Proof.
  intros Hlen. destruct logs as [|x logs]; [done|].
  cbn [remove_old_logs].
  destruct (Nat.leb_spec MAX_LOGS_PER_TOOL (length (x :: logs))); [lia|done].
Qed.

(** When every removal succeeds the loop removes the first logs of its
    list, as many as there are above the limit less one. *)
Lemma remove_old_logs_run (self : BMLogger) (logs : list (string * Z))
    (fs : list File) (os : OS) :
  dir_is (log_dir self) fs os ->
  NoDup (map file_name fs) ->
  NoDup (map fst logs) ->
  (forall x, x ∈ logs ->
     fst x ∈ map file_name fs
     /\ is_log_of (tool_name self) (fst x) = true
     /\ remove_ok os (log_dir self) (fst x) = true) ->
  exists os' fs',
    remove_old_logs self logs os = (Return tt, os')
    /\ dir_is (log_dir self) fs' os'
    /\ only_dir_changed (log_dir self) os os'
    /\ (forall f, f ∈ fs' <->
          f ∈ fs
          /\ file_name f
             ∉ map fst (take (length logs - (MAX_LOGS_PER_TOOL - 1)) logs))
    /\ length (logs_of (tool_name self) fs')
       + (length logs - (MAX_LOGS_PER_TOOL - 1))
       = length (logs_of (tool_name self) fs).
Proof.
  revert fs os. induction logs as [|x logs IH]; intros fs os Hdir Hnd Hnames Hall.
  { exists os, fs. split; [done|]. split; [done|].
    split; [apply only_dir_changed_refl|]. split.
    - intros f. cbn. split; [intros; split; [done|apply not_elem_of_nil]|tauto].
    - cbn. lia. }
  cbn [remove_old_logs].
  destruct (Nat.leb_spec MAX_LOGS_PER_TOOL (length (x :: logs))) as [Hge|Hlt].
  - destruct (Hall x ltac:(by left)) as (Hx & Hlog & Hok).
    cbn [map] in Hnames. apply NoDup_cons in Hnames as [Hxout Hnames].
    pose proof (os_remove_run _ _ fs os Hdir Hx Hok) as Hrem.
    destruct (only_dir_changed_set (log_dir self) fs
                (remove_file (fst x) fs) os Hdir) as [Hframe1 Hdir1].
    set (os1 := set_dirs _ os) in *.
    destruct (IH (remove_file (fst x) fs) os1 Hdir1
                (remove_file_names _ _ Hnd) Hnames)
      as (os2 & fs2 & Hrun2 & Hdir2 & Hframe2 & Hmem2 & Hlen2).
    { intros y Hy. destruct (Hall y ltac:(by right)) as (Hy1 & Hy2 & Hy3).
      split; [|by split].
      apply list_elem_of_fmap in Hy1 as (g & Hg & Hgin).
      apply list_elem_of_fmap. exists g. split; [done|].
      apply remove_file_elem. split; [done|].
      intros E. apply Hxout. rewrite <- E, <- Hg.
      apply list_elem_of_fmap. by exists y. }
    exists os2, fs2.
    unfold try_except at 1. unfold bind at 1. rewrite Hrem.
    split; [exact Hrun2|]. split; [done|].
    split; [by eapply only_dir_changed_trans|].
    cbn [length] in *. unfold MAX_LOGS_PER_TOOL in *.
    replace (S (length logs) - (10 - 1)) with (S (length logs - (10 - 1)))
      by lia.
    cbn [take map]. split.
    + intros f. rewrite Hmem2, remove_file_elem, not_elem_of_cons. tauto.
    + apply list_elem_of_fmap in Hx as (g & Hg & Hgin).
      rewrite Hg in *.
      pose proof (remove_file_logs_length (tool_name self) fs g Hnd Hgin Hlog).
      lia.
  - exists os, fs. split; [done|]. split; [done|].
    split; [apply only_dir_changed_refl|].
    cbn [length] in *. unfold MAX_LOGS_PER_TOOL in *.
    replace (S (length logs) - (10 - 1)) with 0 by lia.
    cbn [take map]. split.
    + intros f. split; [intros; split; [done|apply not_elem_of_nil]|tauto].
    + lia.
Qed.

Lemma collect_logs_length (self : BMLogger) (names : list string)
    (acc logs : list (string * Z)) (os os' : OS) :
  collect_logs self names acc os = (Return logs, os') ->
  length logs
  = length acc
    + length (filter (fun name => is_log_of (tool_name self) name) names).
Proof.
  revert acc os. induction names as [|n names IH]; intros acc os Hrun.
  { cbn in Hrun. injection Hrun as <- _. cbn. lia. }
  cbn [collect_logs] in Hrun. rewrite filter_cons.
  destruct (is_log_of (tool_name self) n) eqn:El.
  - rewrite decide_True by done. unfold bind in Hrun.
    destruct (os_path_getmtime _ n os) as [[m|e] os1]; [|done].
    rewrite (IH _ _ Hrun), length_app. cbn. lia.
  - rewrite decide_False by (by intros []). by eapply IH.
Qed.

Lemma filter_file_names (tool : string) (fs : list File) :
  filter (fun name => is_log_of tool name) (map file_name fs)
  = map file_name (logs_of tool fs).
Proof.
  unfold logs_of. induction fs as [|f fs IH]; [done|].
  cbn [map]. rewrite !filter_cons, IH.
  by destruct (decide _).
Qed.

Lemma find_file_NoDup (fs : list File) (f : File) :
  NoDup (map file_name fs) -> f ∈ fs ->
  find_file (file_name f) fs = Some f.
Proof.
  intros Hnd Hin. induction fs as [|g fs IH]; [by apply elem_of_nil in Hin|].
  cbn [map] in Hnd. apply NoDup_cons in Hnd as [Hg Hfs].
  unfold find_file. cbn [find]. fold (find_file (file_name f) fs).
  apply elem_of_cons in Hin as [->|Hin].
  - by rewrite String.eqb_refl.
  - destruct (String.eqb_spec (file_name g) (file_name f)) as [E|_].
    + destruct Hg. rewrite E. apply list_elem_of_fmap. by exists f.
    + by apply IH.
Qed.

Lemma log_entries_elem (tool : string) (fs : list File)
    (names : list string) (x : string * Z) :
  x ∈ log_entries tool fs names
  <-> fst x ∈ names /\ is_log_of tool (fst x) = true
      /\ snd x = mtime_of (fst x) fs.
Proof.
  unfold log_entries. rewrite list_elem_of_fmap. split.
  - intros (name & -> & Hin). apply list_elem_of_filter in Hin as [Hlog Hin].
    cbn. split; [done|]. split; [|done]. by apply Is_true_true.
  - intros (Hin & Hlog & Hm). exists (fst x). split.
    + destruct x as [n m]. cbn in *. by rewrite Hm.
    + apply list_elem_of_filter. split; [by apply Is_true_true|done].
Qed.

Lemma log_entries_names (tool : string) (fs : list File)
    (names : list string) :
  map fst (log_entries tool fs names)
  = filter (fun name => is_log_of tool name) names.
Proof.
  unfold log_entries. rewrite map_map. cbn. apply map_id.
Qed.

Lemma os_listdir_run (dir : string) (fs : list File) (os : OS) :
  dir_is dir fs os -> listdir_ok os dir = true ->
  os_listdir dir os = (Return (map file_name fs), os).
Proof. intros Hdir Hok. unfold os_listdir. by rewrite Hdir, Hok. Qed.

(** The cleanup when every call succeeds: the logs of the tool are sorted
    by time and the first of them are removed, as many as there are above
    the limit less one. *)
Lemma cleanup_run (self : BMLogger) (os : OS) (fs : list File) :
  dir_is (log_dir self) fs os ->
  NoDup (map file_name fs) ->
  listdir_ok os (log_dir self) = true ->
  (forall f, f ∈ logs_of (tool_name self) fs ->
     getmtime_ok os (log_dir self) (file_name f) = true
     /\ remove_ok os (log_dir self) (file_name f) = true) ->
  exists os' fs' logs,
    _cleanup_old_logs self os = (Return tt, os')
    /\ dir_is (log_dir self) fs' os'
    /\ only_dir_changed (log_dir self) os os'
    /\ logs ≡ₚ log_entries (tool_name self) fs (map file_name fs)
    /\ StronglySorted older logs
    /\ length logs = length (logs_of (tool_name self) fs)
    /\ (forall f, f ∈ fs' <->
           f ∈ fs
           /\ file_name f
              ∉ map fst (take (length logs - (MAX_LOGS_PER_TOOL - 1)) logs))
    /\ length (logs_of (tool_name self) fs')
        + (length logs - (MAX_LOGS_PER_TOOL - 1))
        = length (logs_of (tool_name self) fs)
    /\ (forall f, f ∈ fs ->
           is_log_of (tool_name self) (file_name f) = false -> f ∈ fs').
Proof.
  intros Hdir Hnd Hlist Hok.
  set (tool := tool_name self) in *.
  set (names := map file_name fs).
  set (entries := log_entries tool fs names).
  assert (forall name, name ∈ names -> is_log_of tool name = true ->
            exists f, f ∈ logs_of tool fs /\ file_name f = name) as Hlogs.
  { intros name (f & -> & Hf)%list_elem_of_fmap Hlog. exists f.
    split; [|done]. apply list_elem_of_filter.
    split; [by apply Is_true_true|done]. }
  assert (collect_logs self names [] os = (Return entries, os)) as Hcollect.
  { apply (collect_logs_run self fs names [] os Hdir); [done|].
    intros name Hin Hlog. destruct (Hlogs name Hin Hlog) as (f & Hf & <-).
    by apply Hok. }
  pose proof (sort_logs_Permutation entries) as Hperm.
  pose proof (sort_logs_sorted entries) as Hsorted.
  set (logs := sort_logs entries) in *.
  assert (length logs = length (logs_of tool fs)) as Hlength.
  { rewrite Hperm. unfold entries.
    rewrite <- (length_map fst), log_entries_names.
    unfold names. by rewrite filter_file_names, length_map. }
  destruct (remove_old_logs_run self logs fs os Hdir Hnd)
    as (os' & fs' & Hrun & Hdir' & Hframe & Hmem & Hlen).
  { rewrite Hperm. unfold entries. rewrite log_entries_names.
    by apply NoDup_filter. }
  { intros x Hx. rewrite Hperm in Hx.
    apply log_entries_elem in Hx as (Hin & Hlog & _).
    split; [done|]. split; [done|].
    destruct (Hlogs _ Hin Hlog) as (f & Hf & <-). by apply Hok. }
  exists os', fs', logs. split.
  { unfold _cleanup_old_logs, try_except.
    erewrite bind_run by (by apply (os_listdir_run _ fs)).
    erewrite bind_run by exact Hcollect.
    fold logs. by rewrite Hrun. }
  do 7 (split; [done|]).
  intros f Hf Hnolog. apply Hmem. split; [done|].
  intros (x & Hx & Hin)%list_elem_of_fmap.
  apply elem_of_take in Hin as (i & Hin & _).
  apply list_elem_of_lookup_2 in Hin. rewrite Hperm in Hin.
  apply log_entries_elem in Hin as (_ & Hlog & _). congruence.
Qed.

(** X26. The cleanup keeps the newest logs. In a log directory without
    double names that can be listed, and in which the time of every log of
    the tool can be read and every such log can be removed,
    [_cleanup_old_logs] leaves at most one log less than
    [MAX_LOGS_PER_TOOL] for the tool, and as many as there were when
    there were fewer. No file is added, files that are not logs of the
    tool stay, nothing but the directory changes, and every file that is
    removed is at most as new as every log of the tool that is kept. *)
Theorem cleanup_keeps_newest (self : BMLogger) (os : OS) (fs : list File) :
  dir_is (log_dir self) fs os ->
  NoDup (map file_name fs) ->
  listdir_ok os (log_dir self) = true ->
  (forall f, f ∈ logs_of (tool_name self) fs ->
     getmtime_ok os (log_dir self) (file_name f) = true
     /\ remove_ok os (log_dir self) (file_name f) = true) ->
  exists os' fs',
    _cleanup_old_logs self os = (Return tt, os')
    /\ dir_is (log_dir self) fs' os'
    /\ only_dir_changed (log_dir self) os os'
    /\ length (logs_of (tool_name self) fs')
       = Nat.min (length (logs_of (tool_name self) fs))
                 (MAX_LOGS_PER_TOOL - 1)
    /\ (forall f, f ∈ fs' -> f ∈ fs)
    /\ (forall f, f ∈ fs -> is_log_of (tool_name self) (file_name f) = false ->
          f ∈ fs')
    /\ (forall f g, f ∈ fs -> f ∉ fs' -> g ∈ logs_of (tool_name self) fs' ->
          (file_mtime f <= file_mtime g)%Z).
Proof.
  intros Hdir Hnd Hlist Hok.
  destruct (cleanup_run self os fs Hdir Hnd Hlist Hok)
    as (os' & fs' & logs & Hrun & Hdir' & Hframe & Hperm & Hsorted & Hlength
        & Hmem & Hlen & Hkeep).
  set (tool := tool_name self) in *.
  set (removed := take (length logs - (MAX_LOGS_PER_TOOL - 1)) logs) in *.
  exists os', fs'. split; [done|]. split; [done|]. split; [done|]. split.
  { unfold MAX_LOGS_PER_TOOL in *. lia. }
  split; [intros f Hf; by apply Hmem|]. split; [done|].
  intros f g Hf Hgone Hg.
  apply list_elem_of_filter in Hg as [Hglog Hg].
  apply Is_true_true in Hglog.
  apply Hmem in Hg as [Hg Hgkept].
  destruct (decide (file_name f ∈ map fst removed)) as [Hrem|Hkept];
    [|destruct Hgone; by apply Hmem].
  apply list_elem_of_fmap in Hrem as (x & Hx & Hxrem).
  assert (x ∈ logs) as Hxin.
  { apply elem_of_take in Hxrem as (i & Hi & _).
    by eapply list_elem_of_lookup_2. }
  rewrite Hperm in Hxin.
  apply log_entries_elem in Hxin as (_ & _ & Hxm).
  rewrite <- Hx in Hxm. unfold mtime_of in Hxm.
  rewrite (find_file_NoDup fs f Hnd Hf) in Hxm.
  set (y := (file_name g, file_mtime g)).
  assert (y ∈ logs) as Hyin.
  { rewrite Hperm. apply log_entries_elem. cbn.
    split; [apply list_elem_of_fmap; by exists g|]. split; [done|].
    unfold mtime_of. by rewrite (find_file_NoDup fs g Hnd Hg). }
  rewrite <- (take_drop (length logs - (MAX_LOGS_PER_TOOL - 1)) logs)
    in Hyin, Hsorted.
  fold removed in Hyin, Hsorted.
  apply elem_of_app in Hyin as [Hyrem|Hykept].
  { destruct Hgkept. apply list_elem_of_fmap. by exists y. }
  pose proof (StronglySorted_app_1_elem_of _ _ _ x y Hsorted Hxrem Hykept)
    as Hle.
  unfold older in Hle. cbn in Hle. by rewrite Hxm in Hle.
Qed.

Lemma cleanup_keeps_newest_witness :
  exists os' fs',
    _cleanup_old_logs logger_example os_example = (Return tt, os')
    /\ dir_is "C:\logs" fs' os'
    /\ length (logs_of "AutoDim" fs') = 9.
Proof.
  destruct (cleanup_keeps_newest logger_example os_example files_example
              eq_refl)
    as (os' & fs' & Hrun & Hdir & _ & Hlen & _).
  - apply (bool_decide_unpack _). vm_compute. reflexivity.
  - reflexivity.
  - intros f _. split; reflexivity.
  - exists os', fs'. split; [exact Hrun|]. split; [exact Hdir|].
    etransitivity; [exact Hlen|]. vm_compute. reflexivity.
Defined.

(** X27. The cleanup never fails and never harms. Whatever the operating
    system answers, [_cleanup_old_logs] returns without an exception and
    changes nothing but the files of the log directory; no file is added
    and every file that is not a log of the tool stays. When the directory
    is missing or cannot be listed, when the time of one log of the tool
    cannot be read, or when there are fewer logs of the tool than
    [MAX_LOGS_PER_TOOL], nothing is removed at all. *)
Theorem cleanup_never_fails (self : BMLogger) (os : OS) :
  exists os',
    _cleanup_old_logs self os = (Return tt, os')
    /\ only_dir_changed (log_dir self) os os'
    /\ (dict_get (log_dir self) (dirs os) = None -> os' = os)
    /\ forall fs, dir_is (log_dir self) fs os ->
         (exists fs',
            dir_is (log_dir self) fs' os'
            /\ (forall f, f ∈ fs' -> f ∈ fs)
            /\ (forall f, f ∈ fs ->
                  is_log_of (tool_name self) (file_name f) = false ->
                  f ∈ fs'))
         /\ (listdir_ok os (log_dir self) = false
             \/ (exists f, f ∈ logs_of (tool_name self) fs
                           /\ getmtime_ok os (log_dir self) (file_name f)
                              = false)
             \/ length (logs_of (tool_name self) fs) < MAX_LOGS_PER_TOOL ->
             os' = os).
Proof.
  unfold _cleanup_old_logs, try_except.
  assert (forall fs, dir_is (log_dir self) fs os ->
            (exists fs', dir_is (log_dir self) fs' os
               /\ (forall f, f ∈ fs' -> f ∈ fs)
               /\ (forall f, f ∈ fs ->
                     is_log_of (tool_name self) (file_name f) = false ->
                     f ∈ fs'))) as Hsame.
  { intros fs Hfs. exists fs. by repeat split. }
  unfold bind at 1. unfold os_listdir at 1.
  destruct (dict_get (log_dir self) (dirs os)) as [fs|] eqn:Hdir.
  2:{ exists os. split; [done|]. split; [apply only_dir_changed_refl|].
      split; [done|]. intros fs Hfs. split; [by apply Hsame|done]. }
  destruct (listdir_ok os (log_dir self)) eqn:Hlist.
  2:{ exists os. split; [done|]. split; [apply only_dir_changed_refl|].
      split; [done|]. intros fs0 Hfs0. split; [by apply Hsame|done]. }
  unfold bind at 1.
  pose proof (collect_logs_state self (map file_name fs) [] os) as Hstate.
  destruct (collect_logs self (map file_name fs) [] os) as [[logs|e] os1]
    eqn:Hcollect; cbn in Hstate; subst os1.
  2:{ exists os. split; [done|]. split; [apply only_dir_changed_refl|].
      split; [done|]. intros fs0 Hfs0. split; [by apply Hsame|done]. }
  destruct (remove_old_logs_any self (sort_logs logs) os)
    as (os' & Hrun & Hframe & Hfiles).
  exists os'. rewrite Hrun. split; [done|]. split; [done|].
  split; [done|]. intros fs0 Hfs0.
  unfold dir_is in Hfs0. rewrite Hdir in Hfs0. injection Hfs0 as <-.
  split.
  - destruct (Hfiles fs Hdir) as (fs' & Hdir' & Hsub & Hkeep).
    exists fs'. split; [done|]. split; [done|].
    intros f Hf Hnolog. apply Hkeep; [done|].
    intros (x & Hx & Hin)%list_elem_of_fmap.
    rewrite sort_logs_Permutation in Hin.
    destruct (collect_logs_names _ _ _ _ _ _ Hcollect x Hin) as [Hnil|Hlog].
    + by apply elem_of_nil in Hnil.
    + congruence.
  - intros [Hbad|[(f & Hf & Hbad)|Hfew]].
    + done.
    + apply list_elem_of_filter in Hf as [Hlog Hf].
      apply Is_true_true in Hlog.
      destruct (collect_logs_raise self fs (map file_name fs) [] os
                  (file_name f) Hdir) as [e He]; [|done|done|congruence].
      apply list_elem_of_fmap. by exists f.
    + rewrite remove_old_logs_few in Hrun; [congruence|].
      rewrite (Permutation_length (sort_logs_Permutation logs)).
      rewrite (collect_logs_length _ _ _ _ _ _ Hcollect).
      rewrite filter_file_names, length_map. cbn. exact Hfew.
Qed.

Lemma cleanup_never_fails_witness :
  _cleanup_old_logs logger_example os_unreadable_example
  = (Return tt, os_unreadable_example).
Proof.
  destruct (cleanup_never_fails logger_example os_unreadable_example)
    as (os' & Hrun & _ & _ & Hfiles).
  destruct (Hfiles files_example eq_refl) as [_ Hsame].
  rewrite Hrun, Hsame; [reflexivity|].
  right. left. exists (log_example "AutoDim" "2024-01-11" 11).
  split; [|reflexivity].
  apply list_elem_of_filter. split; [vm_compute; exact I|].
  apply list_elem_of_In. vm_compute. tauto.
Defined.

(** *** The log directory *)

Lemma dict_has_get {V} (k : string) (d : dict V) :
  dict_has k d = true <-> exists v, dict_get k d = Some v.
Proof.
  unfold dict_has. destruct (dict_get k d) as [v|].
  - split; [by exists v|done].
  - split; [done|by intros [v ?]].
Qed.

Lemma dict_has_false {V} (k : string) (d : dict V) :
  dict_has k d = false <-> dict_get k d = None.
Proof. unfold dict_has. by destruct (dict_get k d). Qed.

Lemma files_kept_refl (os : OS) : files_kept os os.
Proof.
  do 7 (split; [done|]). split; [done|]. split; [by left|]. split.
  - intros q fs fs' H1 H2 f _. by simplify_eq.
  - intros q fs' H1 H2. congruence.
Qed.

Lemma files_kept_trans (os1 os2 os3 : OS) :
  files_kept os1 os2 -> files_kept os2 os3 -> files_kept os1 os3.
Proof.
  intros (Ha1 & Hb1 & Hc1 & Hd1 & He1 & Hf1 & Hg1 & Hk1 & Hn1 & Hfs1 & Hnew1)
         (Ha2 & Hb2 & Hc2 & Hd2 & He2 & Hf2 & Hg2 & Hk2 & Hn2 & Hfs2 & Hnew2).
  do 7 (split; [congruence|]). split; [|split; [|split]].
  - intros q Hq. by apply Hk2, Hk1.
  - intros q Hq. destruct (Hn2 q Hq) as [H|H]; [by apply Hn1|].
    right. by rewrite <- Hb1.
  - intros q fs fs' Hq1 Hq3 f Hne.
    assert (dict_has q (dirs os2) = true) as [fs2 Hq2]%dict_has_get.
    { apply Hk1. apply dict_has_get. by eexists. }
    rewrite (Hfs2 q fs2 fs' Hq2 Hq3 f Hne).
    apply (Hfs1 q fs fs2 Hq1 Hq2 f Hne).
  - intros q fs' Hq1 Hq3 f Hf.
    destruct (dict_get q (dirs os2)) as [fs2|] eqn:Hq2.
    + destruct (decide (file_name f = ".write_test")) as [|Hne]; [done|].
      apply (Hnew1 q fs2 Hq1 Hq2 f).
      by apply (Hfs2 q fs2 fs' Hq2 Hq3 f Hne).
    + by apply (Hnew2 q fs' Hq2 Hq3 f).
Qed.

Lemma probed_refl (os : OS) : probed os os.
Proof. split; [apply files_kept_refl|done]. Qed.

Lemma probed_trans (os1 os2 os3 : OS) :
  probed os1 os2 -> probed os2 os3 -> probed os1 os3.
Proof.
  intros [Hk1 Hu1] [Hk2 Hu2]. split; [by eapply files_kept_trans|].
  intros q. by rewrite Hu2, Hu1.
Qed.

Lemma files_kept_answers (os os' : OS) (path : string) :
  files_kept os os' ->
  parent_exists os' path = parent_exists os path
  /\ makedirs_ok os' path = makedirs_ok os path
  /\ open_ok os' path ".write_test" = open_ok os path ".write_test"
  /\ remove_ok os' path ".write_test" = remove_ok os path ".write_test".
Proof. by intros (-> & -> & _ & _ & -> & -> & _). Qed.

Lemma files_kept_has (os os' : OS) (path : string) :
  files_kept os os' -> dict_has path (dirs os) = true ->
  dict_has path (dirs os') = true.
Proof. intros (_ & _ & _ & _ & _ & _ & _ & Hk & _). apply Hk. Qed.

Lemma files_kept_made (os os' : OS) (path : string) :
  files_kept os os' -> dict_has path (dirs os') = true ->
  dict_has path (dirs os) = true \/ makedirs_ok os path = true.
Proof. intros (_ & _ & _ & _ & _ & _ & _ & _ & Hn & _). apply Hn. Qed.

Lemma put_file_elem (t : File) (fs : list File) (f : File) :
  file_name f <> file_name t -> (f ∈ put_file t fs <-> f ∈ fs).
Proof.
  intros Hne. unfold put_file. destruct (find_file (file_name t) fs).
  - rewrite list_elem_of_fmap. split.
    + intros (g & Hfg & Hg).
      destruct (String.eqb_spec (file_name g) (file_name t)); by subst.
    + intros Hf. exists f. split; [|done].
      destruct (String.eqb_spec (file_name f) (file_name t)); done.
  - rewrite elem_of_app, list_elem_of_singleton. split; [|tauto].
    intros [Hf | ->]; done.
Qed.

Lemma put_file_name (t : File) (fs : list File) :
  file_name t ∈ map file_name (put_file t fs).
Proof.
  unfold put_file. destruct (find_file (file_name t) fs) as [g|] eqn:E.
  - apply find_file_Some in E as [Hg Hname].
    apply list_elem_of_fmap. exists t. split; [done|].
    apply list_elem_of_fmap. exists g. split; [|done].
    by rewrite Hname, String.eqb_refl.
  - apply list_elem_of_fmap. exists t. split; [done|].
    apply elem_of_app. right. by left.
Qed.

(** One change of a directory that looking for a log directory makes. *)
Lemma files_kept_set (path : string) (fs' : list File) (os : OS) :
  match dict_get path (dirs os) with
  | Some fs =>
      forall f, file_name f <> ".write_test" -> (f ∈ fs' <-> f ∈ fs)
  | None =>
      makedirs_ok os path = true
      /\ forall f, f ∈ fs' -> file_name f = ".write_test"
  end ->
  files_kept os (set_dirs (dict_set path fs' (dirs os)) os)
  /\ dir_is path fs' (set_dirs (dict_set path fs' (dirs os)) os).
Proof.
  intros H. split; [|apply dict_get_set_eq].
  do 7 (split; [done|]). cbn [set_dirs dirs].
  split; [|split; [|split]].
  - intros q Hq. rewrite dict_has_set, Hq. apply orb_true_r.
  - intros q. rewrite dict_has_set.
    destruct (String.eqb_spec path q) as [<-|Hne]; cbn; [|by left].
    intros _. unfold dict_has.
    destruct (dict_get path (dirs os)); [by left|].
    right. by destruct H as (-> & _).
  - intros q fs0 fs1 Hq0 Hq1 f Hne. rewrite dict_get_set in Hq1.
    destruct (decide (path = q)) as [<-|Hpq].
    + rewrite Hq0 in H. injection Hq1 as <-. by apply H.
    + by simplify_eq.
  - intros q fs1 Hq0 Hq1 f Hf. rewrite dict_get_set in Hq1.
    destruct (decide (path = q)) as [<-|Hpq]; [|congruence].
    rewrite Hq0 in H. injection Hq1 as <-. by apply H.
Qed.

(** A change that leaves the same paths usable: a directory is made only
    where its parent exists. *)
Lemma probed_set (path : string) (fs' : list File) (os : OS) :
  match dict_get path (dirs os) with
  | Some fs =>
      forall f, file_name f <> ".write_test" -> (f ∈ fs' <-> f ∈ fs)
  | None =>
      parent_exists os path = true /\ makedirs_ok os path = true
      /\ forall f, f ∈ fs' -> file_name f = ".write_test"
  end ->
  probed os (set_dirs (dict_set path fs' (dirs os)) os)
  /\ dir_is path fs' (set_dirs (dict_set path fs' (dirs os)) os).
Proof.
  intros H. destruct (files_kept_set path fs' os) as [Hk Hd].
  { destruct (dict_get path (dirs os)); [done|]. by destruct H as (_ & ? & ?). }
  split; [|done]. split; [done|].
  intros q. unfold usable.
  cbn [set_dirs dirs parent_exists makedirs_ok open_ok remove_ok].
  rewrite dict_has_set. destruct (String.eqb_spec path q) as [<-|Hne];
    [|done].
  unfold dict_has. destruct (dict_get path (dirs os)); [done|].
  destruct H as (-> & -> & _). done.
Qed.

(** The three calls of the test, each in a state in which it can be
    made. *)
Lemma os_makedirs_probe (path : string) (os : OS) :
  dict_get path (dirs os) = None -> parent_exists os path = true ->
  exists o os',
    os_makedirs path os = (o, os')
    /\ probed os os'
    /\ (if makedirs_ok os path
        then o = Return tt /\ dir_is path [] os'
        else exists e, o = Raise e).
Proof.
  intros Hnone Hparent. unfold os_makedirs, dict_has. rewrite Hnone.
  destruct (makedirs_ok os path) eqn:Hmk.
  - do 2 eexists. split; [reflexivity|].
    destruct (probed_set path [] os) as [Hp Hd].
    { rewrite Hnone. split; [done|]. split; [done|].
      intros f Hf. by apply elem_of_nil in Hf. }
    by split.
  - do 2 eexists. split; [reflexivity|]. split; [apply probed_refl|].
    by eexists.
Qed.

Lemma open_write_probe (path : string) (fs : list File) (os : OS) :
  dir_is path fs os ->
  exists o os',
    open_write path ".write_test" false ["test"] os = (o, os')
    /\ probed os os'
    /\ (if open_ok os path ".write_test"
        then o = Return tt
             /\ exists fs', dir_is path fs' os'
                            /\ ".write_test" ∈ map file_name fs'
        else exists e, o = Raise e).
Proof.
  intros Hdir. unfold open_write. rewrite Hdir.
  destruct (open_ok os path ".write_test") eqn:Hop.
  - do 2 eexists. split; [reflexivity|].
    set (t := {| file_name := ".write_test" |}).
    destruct (probed_set path (put_file t fs) os) as [Hp Hd].
    { rewrite Hdir. intros f Hne. by apply put_file_elem. }
    split; [done|]. split; [done|]. eexists. split; [exact Hd|].
    apply (put_file_name t).
  - do 2 eexists. split; [reflexivity|]. split; [apply probed_refl|].
    by eexists.
Qed.

Lemma os_remove_probe (path : string) (fs : list File) (os : OS) :
  dir_is path fs os -> ".write_test" ∈ map file_name fs ->
  exists o os',
    os_remove path ".write_test" os = (o, os')
    /\ probed os os'
    /\ dict_has path (dirs os') = true
    /\ (if remove_ok os path ".write_test"
        then o = Return tt else exists e, o = Raise e).
Proof.
  intros Hdir [f Hf]%find_file_elem. unfold os_remove. rewrite Hdir, Hf.
  destruct (remove_ok os path ".write_test") eqn:Hrm.
  - do 2 eexists. split; [reflexivity|].
    destruct (probed_set path (remove_file ".write_test" fs) os) as [Hp Hd].
    { rewrite Hdir. intros g Hne. rewrite remove_file_elem. tauto. }
    split; [done|]. split; [|done]. apply dict_has_get. by eexists.
  - do 2 eexists. split; [reflexivity|]. split; [apply probed_refl|].
    split; [|by eexists]. apply dict_has_get. by eexists.
Qed.

(** The test of a directory that exists: the test file is written and
    removed. *)
Lemma write_test_probe (path : string) (fs : list File) (os : OS) :
  dir_is path fs os ->
  exists o os',
    (open_write path ".write_test" false ["test"] >>
     os_remove path ".write_test" >>
     ret (Some path)) os = (o, os')
    /\ probed os os'
    /\ dict_has path (dirs os') = true
    /\ (if open_ok os path ".write_test" && remove_ok os path ".write_test"
        then o = Return (Some path) else exists e, o = Raise e).
Proof.
  intros Hdir.
  destruct (open_write_probe path fs os Hdir) as (o1 & os1 & Hrun1 & Hp1 & H1).
  assert (dict_has path (dirs os1) = true) as Hhas1.
  { apply (files_kept_has os os1); [apply Hp1|].
    apply dict_has_get. by eexists. }
  destruct (open_ok os path ".write_test") eqn:Hop.
  - destruct H1 as (-> & fs1 & Hdir1 & Htest).
    destruct (os_remove_probe path fs1 os1 Hdir1 Htest)
      as (o2 & os2 & Hrun2 & Hp2 & Hhas2 & H2).
    destruct (files_kept_answers os os1 path (proj1 Hp1)) as (_ & _ & _ & Hrm).
    rewrite Hrm in H2. cbn [andb].
    destruct (remove_ok os path ".write_test").
    + subst o2. exists (Return (Some path)), os2.
      erewrite bind_run by exact Hrun1.
      erewrite bind_run by exact Hrun2.
      split; [done|]. split; [by eapply probed_trans|]. by split.
    + destruct H2 as [e ->]. exists (Raise e), os2.
      erewrite bind_run by exact Hrun1.
      erewrite bind_raise by exact Hrun2.
      split; [done|]. split; [by eapply probed_trans|].
      split; [done|]. by eexists.
  - destruct H1 as [e ->]. exists (Raise e), os1.
    erewrite bind_raise by exact Hrun1.
    split; [done|]. split; [done|]. split; [done|]. by eexists.
Qed.

Lemma os_path_exists_run (path : string) (os : OS) :
  os_path_exists path os = (Return (dict_has path (dirs os)), os).
Proof. reflexivity. Qed.

(** One path is taken when it is usable and passed over otherwise, with
    any exception caught. *)
Lemma try_log_path_spec (path : string) (os : OS) :
  exists os',
    try_log_path path os
    = (Return (if usable os path then Some path else None), os')
    /\ probed os os'
    /\ (usable os path = true -> dict_has path (dirs os') = true).
Proof.
  unfold try_log_path, try_except, usable.
  erewrite bind_run by reflexivity.
  erewrite bind_run by apply os_path_exists_run.
  destruct (dict_get path (dirs os)) as [fs|] eqn:Hdir.
  - assert (dict_has path (dirs os) = true) as Hhas
      by (apply dict_has_get; by eexists).
    rewrite Hhas, !orb_true_r. cbn [andb orb].
    erewrite bind_run.
    2:{ erewrite bind_run by apply os_path_exists_run.
        rewrite Hhas. reflexivity. }
    destruct (write_test_probe path fs os Hdir)
      as (o & os' & Hrun & Hp & Hhas' & Ho).
    exists os'. rewrite Hrun.
    destruct (open_ok os path ".write_test" && remove_ok os path ".write_test").
    + subst o. split; [done|]. by split.
    + destruct Ho as [e ->]. split; [done|]. by split.
  - assert (dict_has path (dirs os) = false) as Hhas
      by (by apply dict_has_false).
    rewrite Hhas, !orb_false_r. cbn [orb].
    destruct (parent_exists os path) eqn:Hpe; cbn [andb].
    2:{ exists os. split; [done|]. split; [apply probed_refl|done]. }
    destruct (os_makedirs_probe path os Hdir Hpe)
      as (o1 & os1 & Hrun1 & Hp1 & H1).
    destruct (makedirs_ok os path) eqn:Hmk; cbn [andb].
    + destruct H1 as [-> Hdir1].
      destruct (write_test_probe path [] os1 Hdir1)
        as (o & os' & Hrun & Hp & Hhas' & Ho).
      destruct (files_kept_answers os os1 path (proj1 Hp1))
        as (_ & _ & Hop & Hrm).
      rewrite Hop, Hrm in Ho.
      exists os'. erewrite bind_run.
      2:{ erewrite bind_run by apply os_path_exists_run.
          rewrite Hhas. exact Hrun1. }
      rewrite Hrun.
      destruct (open_ok os path ".write_test"
                && remove_ok os path ".write_test").
      * subst o. split; [done|]. split; [by eapply probed_trans|done].
      * destruct Ho as [e ->].
        split; [done|]. split; [by eapply probed_trans|done].
    + destruct H1 as [e ->]. exists os1. erewrite bind_raise.
      2:{ erewrite bind_run by apply os_path_exists_run.
          rewrite Hhas. exact Hrun1. }
      split; [done|]. split; [done|done].
Qed.

Lemma find_same {A} (f g : A -> bool) (l : list A) :
  (forall x, f x = g x) -> List.find f l = List.find g l.
Proof.
  intros H. induction l as [|x l IH]; [done|].
  cbn [List.find]. by rewrite H, IH.
Qed.

(** The loop returns the first usable path. *)
Lemma first_log_path_spec (paths : list string) (os : OS) :
  exists os',
    first_log_path paths os = (Return (List.find (usable os) paths), os')
    /\ probed os os'
    /\ forall path, List.find (usable os) paths = Some path ->
         dict_has path (dirs os') = true.
Proof.
  revert os. induction paths as [|path paths IH]; intros os.
  { exists os. split; [done|]. split; [apply probed_refl|done]. }
  destruct (try_log_path_spec path os) as (os1 & Hrun1 & Hp1 & Hhas1).
  cbn [first_log_path List.find]. erewrite bind_run by exact Hrun1.
  destruct (usable os path) eqn:Hu.
  - exists os1. split; [done|]. split; [done|].
    intros p [= <-]. by apply Hhas1.
  - destruct (IH os1) as (os2 & Hrun2 & Hp2 & Hhas2).
    assert (List.find (usable os1) paths = List.find (usable os) paths)
      as Hfind.
    { apply find_same. intros q. apply Hp1. }
    rewrite Hfind in *. exists os2. split; [done|].
    split; [by eapply probed_trans|done].
Qed.

(** X28. The log directory is the first usable candidate. A path of
    [LOG_PATHS] is usable when it or its parent exists, it exists or can be
    made, and a test file can be written to it and removed again.
    [_get_log_directory] returns the first usable path of [LOG_PATHS], and
    the fallback when there is none; it raises an exception only when
    there is none and the fallback neither exists nor can be made. The
    directory it returns exists afterwards. Whatever the outcome, every
    directory is still there and keeps its files other than the test
    file, and a directory that was made holds no other file. *)
Theorem get_log_directory_first_usable (cfg : Config) (os : OS) :
  exists o os',
    _get_log_directory cfg os = (o, os')
    /\ files_kept os os'
    /\ match List.find (usable os) (LOG_PATHS cfg) with
       | Some path => o = Return path /\ dict_has path (dirs os') = true
       | None =>
           if dict_has (FALLBACK_LOG_PATH cfg) (dirs os)
              || makedirs_ok os (FALLBACK_LOG_PATH cfg)
           then o = Return (FALLBACK_LOG_PATH cfg)
                /\ dict_has (FALLBACK_LOG_PATH cfg) (dirs os') = true
           else exists e, o = Raise e
       end.
Proof.
  destruct (first_log_path_spec (LOG_PATHS cfg) os)
    as (os1 & Hrun1 & [Hk1 _] & Hhas1).
  unfold _get_log_directory. erewrite bind_run by exact Hrun1.
  destruct (List.find (usable os) (LOG_PATHS cfg)) as [path|].
  { exists (Return path), os1. split; [done|]. split; [done|].
    split; [done|]. by apply Hhas1. }
  set (fallback := FALLBACK_LOG_PATH cfg).
  unfold bind at 1.
  erewrite (bind_run (os_path_exists _)) by apply os_path_exists_run.
  destruct (dict_has fallback (dirs os1)) eqn:Hhas; cbn [negb].
  - exists (Return fallback), os1. split; [done|]. split; [done|].
    destruct (files_kept_made os os1 fallback Hk1 Hhas) as [-> | ->];
      [done|].
    by rewrite orb_true_r.
  - assert (dict_has fallback (dirs os) = false) as ->.
    { destruct (dict_has fallback (dirs os)) eqn:E; [|done].
      by rewrite (files_kept_has os os1 fallback Hk1 E) in Hhas. }
    cbn [orb].
    destruct (files_kept_answers os os1 fallback Hk1) as (_ & Hmk & _).
    unfold os_makedirs. rewrite Hhas, Hmk.
    destruct (makedirs_ok os fallback) eqn:Emk.
    + do 2 eexists. split; [reflexivity|].
      destruct (files_kept_set fallback [] os1) as [Hk2 Hd2].
      { apply dict_has_false in Hhas. rewrite Hhas. split; [congruence|].
        intros f Hf. by apply elem_of_nil in Hf. }
      split; [by eapply files_kept_trans|]. split; [done|].
      apply dict_has_get. by eexists.
    + do 2 eexists. split; [reflexivity|]. split; [done|]. by eexists.
Qed.

Lemma get_log_directory_first_usable_witness :
  exists os',
    _get_log_directory config_example os_readonly_example
    = (Return "C:\logs", os')
    /\ files_kept os_readonly_example os'.
Proof.
  destruct (get_log_directory_first_usable config_example
              os_readonly_example) as (o & os' & Hrun & Hkept & Hfirst).
  destruct Hfirst as [-> _]. by exists os'.
Defined.

(** *** Writing lines *)

Lemma put_file_in (t : File) (fs : list File) : t ∈ put_file t fs.
Proof.
  unfold put_file. destruct (find_file (file_name t) fs) as [g|] eqn:E.
  - apply find_file_Some in E as [Hg Hname].
    apply list_elem_of_fmap. exists g. split; [|done].
    by rewrite Hname, String.eqb_refl.
  - apply elem_of_app. right. by left.
Qed.

(** Writing a file adds at most one log. *)
Lemma put_file_logs_length (tool : string) (t : File) (fs : list File) :
  length (logs_of tool (put_file t fs)) <= S (length (logs_of tool fs)).
Proof.
  unfold put_file. destruct (find_file (file_name t) fs) as [g|].
  - assert (length (logs_of tool
                      (map (fun g => if String.eqb (file_name g) (file_name t)
                                     then t else g) fs))
            = length (logs_of tool fs)) as ->; [|lia].
    unfold logs_of. induction fs as [|h fs IH]; [done|].
    cbn [map]. rewrite !filter_cons.
    destruct (String.eqb_spec (file_name h) (file_name t)) as [E|_].
    + rewrite E. destruct (decide _); cbn [length]; by rewrite IH.
    + destruct (decide _); cbn [length]; by rewrite IH.
  - unfold logs_of. rewrite filter_app, length_app.
    pose proof (length_filter (fun f => is_log_of tool (file_name f)) [t]).
    cbn [length] in *. lia.
Qed.

(** [_write_lines] never fails: the lines follow the lines the log file
    has, or nothing changes when the file cannot be opened. *)
Lemma write_lines_run (self : BMLogger) (lines : list string) (os : OS)
    (fs : list File) :
  dir_is (log_dir self) fs os ->
  _write_lines self lines os
  = (Return tt,
     if open_ok os (log_dir self) (log_file self)
     then set_dirs (dict_set (log_dir self)
                      (put_file (written self os fs lines) fs) (dirs os)) os
     else os).
Proof.
  intros Hdir. unfold _write_lines, try_except, open_write.
  rewrite Hdir. destruct (open_ok os (log_dir self) (log_file self)); [|done].
  unfold written, lines_of. by destruct (find_file (log_file self) fs).
Qed.

Lemma write_lines_missing (self : BMLogger) (lines : list string) (os : OS) :
  dict_get (log_dir self) (dirs os) = None ->
  _write_lines self lines os = (Return tt, os).
Proof.
  intros Hdir. unfold _write_lines, try_except, open_write. by rewrite Hdir.
Qed.

(** *** Names of log files *)

Lemma prefix_append (a b c : string) :
  String.prefix (a +:+ b) (a +:+ c) = String.prefix b c.
Proof.
  induction a as [|x a IH]; [done|].
  simpl. by destruct (ascii_dec x x).
Qed.

Lemma endswith_refl (k : string) : endswith k k = true.
Proof. destruct k; cbn; [done|]. by rewrite Ascii.eqb_refl, String.eqb_refl. Qed.

Lemma endswith_append (a s k : string) :
  endswith s k = true -> endswith (a +:+ s) k = true.
Proof.
  intros H. induction a as [|x a IH]; [done|].
  simpl. rewrite IH. apply orb_true_r.
Qed.

(** The name [_create_log_file] makes is the name of a log of the tool. *)
Lemma is_log_of_new (tool stamp : string) :
  is_log_of tool (tool +:+ "_" +:+ stamp +:+ ".log") = true.
Proof.
  unfold is_log_of, Str.startswith. rewrite prefix_append.
  change (String.prefix "_" ("_" +:+ stamp +:+ ".log"))
    with (String.prefix EmptyString (stamp +:+ ".log")).
  rewrite prefix_empty. cbn [andb].
  by do 2 apply endswith_append; apply endswith_append, endswith_refl.
Qed.

(** *** Making a logger *)

(** X29. A new logger leaves at most [MAX_LOGS_PER_TOOL] logs of its
    tool. When [_get_log_directory] returns a directory without double
    names that can be listed, and in which the time of every log of the
    tool can be read and every such log can be removed, [BMLogger(tool)]
    returns a logger of level [DEBUG] for that directory whose file is
    named after the tool and the time. It changes nothing but that
    directory, in which at most [MAX_LOGS_PER_TOOL] logs of the tool are
    left, the new one counted, and every file that is not a log of the
    tool stays. When the new file can be opened it ends with the eight
    lines of the header. *)
Theorem init_bounds_logs (cfg : Config) (tool : string) (os os1 : OS)
    (dir : string) (fs : list File) :
  _get_log_directory cfg os = (Return dir, os1) ->
  dir_is dir fs os1 ->
  NoDup (map file_name fs) ->
  listdir_ok os1 dir = true ->
  (forall f, f ∈ logs_of tool fs ->
     getmtime_ok os1 dir (file_name f) = true
     /\ remove_ok os1 dir (file_name f) = true) ->
  let self :=
    {| tool_name := tool; log_level := 10; log_dir := dir;
       log_file := tool +:+ "_" +:+ now_file (clock os1) +:+ ".log" |} in
  exists os' fs',
    __init__ cfg tool os = (Return self, os')
    /\ dir_is dir fs' os'
    /\ only_dir_changed dir os1 os'
    /\ length (logs_of tool fs') <= MAX_LOGS_PER_TOOL
    /\ (forall f, f ∈ fs -> is_log_of tool (file_name f) = false -> f ∈ fs')
    /\ (open_ok os1 dir (log_file self) = true ->
        exists f old,
          f ∈ fs' /\ file_name f = log_file self
          /\ file_mtime f = time_now (clock os1)
          /\ file_lines f
             = old
               ++ [ str_mul "=" 70;
                    "3BM BOUWKUNDE - " +:+ upper tool +:+ " LOG";
                    str_mul "=" 70;
                    "Timestamp: " +:+ now_date (clock os1);
                    "Log file: " +:+ full_path dir (log_file self);
                    "Log level: DEBUG";
                    str_mul "-" 70;
                    EmptyString ]).
Proof.
  intros Hget Hdir Hnd Hlist Hok self.
  destruct (cleanup_run self os1 fs Hdir Hnd Hlist Hok)
    as (os2 & fs1 & logs & Hclean & Hdir1 & Hframe1 & _ & _ & Hlength & _
        & Hlen & Hkeep).
  cbn [tool_name log_dir self] in *.
  assert (open_ok os2 = open_ok os1 /\ clock os2 = clock os1) as [Hopen Hclock]
    by (by destruct Hframe1 as (_ & _ & _ & _ & -> & _ & -> & _)).
  set (header := [ str_mul "=" 70;
                   "3BM BOUWKUNDE - " +:+ upper tool +:+ " LOG";
                   str_mul "=" 70;
                   "Timestamp: " +:+ now_date (clock os1);
                   "Log file: " +:+ full_path dir (log_file self);
                   "Log level: DEBUG";
                   str_mul "-" 70;
                   EmptyString ]).
  pose proof (write_lines_run self header os2 fs1 Hdir1) as Hwrite.
  set (os' := if open_ok os2 (log_dir self) (log_file self)
              then set_dirs (dict_set (log_dir self)
                               (put_file (written self os2 fs1 header) fs1)
                               (dirs os2)) os2
              else os2) in *.
  set (fs' := if open_ok os2 (log_dir self) (log_file self)
              then put_file (written self os2 fs1 header) fs1 else fs1).
  assert (dir_is dir fs' os' /\ only_dir_changed dir os2 os') as [Hdir' Hframe2].
  { unfold os', fs'. cbn [log_dir self].
    destruct (open_ok os2 dir (log_file self)).
    - destruct (only_dir_changed_set dir fs1
                  (put_file (written self os2 fs1 header) fs1) os2 Hdir1).
      by split.
    - split; [done|apply only_dir_changed_refl]. }
  exists os', fs'. split.
  { unfold __init__. erewrite bind_run by exact Hget.
    erewrite bind_run by reflexivity.
    erewrite bind_run by exact Hclean.
    erewrite bind_run.
    2:{ unfold _write_header. erewrite bind_run by reflexivity.
        rewrite Hclock. exact Hwrite. }
    reflexivity. }
  split; [done|]. split; [by eapply only_dir_changed_trans|].
  assert (length (logs_of tool fs1) <= MAX_LOGS_PER_TOOL - 1) as Hnine
    by (unfold MAX_LOGS_PER_TOOL in *; lia).
  split; [|split].
  - unfold fs'. destruct (open_ok os2 _ _).
    + pose proof (put_file_logs_length tool (written self os2 fs1 header) fs1).
      unfold MAX_LOGS_PER_TOOL in *. lia.
    + unfold MAX_LOGS_PER_TOOL in *. lia.
  - intros f Hf Hnolog. pose proof (Hkeep f Hf Hnolog) as Hf1.
    unfold fs'. destruct (open_ok os2 _ _); [|done].
    apply put_file_elem; [|done]. cbn [written file_name log_file self].
    intros E. rewrite E, is_log_of_new in Hnolog. done.
  - intros Hop. unfold fs'. cbn [log_dir self]. rewrite Hopen, Hop.
    exists (written self os2 fs1 header), (lines_of (log_file self) fs1).
    split; [apply put_file_in|]. split; [done|].
    split; [by rewrite <- Hclock|done].
Qed.

Lemma init_bounds_logs_witness :
  exists os' fs',
    __init__ config_single_example "AutoDim" os_example
    = (Return logger_example, os')
    /\ dir_is "C:\logs" fs' os'
    /\ length (logs_of "AutoDim" fs') <= 10.
Proof.
  destruct (init_bounds_logs config_single_example "AutoDim" os_example
              (snd (_get_log_directory config_single_example os_example))
              "C:\logs" files_example)
    as (os' & fs' & Hrun & Hdir & _ & Hlen & _).
  - vm_compute. reflexivity.
  - vm_compute. reflexivity.
  - apply (bool_decide_unpack _). vm_compute. reflexivity.
  - reflexivity.
  - intros f _. split; reflexivity.
  - exists os', fs'. split; [exact Hrun|]. split; [exact Hdir|exact Hlen].
Defined.

(** *** Logging *)

(** X30. The four logging methods append their lines. For a logger of the
    configured level, in a directory that exists, each of [debug], [info],
    [warning] and [error] returns without an exception and changes no file
    but the log file. When the log file can be opened it is stamped with
    the time of the clock and its lines are the lines it had, followed by
    the line with the time, the name of the level and the message, and by
    the line of the data when data is given; when it cannot be opened
    nothing changes. A message of a level below the level of the logger
    is dropped. *)
Theorem log_method_appends (lvl : level) (self : BMLogger)
    (message : string) (data : option string) (os : OS) (fs : list File) :
  dir_is (log_dir self) fs os ->
  log_level self = LogLevel.get_value LOG_LEVEL ->
  (forall level exc_info,
     (level < log_level self)%Z ->
     _log self level message data exc_info os = (Return tt, os))
  /\ exists os' fs',
       log_method lvl self message data None os = (Return tt, os')
       /\ only_dir_changed (log_dir self) os os'
       /\ dir_is (log_dir self) fs' os'
       /\ (forall f, file_name f <> log_file self -> (f ∈ fs' <-> f ∈ fs))
       /\ if open_ok os (log_dir self) (log_file self)
          then exists f,
                 f ∈ fs' /\ file_name f = log_file self
                 /\ file_mtime f = time_now (clock os)
                 /\ file_lines f
                    = lines_of (log_file self) fs
                      ++ ("[" +:+ now_time (clock os) +:+ "] ["
                              +:+ level_name lvl +:+ "] " +:+ message)
                         :: match data with
                            | Some text => ["  DATA: " +:+ text]
                            | None => []
                            end
          else os' = os.
Proof.
  intros Hdir Hlevel. split.
  { intros level exc Hlow. unfold _log.
    destruct (Z.leb_spec (log_level self) level); [lia|done]. }
  set (lines := ("[" +:+ now_time (clock os) +:+ "] ["
                     +:+ level_name lvl +:+ "] " +:+ message)
                :: match data with
                   | Some text => ["  DATA: " +:+ text]
                   | None => []
                   end).
  assert (log_method lvl self message data None os
          = _write_lines self lines os) as ->.
  { destruct lvl; unfold log_method, debug, info, warning, error, _log;
      rewrite Hlevel; change (LogLevel.get_value LOG_LEVEL) with 10%Z;
      cbn [Z.leb Z.compare Pos.compare Pos.compare_cont LogLevel.DEBUG
           LogLevel.INFO LogLevel.WARNING LogLevel.ERROR];
      (erewrite bind_run by reflexivity); unfold lines;
      by destruct data. }
  rewrite (write_lines_run self lines os fs Hdir).
  destruct (open_ok os (log_dir self) (log_file self)).
  - destruct (only_dir_changed_set (log_dir self) fs
                (put_file (written self os fs lines) fs) os Hdir)
      as [Hframe Hdir'].
    do 2 eexists. split; [reflexivity|]. split; [done|]. split; [done|].
    split; [intros f Hne; by apply put_file_elem|].
    exists (written self os fs lines). split; [apply put_file_in|done].
  - exists os, fs. split; [done|]. split; [apply only_dir_changed_refl|].
    by repeat split.
Qed.

Lemma log_method_appends_witness :
  exists os' fs' f,
    log_method WARNING logger_example "Element not found: cmb_naam" None
      None os_example = (Return tt, os')
    /\ dir_is "C:\logs" fs' os'
    /\ f ∈ fs'
    /\ file_lines f = ["[08:30:00.000] [WARNING] Element not found: cmb_naam"].
Proof.
  destruct (log_method_appends WARNING logger_example
              "Element not found: cmb_naam" None os_example files_example
              eq_refl eq_refl)
    as (_ & os' & fs' & Hrun & _ & Hdir & _ & f & Hf & _ & _ & Hlines).
  exists os', fs', f. split; [exact Hrun|]. split; [exact Hdir|].
  split; [exact Hf|exact Hlines].
Defined.
